(** * StaticController: a mountable static-file controller

    A shallow embedding of [staticcontroller.py]: the path resolution of
    [_default], the cache validator [has_been_modified], the date and ETag
    helpers, and the assembly of the response headers.

    Conventions of the embedding.
    - The interpreter is Python 3 on a POSIX system: [os.path] is
      [posixpath], whose [normcase] is the identity; [IOError] is
      [OSError]; [str] of a float is its shortest [repr].
    - Python [str] is [string]; a tuple or list of strings is [list string];
      an [int] is [Z].
    - A Python [float] is a binary64 number ([spec_float]): the modification
      time of a file and the clock are floats, compared exactly with the
      integer a date parses to, and printed as Python prints them.
    - The functions the controller imports from the Python standard library
      and from the hosting framework are either written out ([posixpath],
      [gmtime], the [%] formatting, the text of a float) or, when they read
      the outside world, gathered in the record [Platform].
    - A response that the controller returns or raises ends the request, and
      so does an exception that it does not catch; the filesystem calls
      made on the way are recorded in a trace. *)

From Stdlib Require Import ZArith List String Ascii Bool Lia.
From Stdlib Require Import Numbers.DecimalString Numbers.DecimalZ Numbers.DecimalPos.
From Stdlib Require Import Floats.SpecFloat.
Import ListNotations.

Local Open Scope string_scope.
Local Open Scope Z_scope.

(* ================================================================= *)
(** ** Python strings *)

Module Py.

(** [str(n)] and [%d] for an [int]: decimal digits with a leading minus
    sign for negative numbers. *)
Definition str_int (n : Z) : string := NilZero.string_of_int (Z.to_int n).

(** [%02d]: at least two characters, padded on the left with a zero. *)
Definition fmt_02d (n : Z) : string :=
  let s := str_int n in
  if (String.length s <? 2)%nat then "0" ++ s else s.

(** [s.startswith(p)] and [s.endswith(c)] for a one-character [c]. *)
Definition startswith (s p : string) : bool := String.prefix p s.

Fixpoint endswith (s : string) (c : ascii) : bool :=
  match s with
  | EmptyString => false
  | String a EmptyString => Ascii.eqb a c
  | String _ s' => endswith s' c
  end.

(** [c in s] for a one-character [c]. *)
Fixpoint contains (s : string) (c : ascii) : bool :=
  match s with
  | EmptyString => false
  | String a s' => orb (Ascii.eqb a c) (contains s' c)
  end.

(** [s.split(c)] for a one-character separator: never the empty list. *)
Fixpoint split (c : ascii) (s : string) : list string :=
  match s with
  | EmptyString => [EmptyString]
  | String a s' =>
      if Ascii.eqb a c then EmptyString :: split c s'
      else match split c s' with
           | [] => [String a EmptyString]
           | w :: ws => String a w :: ws
           end
  end.

(** [sep.join(l)]. *)
Fixpoint join (sep : string) (l : list string) : string :=
  match l with
  | [] => EmptyString
  | [x] => x
  | x :: xs => x ++ sep ++ join sep xs
  end.

(** [c * n] for a one-character string. *)
Fixpoint repeat_char (c : ascii) (n : nat) : string :=
  match n with
  | O => EmptyString
  | S n' => String c (repeat_char c n')
  end.

(** Truthiness of a string and of an optional string ([None] is falsy). *)
Definition truthy_str (s : string) : bool := negb (String.eqb s EmptyString).

Definition truthy_opt (o : option string) : bool :=
  match o with
  | None => false
  | Some s => truthy_str s
  end.

(** [x in l] for a tuple of strings. *)
Definition mem (x : string) (l : list string) : bool :=
  existsb (String.eqb x) l.

(** [c.isdigit()] for an ASCII character, and for every character of a
    string. *)
Definition is_digit (c : ascii) : bool :=
  andb (48 <=? nat_of_ascii c)%nat (nat_of_ascii c <=? 57)%nat.

Fixpoint all_digits (s : string) : bool :=
  match s with
  | EmptyString => true
  | String a s' => andb (is_digit a) (all_digits s')
  end.


(** The [%s] conversion: [str(x)]. *)
Class Str (A : Type) := str : A -> string.

#[export] Instance Str_int : Str Z := str_int.
#[export] Instance Str_str : Str string := fun s => s.

(** The classes of the exceptions the library calls of the controller
    raise. [IOError] has been the same class as [OSError] since Python 3.3;
    [FileNotFoundError], [PermissionError] and the like are [OSError]s, and
    [UnicodeEncodeError] is a [ValueError]. *)
Inductive exception :=
| OSError
| TypeError
| OverflowError
| ValueError.

Definition IOError : exception := OSError.

Definition exception_eqb (e e' : exception) : bool :=
  match e, e' with
  | OSError, OSError | TypeError, TypeError
  | OverflowError, OverflowError | ValueError, ValueError => true
  | _, _ => false
  end.

(** [isinstance(e, classes)], the test an [except] clause makes. *)
Definition isinstance (e : exception) (classes : list exception) : bool :=
  existsb (exception_eqb e) classes.

End Py.

Import Py.

(* ================================================================= *)
(** ** Python floats *)

Module PyFloat.

(** A float is a binary64 number: a signed zero, an infinity, NaN, or
    [(-1)^s * m * 2^e]. The values Python computes with are the ones
    [binary_normalize] returns, with [m] below [2^53]. *)
Definition float : Type := spec_float.

Definition prec : Z := 53.
Definition emax : Z := 1024.

(** [float(n)]: the nearest float, ties to even. *)
Definition of_int (n : Z) : float := binary_normalize prec emax n 0 false.

(** [x + y] on floats. *)
Definition add (x y : float) : float := SFadd prec emax x y.

(** [x + n] for an [int] [n]: the integer is converted first, which fails
    when it is too large for a float. *)
Definition add_int (x : float) (n : Z) : exception + float :=
  match of_int n with
  | S754_infinity _ => inl OverflowError
  | y => inr (add x y)
  end.

(** Truthiness: every float but the two zeros. *)
Definition truthy (x : float) : bool :=
  match x with
  | S754_zero _ => false
  | _ => true
  end.

(** [x <= n] for an [int] [n]: Python compares the two numbers exactly,
    without rounding the integer. *)
Definition le_int (x : float) (n : Z) : bool :=
  match x with
  | S754_zero _ => 0 <=? n
  | S754_infinity s => s
  | S754_nan => false
  | S754_finite s m e =>
      let v := cond_Zopp s (Z.pos m) in
      if 0 <=? e then v * 2 ^ e <=? n else v <=? n * 2 ^ (- e)
  end.

(** [math.floor(x)], for a finite float. *)
Definition floor (x : float) : option Z :=
  match x with
  | S754_zero _ => Some 0
  | S754_finite s m e =>
      let v := cond_Zopp s (Z.pos m) in
      Some (if 0 <=? e then v * 2 ^ e else v / 2 ^ (- e))
  | _ => None
  end.

(** Whether two floats are the same float (not [==], for which the two
    zeros are equal and NaN differs from itself). *)
Definition eqb (x y : float) : bool :=
  match x, y with
  | S754_zero s, S754_zero s' => Bool.eqb s s'
  | S754_infinity s, S754_infinity s' => Bool.eqb s s'
  | S754_nan, S754_nan => true
  | S754_finite s m e, S754_finite s' m' e' =>
      andb (Bool.eqb s s') (andb (Pos.eqb m m') (Z.eqb e e'))
  | _, _ => false
  end.

(** The float nearest to the positive fraction [n / d]: the quotient is
    taken with more than sixty bits and a last bit that tells whether
    anything was left over, and is then rounded. *)
Definition of_ratio (n d : Z) : float :=
  let s := Z.max 0 (64 + Z.log2 d - Z.log2 n) in
  let q := (n * 2 ^ s) / d in
  let sticky := if (n * 2 ^ s) mod d =? 0 then 0 else 1 in
  binary_normalize prec emax (2 * q + sticky) (- s - 1) false.

(** The number a run of decimal digits writes. *)
Fixpoint digits_value (acc : Z) (ds : string) : Z :=
  match ds with
  | EmptyString => acc
  | String c r => digits_value (10 * acc + (Z.of_nat (nat_of_ascii c) - 48)) r
  end.

(** [float] of the decimal [0.ds * 10^decpt]. *)
Definition of_decimal (ds : string) (decpt : Z) : float :=
  let p := decpt - Z.of_nat (String.length ds) in
  let D := digits_value 0 ds in
  if 0 <=? p then of_ratio (D * 10 ^ p) 1 else of_ratio D (10 ^ (- p)).

(** Significant digits: at least one, no zero in front and none at the
    end. *)
Definition normalized (ds : string) : bool :=
  match ds with
  | EmptyString => false
  | String c _ =>
      andb (all_digits ds)
           (andb (negb (Ascii.eqb c "0")) (negb (endswith ds "0")))
  end.

(** The digits [fst r], with the decimal point [snd r] places after their
    start, read back as the float [x]. *)
Definition reads_as (x : float) (r : string * Z) : bool :=
  andb (normalized (fst r)) (eqb (of_decimal (fst r) (snd r)) x).

Fixpoint strip_zeros (fuel : nat) (c : Z) : Z :=
  match fuel with
  | O => c
  | S fuel' =>
      if andb (c mod 10 =? 0) (negb (c =? 0)) then strip_zeros fuel' (c / 10)
      else c
  end.

(** The digits of the integer [c], standing for [c / 10^p], and the place
    of their decimal point. *)
Definition candidate (p c : Z) : string * Z :=
  (str_int (strip_zeros 20 c), Z.of_nat (String.length (str_int c)) - p).

Definition below_pow10 (n d p : Z) : bool :=
  if 0 <=? p then n <? 10 ^ p * d else n * 10 ^ (- p) <? d.

(** The least [p] with [n / d < 10^p], looked for around the estimate the
    binary logarithms give. *)
Definition decimal_point (n d : Z) : Z :=
  let est := ((Z.log2 n - Z.log2 d) * 30103) / 100000 in
  match find (below_pow10 n d) [est - 2; est - 1; est; est + 1; est + 2; est + 3] with
  | Some p => p
  | None => est
  end.

(** The decimals of [k] digits next to [n / d], below and above: the one
    that reads back as [x], the nearer one when both do. *)
Definition shortest_at (x : float) (n d decpt k : Z) : option (string * Z) :=
  let p := k - decpt in
  let tn := if 0 <=? p then n * 10 ^ p else n in
  let td := if 0 <=? p then d else d * 10 ^ (- p) in
  let lo := tn / td in
  let hi := lo + 1 in
  let below := candidate p lo in
  let above := candidate p hi in
  match reads_as x below, reads_as x above with
  | true, true =>
      match (tn - lo * td) ?= (hi * td - tn) with
      | Lt => Some below
      | Gt => Some above
      | Eq => Some (if Z.even lo then below else above)
      end
  | true, false => Some below
  | false, true => Some above
  | false, false => None
  end.

Fixpoint first_some {A B} (f : A -> option B) (l : list A) : option B :=
  match l with
  | [] => None
  | a :: l' => match f a with Some b => Some b | None => first_some f l' end
  end.

(** The shortest run of digits that reads back as [m * 2^e]: seventeen
    digits are enough for every binary64 number. *)
Definition shortest (m : positive) (e : Z) : option (string * Z) :=
  let x := S754_finite false m e in
  let n := if 0 <=? e then Z.pos m * 2 ^ e else Z.pos m in
  let d := if 0 <=? e then 1 else 2 ^ (- e) in
  first_some (shortest_at x n d (decimal_point n d))
    [1; 2; 3; 4; 5; 6; 7; 8; 9; 10; 11; 12; 13; 14; 15; 16; 17].

(** [s[n:]]. *)
Definition string_from (n : nat) (s : string) : string :=
  String.substring n (String.length s - n) s.

(** The exponent of the scientific notation: a sign and two digits or
    more. *)
Definition fmt_exponent (e : Z) : string :=
  (if e <? 0 then "-" else "+") ++ fmt_02d (Z.abs e).

(** The digits laid out as [repr] does: positional notation when the
    decimal point falls within sixteen places after the first digit or
    three before it, scientific notation otherwise. *)
Definition fmt (ds : string) (decpt : Z) : string :=
  let n := Z.of_nat (String.length ds) in
  if andb (-4 <? decpt) (decpt <=? 16) then
    if decpt <=? 0 then "0." ++ repeat_char "0" (Z.to_nat (- decpt)) ++ ds
    else if decpt <? n then
      String.substring 0 (Z.to_nat decpt) ds ++ "." ++ string_from (Z.to_nat decpt) ds
    else ds ++ repeat_char "0" (Z.to_nat (decpt - n)) ++ ".0"
  else
    String.substring 0 1 ds
    ++ (if n =? 1 then EmptyString else "." ++ string_from 1 ds)
    ++ "e" ++ fmt_exponent (decpt - 1).

Definition sign (s : bool) : string := if s then "-" else EmptyString.

(** [repr(x)], which is also [str(x)]. The last case is not reached for a
    binary64 number, which seventeen digits always tell from the others;
    it keeps [repr] total on [spec_float]. *)
Definition repr (x : float) : string :=
  match x with
  | S754_nan => "nan"
  | S754_infinity s => sign s ++ "inf"
  | S754_zero s => sign s ++ "0.0"
  | S754_finite s m e =>
      sign s ++
      match shortest m e with
      | Some (ds, decpt) => fmt ds decpt
      | None => "ldexp(" ++ str_int (Z.pos m) ++ ", " ++ str_int e ++ ")"
      end
  end.

(** Reading a text in positional notation back: the significant digits
    of the integer part [i] followed by the fraction [f], and the place of
    the decimal point among them. *)
Fixpoint lstrip_zeros (s : string) : string :=
  match s with
  | EmptyString => s
  | String c r => if Ascii.eqb c "0" then lstrip_zeros r else s
  end.

Fixpoint count_zeros (s : string) : nat :=
  match s with
  | EmptyString => O
  | String c r => if Ascii.eqb c "0" then S (count_zeros r) else O
  end.

Fixpoint rstrip_zeros (s : string) : string :=
  match s with
  | EmptyString => s
  | String c r =>
      let r' := rstrip_zeros r in
      if andb (Ascii.eqb c "0") (String.eqb r' EmptyString) then EmptyString
      else String c r'
  end.

Definition significant (i f : string) : string * Z :=
  (rstrip_zeros (lstrip_zeros (i ++ f)),
   Z.of_nat (String.length i) - Z.of_nat (count_zeros (i ++ f))).

(** The mantissa of the scientific notation, and its digits read back. *)
Definition mantissa (ds : string) : string :=
  match ds with
  | EmptyString => EmptyString
  | String a EmptyString => ds
  | String a r => String a (String "." r)
  end.

Definition mantissa_digits (m : string) : string :=
  match m with
  | String a (String c r) => if Ascii.eqb c "." then String a r else m
  | _ => m
  end.

(** The float without its sign, and its sign. *)
Definition abs (x : float) : float :=
  match x with
  | S754_zero _ => S754_zero false
  | S754_infinity _ => S754_infinity false
  | S754_nan => S754_nan
  | S754_finite _ m e => S754_finite false m e
  end.

Definition signbit (x : float) : bool :=
  match x with
  | S754_zero s | S754_infinity s | S754_finite s _ _ => s
  | S754_nan => false
  end.

End PyFloat.

#[export] Instance Str_float : Str PyFloat.float := PyFloat.repr.

(* ================================================================= *)
(** ** [time.gmtime] *)

Record struct_time := {
  tm_year : Z;
  tm_mon : Z;    (* 1 .. 12 *)
  tm_mday : Z;   (* 1 .. 31 *)
  tm_hour : Z;
  tm_min : Z;
  tm_sec : Z;
  tm_wday : Z    (* Monday is 0 *)
}.

(** The proleptic Gregorian date of a day count relative to 1970-01-01. *)
Definition civil_from_days (days : Z) : Z * Z * Z :=
  let z := days + 719468 in
  let era := z / 146097 in
  let doe := z - era * 146097 in
  let yoe := (doe - doe / 1460 + doe / 36524 - doe / 146096) / 365 in
  let doy := doe - (365 * yoe + yoe / 4 - yoe / 100) in
  let mp := (5 * doy + 2) / 153 in
  let d := doy - (153 * mp + 2) / 5 + 1 in
  let m := if mp <? 10 then mp + 3 else mp - 9 in
  let y := yoe + era * 400 + (if m <=? 2 then 1 else 0) in
  (y, m, d).

Definition gmtime (t : Z) : struct_time :=
  let days := t / 86400 in
  let rem := t mod 86400 in
  let '(y, m, d) := civil_from_days days in
  {| tm_year := y; tm_mon := m; tm_mday := d;
     tm_hour := rem / 3600;
     tm_min := (rem mod 3600) / 60;
     tm_sec := rem mod 60;
     tm_wday := (days + 3) mod 7 |}.

(* ================================================================= *)
(** ** [posixpath] *)

Module posixpath.

Definition sep : ascii := "/"%char.

(** [normcase] is the identity on POSIX: paths are compared as they are
    written, letter case included. *)
Definition normcase (path : string) : string := path.

(** One round of the loop of [join(a, *p)]. *)
Definition join1 (path b : string) : string :=
  if startswith b "/" then b
  else if orb (String.eqb path EmptyString) (endswith path sep) then path ++ b
  else path ++ "/" ++ b.

Definition join (a : string) (p : list string) : string :=
  fold_left join1 p a.

(** The number of leading slashes [normpath] keeps: two when the path
    starts with exactly two, one when it starts with one or with three
    or more, none otherwise. *)
Definition initial_slashes (path : string) : nat :=
  if startswith path "/" then
    if andb (startswith path "//") (negb (startswith path "///"))
    then 2%nat else 1%nat
  else 0%nat.

(** One round of the loop of [normpath] over the components. *)
Definition norm_step (initial : nat) (new_comps : list string)
    (comp : string) : list string :=
  if mem comp [EmptyString; "."] then new_comps
  else if orb (negb (String.eqb comp ".."))
            (orb (andb (Nat.eqb initial 0)
                       (Nat.eqb (List.length new_comps) 0))
                 (andb (negb (Nat.eqb (List.length new_comps) 0))
                       (String.eqb (last new_comps EmptyString) "..")))
       then (new_comps ++ [comp])%list
  else if negb (Nat.eqb (List.length new_comps) 0) then removelast new_comps
  else new_comps.

Definition normpath (path : string) : string :=
  if String.eqb path EmptyString then "."
  else
    let initial := initial_slashes path in
    let comps := split sep path in
    let new_comps := fold_left (norm_step initial) comps [] in
    let path' := repeat_char sep initial ++ Py.join "/" new_comps in
    if String.eqb path' EmptyString then "." else path'.

End posixpath.

(* ================================================================= *)
(** ** The outside world *)

(** An open file object, named by the path it was opened on. *)
Inductive file := file_of (path : string).

Inductive open_result :=
| Opened (fp : file)
| OpenError (e : string).   (* IOError, OSError or TypeError, with its message *)

(** The calls whose answers depend on the machine and on the moment: the
    filesystem, the clock, the MIME table, and the parser of e-mail dates;
    with them the size of the blocks a file is sent in, a constant the
    controller imports from [tg.support.statics].
    A call that fails answers with the exception it raises: [OSError] for
    a file that cannot be examined, [ValueError] for a path with a null
    byte in it; [TypeError] when [parsedate_tz] finds no date, so that
    [mktime_tz] is given [None], [OverflowError] or [ValueError] for a date
    out of range. [gmtime_error] is what [time.gmtime] raises for a number
    of seconds that is too large for the machine, [None] when it converts
    it. *)
Record Platform := {
  getmtime : string -> exception + PyFloat.float;
  getsize : string -> exception + Z;
  isfile : string -> bool;
  open_rb : string -> open_result;
  guess_type : string -> option string;   (* the type of [guess_type(path, strict=False)] *)
  time : PyFloat.float;
  gmtime_error : Z -> option exception;
  mktime_parsedate_tz : string -> exception + Z;
  _BLOCK_SIZE : Z                         (* the framework's block size *)
}.

(** [request.environ], with the keys the controller reads. *)
Record environ := {
  REQUEST_METHOD : string;
  PATH_INFO : string;
  HTTP_IF_MODIFIED_SINCE : option string;
  HTTP_IF_NONE_MATCH : option string;
  wsgi_file_wrapper : bool       (* whether the server offers ['wsgi.file_wrapper'] *)
}.

Definition header : Type := string * string.

(** The iterable handed back on success: the server's wrapper when the
    environ has one, [_FileIter] otherwise. *)
Inductive app_iter :=
| server_file_wrapper (fp : file) (block_size : Z)
| _FileIter (fp : file) (block_size : Z).

(** How a request ends. [Success] carries the headers appended to
    [response.headers]; [Raised] is an exception that no [except] clause of
    the controller catches and that leaves [_default]. *)
Inductive Response :=
| redirect (url : string)
| HTTPNotFound (detail : option string)
| HTTPForbidden (detail : string)
| HTTPBadRequest (detail : string)
| HTTPNotModified (headers : list header)
| Success (headers : list header) (body : app_iter)
| Raised (e : exception).

(** Filesystem calls, in the order they are made. *)
Inductive FsOp :=
| op_getmtime (path : string)
| op_getsize (path : string)
| op_isfile (path : string)
| op_open (path : string).

(** A computation that records its filesystem calls and either goes on
    with a value or ends the request. *)
Definition M (A : Type) : Type := list FsOp * (Response + A).

Definition ret {A} (a : A) : M A := ([], inr a).

Definition bind {A B} (m : M A) (f : A -> M B) : M B :=
  match m with
  | (t, inl r) => (t, inl r)
  | (t, inr a) => let '(t', x) := f a in ((t ++ t')%list, x)
  end.

Notation "x <- m ;; f" := (bind m (fun x => f))
  (at level 61, m at next level, right associativity).

(** A pure step that may raise. *)
Definition lift {A} (x : Response + A) : M A := ([], x).

(** The response of a finished computation. *)
Definition run (m : M Response) : list FsOp * Response :=
  (fst m, match snd m with inl r => r | inr r => r end).

(** [except classes: handler]: the handler answers for an exception of one
    of the classes, any other exception goes on. *)
Definition except (classes : list exception) (handler : Response)
    (e : exception) : Response :=
  if isinstance e classes then handler else Raised e.

(** A call outside any [try]. *)
Definition uncaught {A} (x : exception + A) : Response + A :=
  match x with
  | inl e => inl (Raised e)
  | inr a => inr a
  end.

(** The calls, each under its [try] where the source has one. *)
Definition try_getmtime (w : Platform) (path : string) (classes : list exception)
    (handler : Response) : M PyFloat.float :=
  ([op_getmtime path],
   match getmtime w path with
   | inr t => inr t
   | inl e => inl (except classes handler e)
   end).

Definition try_getsize (w : Platform) (path : string) (classes : list exception)
    (handler : Response) : M Z :=
  ([op_getsize path],
   match getsize w path with
   | inr n => inr n
   | inl e => inl (except classes handler e)
   end).

Definition call_isfile (w : Platform) (path : string) : M bool :=
  ([op_isfile path], inr (isfile w path)).

Definition try_open (w : Platform) (path : string)
    (handler : string -> Response) : M file :=
  ([op_open path],
   match open_rb w path with Opened fp => inr fp | OpenError e => inl (handler e) end).

(** The number of seconds [time.gmtime] works with: a float is rounded
    down. NaN is a [ValueError], an infinity an [OverflowError], and a
    number too large for the machine what [gmtime_error] says. *)
Definition as_time_t (w : Platform) (x : PyFloat.float) : exception + Z :=
  match x with
  | S754_nan => inl ValueError
  | _ =>
      match PyFloat.floor x with
      | None => inl OverflowError
      | Some t =>
          match gmtime_error w t with
          | Some e => inl e
          | None => inr t
          end
      end
  end.

(* ================================================================= *)
(** ** [tg.support.statics] *)

(** [INVALID_PATH_PARTS] is imported from the hosting framework
    ([tg.support.statics]), where it is the intersection of the set of the
    two names [..] and [.] with its argument: the members of the segment
    sequence that are one of the two. A set is truthy when it is not empty. *)
Definition INVALID_PATH_PARTS (args : list string) : list string :=
  filter (fun part => mem part args) [".."; "."].

Definition truthy_set (s : list string) : bool :=
  negb (Nat.eqb (List.length s) 0).

(* ================================================================= *)
(** ** The controller *)

Record StaticController := {
  cache_max_age : Z;
  static_path : string
}.

Definition dquote : string := String (ascii_of_nat 34) EmptyString.
Definition CRLF : string :=
  String (ascii_of_nat 13) (String (ascii_of_nat 10) EmptyString).

(** [t[i]] for a tuple of strings; a negative index counts from the end. *)
Definition getitem (t : list string) (i : Z) : string :=
  let j := if i <? 0 then i + Z.of_nat (List.length t) else i in
  nth (Z.to_nat j) t EmptyString.

Definition _adapt_path (path : string) : string :=
  posixpath.normcase (posixpath.normpath path).

(** [__init__]; [package_dir] is [dirname(config.package.__file__)]. *)
Definition __init__ (package_dir : string) (static_path : string)
    (cache_max_age : Z) : StaticController :=
  let application_path := _adapt_path package_dir in
  {| cache_max_age := cache_max_age;
     static_path := _adapt_path (posixpath.join application_path [static_path]) |}.

(** The argument of [make_date]: a [datetime], given by its
    [utctimetuple()], or a timestamp in whole seconds. *)
Inductive date_arg :=
| of_datetime (utctimetuple : struct_time)
| of_timestamp (t : Z).

(** The text [make_date] returns. [time.gmtime] turns a timestamp into
    whole seconds before anything else and fails on some: what a call
    raises is in [call_make_date]. *)
Definition make_date (d : date_arg) : string :=
  let d := match d with
           | of_datetime utc => utc
           | of_timestamp t => gmtime t
           end in
  getitem ["Mon"; "Tue"; "Wed"; "Thu"; "Fri"; "Sat"; "Sun"] (tm_wday d)
  ++ ", " ++ fmt_02d (tm_mday d) ++ " "
  ++ getitem ["Jan"; "Feb"; "Mar"; "Apr"; "May"; "Jun"; "Jul"; "Aug"; "Sep";
              "Oct"; "Nov"; "Dec"] (tm_mon d - 1)
  ++ " " ++ str_int (tm_year d) ++ " "
  ++ fmt_02d (tm_hour d) ++ ":" ++ fmt_02d (tm_min d) ++ ":"
  ++ fmt_02d (tm_sec d) ++ " GMT".

(** [make_date(x)] for a float [x], as [_default] calls it. *)
Definition call_make_date (w : Platform) (x : PyFloat.float) : exception + string :=
  match as_time_t w x with
  | inl e => inl e
  | inr t => inr (make_date (of_timestamp t))
  end.

Definition generate_etag {A B} `{Str A} `{Str B}
    (last_modified : A) (content_length : B) : string :=
  dquote ++ str last_modified ++ "-" ++ str content_length ++ dquote.

Definition parse_date (w : Platform) (value : string) : Response + Z :=
  match mktime_parsedate_tz w value with
  | inr t => inr t
  | inl e =>
      inl (except [TypeError; OverflowError]
             (HTTPBadRequest ("Received an ill-formed timestamp." ++ CRLF)) e)
  end.

Definition has_been_modified (w : Platform) (env : environ) (etag : string)
    (last_modified : PyFloat.float) : Response + bool :=
  if negb (mem (REQUEST_METHOD env) ["GET"; "HEAD"]) then inr false
  else
    let unmodified := false in
    let modified_since := HTTP_IF_MODIFIED_SINCE env in
    let after_modified_since : Response + bool :=
      match modified_since with
      | Some value =>
          if truthy_str value then
            match parse_date w value with
            | inl raised => inl raised
            | inr modified_since =>
                if andb (PyFloat.truthy last_modified)
                        (PyFloat.le_int last_modified modified_since)
                then inr true
                else inr unmodified
            end
          else inr unmodified
      | None => inr unmodified
      end in
    match after_modified_since with
    | inl raised => inl raised
    | inr unmodified =>
        let if_none_match := HTTP_IF_NONE_MATCH env in
        let unmodified :=
          match if_none_match with
          | Some value =>
              if andb (truthy_str value) (String.eqb etag value)
              then true else unmodified
          | None => unmodified
          end in
        inr (negb unmodified)
    end.

(** The file a request names: the segments joined onto the static root and
    normalized, then the extension recovered from [PATH_INFO]. *)
Definition resolve_filepath (self : StaticController) (env : environ)
    (args : list string) : string :=
  let filepath := _adapt_path (posixpath.join (static_path self) args) in
  let extension := split "." (PATH_INFO env) in
  if (1 <? List.length extension)%nat
  then filepath ++ "." ++ nth (List.length extension - 1) extension EmptyString
  else filepath.

(** [make_date(time() + self.cache_max_age)]. *)
Definition expires_date (self : StaticController) (w : Platform) : exception + string :=
  match PyFloat.add_int (time w) (cache_max_age self) with
  | inl e => inl e
  | inr x => call_make_date w x
  end.

Definition _default_body (self : StaticController) (w : Platform)
    (env : environ) (args : list string) : M Response :=
  if Nat.eqb (List.length args) 0 then
    ret (redirect (PATH_INFO env ++ "index.html"))
  else if truthy_set (INVALID_PATH_PARTS args) then
    ret (HTTPNotFound (Some ("Out of bounds: " ++ PATH_INFO env)))
  else
    let filepath := resolve_filepath self env args in
    last_modified <- try_getmtime w filepath [IOError; OSError] (HTTPNotFound None) ;;
    content_length <- try_getsize w filepath [IOError; OSError] (HTTPNotFound None) ;;
    is_file <- call_isfile w filepath ;;
    if is_file then
      let etag := generate_etag last_modified content_length in
      let headers :=
        [("Etag", str etag);
         ("Cache-Control", "max-age=" ++ str_int (cache_max_age self) ++ ", public")] in
      modified <- lift (has_been_modified w env etag last_modified) ;;
      if negb modified then ret (HTTPNotModified headers)
      else
        fp <- try_open w filepath
                (fun e => HTTPForbidden
                            ("You are not permitted to view this file (" ++ e ++ ")")) ;;
        let content_type :=
          match guess_type w filepath with
          | None => "application/octet-stream"
          | Some content_type => content_type
          end in
        expires <- lift (uncaught (expires_date self w)) ;;
        modified_date <- lift (uncaught (call_make_date w last_modified)) ;;
        let headers :=
          List.app headers
           [("Expires", expires);
            ("Content-Type", content_type);
            ("Content-Length", str_int content_length);
            ("Last-Modified", modified_date);
            ("Etag", str etag);
            ("Cache-Control", "max-age=" ++ str_int (cache_max_age self) ++ ", public")] in
        ret (Success headers
               ((if wsgi_file_wrapper env then server_file_wrapper else _FileIter)
                  fp (_BLOCK_SIZE w)))
    else ret (HTTPNotFound None).

(** [_default]: the filesystem calls made and how the request ends. *)
Definition _default (self : StaticController) (w : Platform)
    (env : environ) (args : list string) : list FsOp * Response :=
  run (_default_body self w env args).

(* ================================================================= *)
(** ** Vocabulary of the statements *)

(** The two headers of a "not modified" response. *)
Definition minimal_headers (self : StaticController) (etag : string) : list header :=
  [("Etag", etag);
   ("Cache-Control", "max-age=" ++ str_int (cache_max_age self) ++ ", public")].

(** The text of a date that was formatted. *)
Definition date_text (d : exception + string) : string :=
  match d with
  | inl _ => EmptyString
  | inr s => s
  end.

(** The two dates of a successful response can be formatted: neither call
    of [make_date] raises. *)
Definition dates_formatted (self : StaticController) (w : Platform)
    (lm : PyFloat.float) : Prop :=
  (exists expires, expires_date self w = inr expires) /\
  (exists modified, call_make_date w lm = inr modified).

(** The eight headers of a successful response. *)
Definition success_headers (self : StaticController) (w : Platform)
    (path : string) (lm : PyFloat.float) (cl : Z) : list header :=
  let etag := generate_etag lm cl in
  [("Etag", etag);
   ("Cache-Control", "max-age=" ++ str_int (cache_max_age self) ++ ", public");
   ("Expires", date_text (expires_date self w));
   ("Content-Type",
    match guess_type w path with
    | None => "application/octet-stream"
    | Some content_type => content_type
    end);
   ("Content-Length", str_int cl);
   ("Last-Modified", date_text (call_make_date w lm));
   ("Etag", etag);
   ("Cache-Control", "max-age=" ++ str_int (cache_max_age self) ++ ", public")].

(** The iterable over an open file. *)
Definition file_body (w : Platform) (env : environ) (fp : file) : app_iter :=
  (if wsgi_file_wrapper env then server_file_wrapper else _FileIter)
    fp (_BLOCK_SIZE w).

(** The request method is one of the two safe read methods. *)
Definition safe_method (env : environ) : bool :=
  mem (REQUEST_METHOD env) ["GET"; "HEAD"].

(** A non-empty segment sequence that passes the segment check. *)
Definition passes_segment_check (args : list string) : Prop :=
  args <> [] /\ ~ In ".." args /\ ~ In "." args.

(** [path] is an existing regular file with this modification time and
    size. *)
Definition regular_file (w : Platform) (path : string) (lm : PyFloat.float)
    (cl : Z) : Prop :=
  getmtime w path = inr lm /\ getsize w path = inr cl /\ isfile w path = true.

(** The date parser rejects the value with an exception that [parse_date]
    catches: the value is not a date, or is one whose time does not fit. *)
Definition ill_formed (w : Platform) (value : string) : Prop :=
  mktime_parsedate_tz w value = inl TypeError \/
  mktime_parsedate_tz w value = inl OverflowError.

(** What [parse_date] makes of an exception of the date parser. *)
Definition parse_failure (e : exception) : Response :=
  except [TypeError; OverflowError]
    (HTTPBadRequest ("Received an ill-formed timestamp." ++ CRLF)) e.

(** What the two [try] blocks around [getmtime] and [getsize] make of an
    exception. *)
Definition stat_failure (e : exception) : Response :=
  except [IOError; OSError] (HTTPNotFound None) e.

(** The [If-None-Match] header is present, not empty, and equal to the
    ETag. *)
Definition etag_matches (env : environ) (etag : string) : bool :=
  match HTTP_IF_NONE_MATCH env with
  | Some value => andb (truthy_str value) (String.eqb etag value)
  | None => false
  end.

(** The filesystem calls of a request that reaches the cache check. *)
Definition stat_calls (path : string) : list FsOp :=
  [op_getmtime path; op_getsize path; op_isfile path].

(** The path a filesystem call is made on. *)
Definition op_path (op : FsOp) : string :=
  match op with
  | op_getmtime p | op_getsize p | op_isfile p | op_open p => p
  end.

(** The four filesystem calls a request can make, in their order. *)
Definition all_calls (path : string) : list FsOp :=
  [op_getmtime path; op_getsize path; op_isfile path; op_open path].

(** The fields of a calendar date in the years 1000 to 9999. *)
Definition fields_in_range (d : struct_time) : Prop :=
  1000 <= tm_year d <= 9999 /\ 1 <= tm_mon d <= 12 /\ 1 <= tm_mday d <= 31 /\
  0 <= tm_hour d <= 23 /\ 0 <= tm_min d <= 59 /\ 0 <= tm_sec d <= 61 /\
  0 <= tm_wday d <= 6.

(** A date [make_date] is given, in the years 1000 to 9999. *)
Definition date_in_range (d : date_arg) : Prop :=
  match d with
  | of_datetime utc => fields_in_range utc
  | of_timestamp t => -30610224000 <= t < 253402300800
  end.

(** The environ of the same request made with another method. *)
Definition with_method (env : environ) (method : string) : environ :=
  {| REQUEST_METHOD := method;
     PATH_INFO := PATH_INFO env;
     HTTP_IF_MODIFIED_SINCE := HTTP_IF_MODIFIED_SINCE env;
     HTTP_IF_NONE_MATCH := HTTP_IF_NONE_MATCH env;
     wsgi_file_wrapper := wsgi_file_wrapper env |}.

(** The components [normpath] is left with at the end of its loop. *)
Definition normalized_components (initial : nat) (path : string) : list string :=
  fold_left (posixpath.norm_step initial) (split posixpath.sep path) [].

(** A component [normpath] keeps: not empty, and without a separator. *)
Definition clean_component (comp : string) : Prop :=
  comp <> EmptyString /\ contains comp posixpath.sep = false.

(** [path] starts with [initial] slashes and no more. *)
Definition rooted (initial : nat) (path : string) : Prop :=
  exists rest, path = repeat_char posixpath.sep initial ++ rest /\
               startswith rest "/" = false.

(** The segment has no path separator in it. *)
Definition separator_free (s : string) : bool := negb (contains s posixpath.sep).

(* ================================================================= *)
(** ** A sample deployment *)

Module Sample.

Definition css : string := "/srv/app/public/css/style.css".
Definition old : string := "/srv/app/public/old.txt".
Definition notes : string := "/srv/app/public/notes.txt".
Definition future : string := "/srv/app/public/future.txt".

(** Modification times: [1700000000.0], [0.0], [1700000000.5],
    [2.0 ** 62] and [1600000000.0]. *)
Definition css_mtime : PyFloat.float := S754_finite false 7130316800000000 (-22).
Definition old_mtime : PyFloat.float := S754_zero false.
Definition notes_mtime : PyFloat.float := S754_finite false 7130316802097152 (-22).
Definition future_mtime : PyFloat.float := S754_finite false 4503599627370496 10.
Definition passwd_mtime : PyFloat.float := S754_finite false 6710886400000000 (-22).

(** The regular files of the machine, with modification time and size:
    under the root a stylesheet, a file dated at the epoch, a file saved
    half a second after the stylesheet and a file dated beyond the years
    the C library counts; and one file outside the root. *)
Definition files : list (string * (PyFloat.float * Z)) :=
  [(css, (css_mtime, 42));
   (old, (old_mtime, 7));
   (notes, (notes_mtime, 5));
   (future, (future_mtime, 3));
   ("/etc/passwd", (passwd_mtime, 1024))].

(** [os.stat]: a path with a null byte in it is a [ValueError], a path
    that names no file an [OSError]. *)
Definition stat (p : string) : exception + (PyFloat.float * Z) :=
  if contains p (ascii_of_nat 0) then inl ValueError
  else match find (fun entry => String.eqb (fst entry) p) files with
       | Some entry => inr (snd entry)
       | None => inl OSError
       end.

(** The dates the parser knows: three it converts, and one whose year is
    out of range; any other text is no date. *)
Definition dates : list (string * (exception + Z)) :=
  [("Tue, 14 Nov 2023 22:13:20 GMT", inr 1700000000);
   ("Tue, 14 Nov 2023 22:13:19 GMT", inr 1699999999);
   ("Thu, 01 Jan 1970 00:00:05 GMT", inr 5);
   ("Tue, 14 Nov 99999 22:13:20 GMT", inl ValueError)].

Definition platform : Platform := {|
  getmtime := fun p =>
    match stat p with inl e => inl e | inr st => inr (fst st) end;
  getsize := fun p =>
    match stat p with inl e => inl e | inr st => inr (snd st) end;
  isfile := fun p => match stat p with inr _ => true | inl _ => false end;
  open_rb := fun p => Opened (file_of p);
  guess_type := fun p => if String.eqb p css then Some "text/css" else None;
  time := S754_finite false 7130317220478976 (-22);   (* 1700000100.25 *)
  gmtime_error := fun t =>
    if andb (-67768040609740800 <=? t) (t <=? 67768036191676799) then None
    else if andb (- 2 ^ 63 <=? t) (t <=? 2 ^ 63) then Some OSError
    else Some OverflowError;
  mktime_parsedate_tz := fun v =>
    match find (fun entry => String.eqb (fst entry) v) dates with
    | Some entry => snd entry
    | None => inl TypeError
    end;
  _BLOCK_SIZE := 4096 * 64
|}.

Definition controller : StaticController := __init__ "/srv/app" "public" 3600.

Definition request (method path : string)
    (if_modified_since if_none_match : option string) : environ :=
  {| REQUEST_METHOD := method; PATH_INFO := path;
     HTTP_IF_MODIFIED_SINCE := if_modified_since;
     HTTP_IF_NONE_MATCH := if_none_match;
     wsgi_file_wrapper := false |}.

Definition css_etag : string := generate_etag css_mtime 42.

End Sample.

(* ================================================================= *)
(** ** The model at work *)

Example normpath_samples :
  map posixpath.normpath
    ["/a/b/../c//d/./e/"; "//a/b/../../../c"; "///a"; "a/../../b"; EmptyString; "a/.."] =
  ["/a/c/d/e"; "//c"; "/a"; "../b"; "."; "."].
Proof. reflexivity. Qed.

Example join_samples :
  posixpath.join "/srv/app" ["x"; EmptyString; "y"] = "/srv/app/x/y" /\
  posixpath.join "/srv/app" ["x"; "/etc"; "z"] = "/etc/z" /\
  posixpath.join "/" ["x"; "y"] = "/x/y".
Proof. repeat split. Qed.

Example make_date_samples :
  make_date (of_timestamp 0) = "Thu, 01 Jan 1970 00:00:00 GMT" /\
  make_date (of_timestamp 951782400) = "Tue, 29 Feb 2000 00:00:00 GMT" /\
  make_date (of_timestamp 1700000000) = "Tue, 14 Nov 2023 22:13:20 GMT".
Proof. repeat split. Qed.

(** Floats as Python prints them. *)
Example repr_samples :
  map PyFloat.repr
    [Sample.css_mtime; Sample.notes_mtime; time Sample.platform;
     S754_zero false; S754_zero true;
     S754_finite true 6755399441055744 (-52);              (* -1.5 *)
     S754_finite false 7205759403792794 (-56);             (* 0.1 *)
     S754_finite false 5902958103587057 (-69);             (* 1e-05 *)
     S754_finite false 7378697629483821 (-66);             (* 0.0001 *)
     S754_finite false 4503599627370496 (-2);              (* 2.0 ** 50 *)
     S754_finite false 5000000000000000 1;                 (* 1e16 *)
     S754_finite false 7656118272993842 (-10);             (* 7476678000970.549 *)
     S754_finite false 1 (-1074);
     S754_finite false 9007199254740991 971;
     S754_infinity true; S754_nan] =
  ["1700000000.0"; "1700000000.5"; "1700000100.25"; "0.0"; "-0.0"; "-1.5"; "0.1";
   "1e-05"; "0.0001"; "1125899906842624.0"; "1e+16"; "7476678000970.549";
   "5e-324"; "1.7976931348623157e+308"; "-inf"; "nan"].
Proof. vm_compute. reflexivity. Qed.

(** Floats against integers: the comparison is exact, the two zeros are
    falsy, and rounding down goes away from zero for a negative number. *)
Example float_samples :
  PyFloat.of_int 1700000000 = Sample.css_mtime /\
  PyFloat.add (PyFloat.of_int 1700000000) (S754_finite false 1 (-1)) = Sample.notes_mtime /\
  map (PyFloat.le_int Sample.notes_mtime) [1699999999; 1700000000; 1700000001] =
    [false; false; true] /\
  map (PyFloat.le_int Sample.css_mtime) [1699999999; 1700000000; 1700000001] =
    [false; true; true] /\
  PyFloat.le_int (PyFloat.of_int (2 ^ 53)) (2 ^ 53 - 1) = false /\
  map PyFloat.truthy [S754_zero false; S754_zero true; S754_finite false 1 (-1)] =
    [false; false; true] /\
  map PyFloat.floor [Sample.notes_mtime; S754_finite true 1 (-1); S754_nan] =
    [Some 1700000000; Some (-1); None].
Proof. vm_compute. repeat split. Qed.

Example generate_etag_sample :
  generate_etag Sample.css_mtime 42 = dquote ++ "1700000000.0-42" ++ dquote /\
  generate_etag Sample.notes_mtime 5 = dquote ++ "1700000000.5-5" ++ dquote /\
  generate_etag Sample.old_mtime 7 = dquote ++ "0.0-7" ++ dquote.
Proof. vm_compute. repeat split. Qed.

Example sample_root : static_path Sample.controller = "/srv/app/public".
Proof. reflexivity. Qed.

(** An empty segment sequence is redirected to the index page. *)
Example empty_segments_redirect :
  _default Sample.controller Sample.platform
    (Sample.request "GET" "/static/" None None) [] =
  ([], redirect "/static/index.html").
Proof. reflexivity. Qed.

(** A plain GET for the stylesheet. *)
Example stylesheet_served :
  _default Sample.controller Sample.platform
    (Sample.request "GET" "/static/css/style.css" None None) ["css"; "style"] =
  ([op_getmtime Sample.css; op_getsize Sample.css; op_isfile Sample.css;
    op_open Sample.css],
   Success
     [("Etag", dquote ++ "1700000000.0-42" ++ dquote);
      ("Cache-Control", "max-age=3600, public");
      ("Expires", "Tue, 14 Nov 2023 23:15:00 GMT"); ("Content-Type", "text/css");
      ("Content-Length", "42"); ("Last-Modified", "Tue, 14 Nov 2023 22:13:20 GMT");
      ("Etag", dquote ++ "1700000000.0-42" ++ dquote);
      ("Cache-Control", "max-age=3600, public")]
     (_FileIter (file_of Sample.css) 262144)).
Proof. vm_compute. reflexivity. Qed.

(** Exceptions that no [except] clause names leave [_default]: the
    [ValueError] of [os.stat] for a path with a null byte, the
    [ValueError] of the date parser for a year out of range, and the
    [OSError] of [time.gmtime] for the modification time of a file that
    was already opened. *)
Example uncaught_exceptions :
  _default Sample.controller Sample.platform
    (Sample.request "GET" "/static/a" None None)
    [String "a" (String (ascii_of_nat 0) "b")] =
  ([op_getmtime ("/srv/app/public/a" ++ String (ascii_of_nat 0) "b")],
   Raised ValueError) /\
  _default Sample.controller Sample.platform
    (Sample.request "GET" "/static/css/style.css"
       (Some "Tue, 14 Nov 99999 22:13:20 GMT") None) ["css"; "style"] =
  (stat_calls Sample.css, Raised ValueError) /\
  PyFloat.of_int (2 ^ 62) = Sample.future_mtime /\
  _default Sample.controller Sample.platform
    (Sample.request "GET" "/static/future.txt" None None) ["future"] =
  (all_calls Sample.future, Raised OSError).
Proof. vm_compute. repeat split. Qed.

(* ================================================================= *)
(** ** Strings *)

Lemma append_nil_r (s : string) : s ++ EmptyString = s.
Proof. induction s as [|a s IH]; [reflexivity|]. cbn. now rewrite IH. Qed.

Lemma append_assoc (s1 s2 s3 : string) : (s1 ++ s2) ++ s3 = s1 ++ (s2 ++ s3).
Proof. induction s1 as [|a s1 IH]; [reflexivity|]. cbn. now rewrite IH. Qed.

Lemma length_append (a b : string) :
  String.length (a ++ b) = (String.length a + String.length b)%nat.
Proof. induction a as [|c a IH]; [reflexivity|]. cbn. now rewrite IH. Qed.

Lemma append_cancel_l (s a b : string) : s ++ a = s ++ b -> a = b.
Proof.
  induction s as [|c s IH]; cbn; [trivial|].
  intros H. injection H as H. auto.
Qed.

Lemma contains_append (s t : string) (c : ascii) :
  contains (s ++ t) c = orb (contains s c) (contains t c).
Proof.
  induction s as [|a s IH]; [reflexivity|].
  cbn. now rewrite IH, orb_assoc.
Qed.

Lemma truthy_str_iff (s : string) : truthy_str s = true <-> s <> EmptyString.
Proof.
  unfold truthy_str. rewrite negb_true_iff. split.
  - intros H Heq. subst. discriminate.
  - intros H. apply String.eqb_neq. assumption.
Qed.

Lemma mem_In (x : string) (l : list string) : mem x l = true <-> In x l.
Proof.
  unfold mem. rewrite existsb_exists. split.
  - intros [y [Hy Heq]]. apply String.eqb_eq in Heq. now subst.
  - intros H. exists x. split; [assumption|apply String.eqb_refl].
Qed.

Lemma startswith_append (p r : string) : startswith (p ++ r) p = true.
Proof.
  unfold startswith. induction p as [|a p IH]; cbn [append prefix].
  - destruct r; reflexivity.
  - destruct (ascii_dec a a); [assumption|congruence].
Qed.


Lemma startswith_cons (a : ascii) (s p : string) :
  startswith (String a s) (String a p) = startswith s p.
Proof.
  unfold startswith. cbn [prefix].
  destruct (ascii_dec a a); [reflexivity|congruence].
Qed.

(** Whether a non-empty string starts with a slash is told by its first
    character. *)
Lemma startswith_slash_cons (a : ascii) (s : string) :
  startswith (String a s) "/" = Ascii.eqb a posixpath.sep.
Proof.
  unfold startswith. cbn [prefix].
  destruct (ascii_dec "/" a) as [E|E].
  - subst a. destruct s; reflexivity.
  - symmetry. apply Ascii.eqb_neq. intros H. apply E. now rewrite H.
Qed.

Lemma startswith_append_nonempty (x y : string) :
  x <> EmptyString -> startswith (x ++ y) "/" = startswith x "/".
Proof.
  destruct x as [|a x]; [contradiction|]. intros _.
  cbn [append]. now rewrite !startswith_slash_cons.
Qed.

Lemma separator_free_not_absolute (b : string) :
  separator_free b = true -> startswith b "/" = false.
Proof.
  destruct b as [|a b]; [reflexivity|].
  rewrite startswith_slash_cons. unfold separator_free. cbn [contains].
  intros H. apply negb_true_iff, orb_false_iff in H. tauto.
Qed.

Lemma endswith_inv (s : string) (c : ascii) :
  endswith s c = true -> exists p, s = p ++ String c EmptyString.
Proof.
  induction s as [|a s IH]; [discriminate|].
  destruct s as [|b s].
  - cbn. intros H. apply Ascii.eqb_eq in H. subst. now exists EmptyString.
  - intros H. destruct (IH H) as [p Hp]. exists (String a p). cbn. now rewrite <- Hp.
Qed.

Lemma split_not_nil (c : ascii) (s : string) : split c s <> [].
Proof.
  induction s as [|a s IH]; cbn; [discriminate|].
  destruct (Ascii.eqb a c); [discriminate|].
  destruct (split c s); [contradiction|discriminate].
Qed.

(** Splitting distributes over a separator. *)
Lemma split_append (c : ascii) (a b : string) :
  split c (a ++ String c b) = (split c a ++ split c b)%list.
Proof.
  induction a as [|x a IH]; cbn.
  - now rewrite Ascii.eqb_refl.
  - destruct (Ascii.eqb x c); [now rewrite IH|].
    rewrite IH. destruct (split c a) eqn:E; [|reflexivity].
    now apply split_not_nil in E.
Qed.

Lemma split_without_separator (c : ascii) (s : string) :
  contains s c = false -> split c s = [s].
Proof.
  induction s as [|a s IH]; cbn; [reflexivity|].
  intros H. apply orb_false_iff in H. destruct H as [Ha Hs].
  rewrite Ha, (IH Hs). reflexivity.
Qed.

Lemma split_components (c : ascii) (s : string) :
  Forall (fun comp => contains comp c = false) (split c s).
Proof.
  induction s as [|a s IH]; cbn.
  - constructor; [reflexivity|constructor].
  - destruct (Ascii.eqb a c) eqn:E.
    + constructor; [reflexivity|assumption].
    + destruct (split c s) as [|w ws]; [repeat constructor; cbn; now rewrite E|].
      inversion IH; subst. constructor; [cbn; now rewrite E|assumption].
Qed.

(** The join of a list starts with the join of any of its initial parts. *)
Lemma join_app_prefix (sp : string) (xs ys : list string) :
  exists rest, Py.join sp (xs ++ ys) = Py.join sp xs ++ rest.
Proof.
  induction xs as [|x xs IH].
  - exists (Py.join sp ys). reflexivity.
  - destruct IH as [rest IH]. destruct xs as [|x' xs].
    + destruct ys as [|y ys].
      * exists EmptyString. cbn. now rewrite append_nil_r.
      * exists (sp ++ Py.join sp (y :: ys)). reflexivity.
    + exists rest. change (x :: x' :: xs)%list with ([x] ++ x' :: xs)%list.
      cbn [List.app Py.join] in *. rewrite IH. now rewrite !append_assoc.
Qed.

(* ================================================================= *)
(** ** Decimal numerals *)

Lemma string_of_uint_all_digits (d : Decimal.uint) :
  all_digits (NilEmpty.string_of_uint d) = true.
Proof. induction d; cbn; auto. Qed.

Lemma string_of_uint_shape (d : Decimal.uint) :
  NilZero.string_of_uint d <> EmptyString /\
  all_digits (NilZero.string_of_uint d) = true.
Proof.
  split.
  - destruct d; discriminate.
  - destruct d; try apply (string_of_uint_all_digits (_ d)). reflexivity.
Qed.

(** [str(n)] is a non-empty run of digits, after a minus sign for a
    negative number. *)
Lemma str_int_shape (n : Z) :
  exists ds, ds <> EmptyString /\ all_digits ds = true /\
             (str_int n = ds \/ str_int n = String "-" ds).
Proof.
  unfold str_int. destruct (Z.to_int n) as [d|d]; cbn [NilZero.string_of_int];
    exists (NilZero.string_of_uint d); destruct (string_of_uint_shape d); auto.
Qed.

Lemma str_int_nonnegative (n : Z) : 0 <= n -> all_digits (str_int n) = true.
Proof.
  intros Hn. unfold str_int. destruct n as [|p|p]; [reflexivity| |lia].
  cbn [Z.to_int NilZero.string_of_int]. apply string_of_uint_shape.
Qed.

Lemma str_int_inj (n n' : Z) : str_int n = str_int n' -> n = n'.
Proof.
  assert (Hn : forall z, Z.to_int z <> Decimal.Pos Decimal.Nil /\
                         Z.to_int z <> Decimal.Neg Decimal.Nil).
  { intros z. destruct z; cbn; split; try discriminate;
      intros H; injection H; apply Unsigned.to_uint_nonnil. }
  unfold str_int. intros H. apply to_int_inj.
  destruct (Hn n) as [H1 H2]. destruct (Hn n') as [H1' H2'].
  pose proof (NilZero.isi _ H1 H2) as E. pose proof (NilZero.isi _ H1' H2') as E'.
  rewrite H in E. rewrite E in E'. now injection E'.
Qed.

(** A run of digits ends where the first other character stands. *)
Lemma digits_delimited (a b : string) (c c' : ascii) (r r' : string) :
  all_digits a = true -> all_digits b = true ->
  is_digit c = false -> is_digit c' = false ->
  a ++ String c r = b ++ String c' r' ->
  a = b /\ String c r = String c' r'.
Proof.
  revert b. induction a as [|x a IH]; intros [|y b] Ha Hb Hc Hc' H; cbn in *.
  - auto.
  - injection H as Hx _. subst. apply andb_true_iff in Hb. destruct Hb as [Hb _].
    congruence.
  - injection H as Hx _. subst. apply andb_true_iff in Ha. destruct Ha as [Ha _].
    congruence.
  - injection H as Hx H. subst.
    apply andb_true_iff in Ha. apply andb_true_iff in Hb.
    destruct (IH b) as [E1 E2]; try tauto. subst. auto.
Qed.

(** A decimal numeral ends where the first character that is not a digit
    stands after it. *)
Lemma str_int_delimited (n n' : Z) (c c' : ascii) (r r' : string) :
  is_digit c = false -> is_digit c' = false ->
  str_int n ++ String c r = str_int n' ++ String c' r' ->
  n = n' /\ String c r = String c' r'.
Proof.
  intros Hc Hc' H.
  destruct (str_int_shape n) as (ds & Hne & Hds & Hs).
  destruct (str_int_shape n') as (ds' & Hne' & Hds' & Hs').
  assert (E : str_int n = str_int n' /\ String c r = String c' r').
  { destruct ds as [|x ds]; [contradiction|].
    destruct ds' as [|x' ds']; [contradiction|].
    assert (Hx : is_digit x = true) by (cbn in Hds; apply andb_true_iff in Hds; tauto).
    assert (Hx' : is_digit x' = true) by (cbn in Hds'; apply andb_true_iff in Hds'; tauto).
    destruct Hs as [Hs|Hs]; destruct Hs' as [Hs'|Hs']; rewrite Hs, Hs' in *; cbn in H.
    - destruct (digits_delimited _ _ _ _ _ _ Hds Hds' Hc Hc' H). split; assumption.
    - injection H as E _. subst x. discriminate.
    - injection H as E _. subst x'. discriminate.
    - assert (H' : String x ds ++ String c r = String x' ds' ++ String c' r')
        by (cbn; congruence).
      destruct (digits_delimited (String x ds) (String x' ds') c c' r r'
                  Hds Hds' Hc Hc' H') as [E1 E2].
      split; [now rewrite E1|assumption]. }
  destruct E as [E1 E2]. split; [apply str_int_inj; assumption|assumption].
Qed.

Lemma all_digits_no_hyphen (ds : string) :
  all_digits ds = true -> contains ds "-" = false.
Proof.
  induction ds as [|a ds IH]; [reflexivity|]. cbn.
  intros H. apply andb_true_iff in H. destruct H as [Ha Hds].
  rewrite (IH Hds), orb_false_r.
  destruct (Ascii.eqb_spec a "-"); [subst; discriminate|reflexivity].
Qed.

(** Two texts that end alike after their last hyphen start alike. *)
Lemma last_hyphen_delimits (x x' t t' : string) :
  contains t "-" = false -> contains t' "-" = false ->
  x ++ String "-" t = x' ++ String "-" t' ->
  x = x' /\ t = t'.
Proof.
  revert x'. induction x as [|a x IH]; intros [|a' x'] Ht Ht' H; cbn in H.
  - injection H as H. auto.
  - injection H as _ H. subst t.
    rewrite contains_append in Ht. cbn in Ht. rewrite orb_true_r in Ht. discriminate.
  - injection H as _ H. subst t'.
    rewrite contains_append in Ht'. cbn in Ht'. rewrite orb_true_r in Ht'. discriminate.
  - injection H as Ha H. subst a'.
    destruct (IH x' Ht Ht' H) as [-> ->]. auto.
Qed.

(* ================================================================= *)
(** ** The text of a float *)

Lemma all_digits_app (a b : string) :
  all_digits (a ++ b) = andb (all_digits a) (all_digits b).
Proof.
  induction a as [|c a IH]; [reflexivity|]. cbn. now rewrite IH, andb_assoc.
Qed.

Lemma all_digits_zeros (k : nat) : all_digits (repeat_char "0" k) = true.
Proof. induction k as [|k IH]; [reflexivity|]. cbn. exact IH. Qed.

Lemma all_digits_contains (ds : string) (c : ascii) :
  all_digits ds = true -> is_digit c = false -> contains ds c = false.
Proof.
  intros Hds Hc. induction ds as [|a ds IH]; [reflexivity|]. cbn in *.
  apply andb_true_iff in Hds. destruct Hds as [Ha Hds].
  rewrite (IH Hds), orb_false_r.
  destruct (Ascii.eqb_spec a c); [subst; congruence|reflexivity].
Qed.

(** A text ends where its first separator stands. *)
Lemma first_separator_delimits (c : ascii) (a b r r' : string) :
  contains a c = false -> contains b c = false ->
  a ++ String c r = b ++ String c r' -> a = b /\ r = r'.
Proof.
  revert b. induction a as [|x a IH]; intros [|y b] Ha Hb H; cbn in *.
  - injection H as H. auto.
  - injection H as Hx _. subst y. rewrite Ascii.eqb_refl in Hb. discriminate.
  - injection H as Hx _. subst x. rewrite Ascii.eqb_refl in Ha. discriminate.
  - injection H as Hx H. subst y.
    apply orb_false_iff in Ha. apply orb_false_iff in Hb.
    destruct (IH b) as [E1 E2]; try tauto. subst. auto.
Qed.

Lemma endswith_append (p s : string) (c : ascii) :
  s <> EmptyString -> endswith (p ++ s) c = endswith s c.
Proof.
  intros Hs. induction p as [|a p IH]; [reflexivity|].
  cbn [append endswith]. destruct (p ++ s) eqn:E; [|exact IH].
  destruct p; [cbn in E; contradiction|discriminate].
Qed.

Lemma endswith_digits (ds : string) (c : ascii) :
  all_digits ds = true -> is_digit c = false -> endswith ds c = false.
Proof.
  intros Hds Hc. induction ds as [|a ds IH]; [reflexivity|].
  cbn in Hds. apply andb_true_iff in Hds. destruct Hds as [Ha Hds].
  destruct ds as [|b ds]; [|exact (IH Hds)].
  cbn. destruct (Ascii.eqb_spec a c); [subst; congruence|reflexivity].
Qed.

(** Cutting a string in two. *)
Lemma substring_full (s : string) : String.substring 0 (String.length s) s = s.
Proof. induction s as [|c s IH]; [reflexivity|]. cbn. now rewrite IH. Qed.

Lemma substring_split (d : nat) (s : string) :
  (d <= String.length s)%nat ->
  exists a b, s = a ++ b /\ String.length a = d /\
              String.substring 0 d s = a /\ PyFloat.string_from d s = b.
Proof.
  revert s. induction d as [|d IH]; intros s Hd.
  - exists EmptyString, s. unfold PyFloat.string_from.
    rewrite Nat.sub_0_r, substring_full. destruct s; auto.
  - destruct s as [|c s]; [cbn in Hd; lia|].
    destruct (IH s) as (a & b & Hs & Ha & Ht & Hf); [cbn in Hd; lia|].
    exists (String c a), b. cbn. unfold PyFloat.string_from in *.
    rewrite Ht, Ha. repeat split; congruence.
Qed.

(** Zeros in front of and behind significant digits come off again. *)
Lemma lstrip_zeros_app (k : nat) (c : ascii) (r : string) :
  Ascii.eqb c "0" = false ->
  PyFloat.lstrip_zeros (repeat_char "0" k ++ String c r) = String c r /\
  PyFloat.count_zeros (repeat_char "0" k ++ String c r) = k.
Proof.
  intros Hc. induction k as [|k [IH1 IH2]]; cbn.
  - rewrite Hc. auto.
  - rewrite IH1, IH2. auto.
Qed.

Lemma rstrip_zeros_zeros (k : nat) :
  PyFloat.rstrip_zeros (repeat_char "0" k) = EmptyString.
Proof. induction k as [|k IH]; [reflexivity|]. cbn. rewrite IH. reflexivity. Qed.

Lemma rstrip_zeros_cons (c : ascii) (r : string) :
  PyFloat.rstrip_zeros (String c r) =
  if andb (Ascii.eqb c "0") (String.eqb (PyFloat.rstrip_zeros r) EmptyString)
  then EmptyString else String c (PyFloat.rstrip_zeros r).
Proof. reflexivity. Qed.

Lemma rstrip_zeros_app (ds : string) (k : nat) :
  ds <> EmptyString -> endswith ds "0" = false ->
  PyFloat.rstrip_zeros (ds ++ repeat_char "0" k) = ds.
Proof.
  induction ds as [|c ds IH]; [contradiction|]. intros _ Hend.
  change (String c ds ++ repeat_char "0" k) with (String c (ds ++ repeat_char "0" k)).
  rewrite rstrip_zeros_cons.
  destruct ds as [|b ds].
  - cbn [append]. rewrite rstrip_zeros_zeros. cbn in Hend. rewrite Hend. reflexivity.
  - rewrite IH; [|discriminate|exact Hend].
    rewrite andb_false_r. reflexivity.
Qed.

Lemma rstrip_zeros_id (ds : string) :
  ds <> EmptyString -> endswith ds "0" = false -> PyFloat.rstrip_zeros ds = ds.
Proof.
  intros Hne Hend. rewrite <- (append_nil_r ds) at 1.
  exact (rstrip_zeros_app ds 0 Hne Hend).
Qed.

Lemma repeat_char_app (c : ascii) (x y : nat) :
  repeat_char c x ++ repeat_char c y = repeat_char c (x + y).
Proof. induction x as [|x IH]; [reflexivity|]. cbn. now rewrite IH. Qed.

Lemma repeat_char_length (c : ascii) (x : nat) : String.length (repeat_char c x) = x.
Proof. induction x as [|x IH]; [reflexivity|]. cbn. now rewrite IH. Qed.

(** What [normalized] says of a run of digits. *)
Lemma normalized_inv (ds : string) :
  PyFloat.normalized ds = true ->
  exists c r, ds = String c r /\ all_digits ds = true /\
              Ascii.eqb c "0" = false /\ endswith ds "0" = false.
Proof.
  destruct ds as [|c r]; [discriminate|]. unfold PyFloat.normalized.
  intros H. apply andb_true_iff in H. destruct H as [Hd H].
  apply andb_true_iff in H. destruct H as [Hc He].
  apply negb_true_iff in Hc. apply negb_true_iff in He.
  exists c, r. auto.
Qed.

(** The positional notation: an integer part and a fraction, both runs of
    digits, from which the digits and the place of the point are read
    back. *)
Lemma fmt_positional (ds : string) (decpt : Z) :
  PyFloat.normalized ds = true ->
  andb (-4 <? decpt) (decpt <=? 16) = true ->
  exists i f,
    PyFloat.fmt ds decpt = i ++ String "." f /\
    all_digits i = true /\ all_digits f = true /\ f <> EmptyString /\
    (exists c r, i = String c r) /\
    PyFloat.significant i f = (ds, decpt).
Proof.
  intros Hn Hpos. destruct (normalized_inv ds Hn) as (c & r & Hds & Hdig & Hc & Hend).
  assert (Hne : ds <> EmptyString) by (subst ds; discriminate).
  assert (Hstrip : forall k,
            PyFloat.lstrip_zeros (repeat_char "0" k ++ ds) = ds /\
            PyFloat.count_zeros (repeat_char "0" k ++ ds) = k).
  { intros k. rewrite Hds. apply lstrip_zeros_app. exact Hc. }
  unfold PyFloat.fmt. cbv zeta. rewrite Hpos.
  destruct (decpt <=? 0) eqn:E0.
  - apply Z.leb_le in E0.
    set (k := Z.to_nat (- decpt)).
    exists "0", (repeat_char "0" k ++ ds).
    split; [reflexivity|]. split; [reflexivity|].
    split; [rewrite all_digits_app, all_digits_zeros; exact Hdig|].
    split; [subst ds; destruct k; discriminate|].
    split; [eauto|].
    unfold PyFloat.significant.
    change ("0" ++ repeat_char "0" k ++ ds) with (repeat_char "0" (S k) ++ ds).
    destruct (Hstrip (S k)) as [-> ->].
    rewrite (rstrip_zeros_id ds Hne Hend). f_equal.
    cbn [String.length]. subst k. lia.
  - apply Z.leb_gt in E0.
    destruct (decpt <? Z.of_nat (String.length ds)) eqn:E1.
    + apply Z.ltb_lt in E1.
      destruct (substring_split (Z.to_nat decpt) ds) as (a & b & Hs & Ha & Ht & Hf);
        [lia|].
      rewrite Ht, Hf. exists a, b.
      assert (Hab : all_digits a = true /\ all_digits b = true).
      { rewrite Hs, all_digits_app in Hdig. now apply andb_true_iff in Hdig. }
      assert (Hb : b <> EmptyString).
      { intros ->. rewrite append_nil_r in Hs. subst a.
        rewrite Ha in E1. lia. }
      assert (Hane : exists c' r', a = String c' r').
      { destruct a as [|c' r']; [cbn in Ha; lia|eauto]. }
      split; [reflexivity|]. split; [tauto|]. split; [tauto|].
      split; [exact Hb|]. split; [exact Hane|].
      unfold PyFloat.significant. rewrite <- Hs.
      destruct (Hstrip 0%nat) as [E2 E3]. cbn [repeat_char append] in E2, E3.
      rewrite E2, E3, (rstrip_zeros_id ds Hne Hend). f_equal.
      rewrite Ha. lia.
    + apply Z.ltb_ge in E1.
      set (k := Z.to_nat (decpt - Z.of_nat (String.length ds))).
      exists (ds ++ repeat_char "0" k), "0".
      split; [now rewrite append_assoc|].
      split; [rewrite all_digits_app, all_digits_zeros, Hdig; reflexivity|].
      split; [reflexivity|]. split; [discriminate|].
      split; [subst ds; cbn; eauto|].
      unfold PyFloat.significant. rewrite append_assoc.
      change (repeat_char "0" k ++ "0") with (repeat_char "0" k ++ repeat_char "0" 1).
      rewrite repeat_char_app.
      assert (Hl : PyFloat.lstrip_zeros (ds ++ repeat_char "0" (k + 1)) =
                   ds ++ repeat_char "0" (k + 1) /\
                   PyFloat.count_zeros (ds ++ repeat_char "0" (k + 1)) = 0%nat).
      { rewrite Hds. cbn [append PyFloat.lstrip_zeros PyFloat.count_zeros].
        rewrite Hc. auto. }
      destruct Hl as [-> ->].
      rewrite (rstrip_zeros_app ds _ Hne Hend). f_equal.
      rewrite length_append, repeat_char_length. subst k. lia.
Qed.

(** The number a decimal numeral writes, zeros in front included. *)
Lemma fmt_02d_value (n : Z) :
  0 <= n ->
  option_map Z.of_int (NilZero.int_of_string (fmt_02d n)) = Some n.
Proof.
  intros Hn.
  assert (Hnil : forall z, Z.to_int z <> Decimal.Pos Decimal.Nil /\
                           Z.to_int z <> Decimal.Neg Decimal.Nil).
  { intros z. destruct z; cbn; split; try discriminate;
      intros H; injection H; apply Unsigned.to_uint_nonnil. }
  assert (Hplain : option_map Z.of_int (NilZero.int_of_string (str_int n)) = Some n).
  { unfold str_int. destruct (Hnil n) as [H1 H2].
    rewrite (NilZero.isi _ H1 H2). cbn [option_map]. now rewrite DecimalZ.of_to. }
  unfold fmt_02d. cbv zeta. destruct (_ <? _)%nat; [|exact Hplain].
  unfold str_int in *. destruct n as [|p|p]; [reflexivity| |lia].
  cbn [Z.to_int NilZero.string_of_int] in *.
  assert (Hp : Pos.to_uint p <> Decimal.Nil) by apply Unsigned.to_uint_nonnil.
  pose proof (NilZero.usu _ Hp) as Hu.
  destruct (NilZero.string_of_uint (Pos.to_uint p)) as [|a s] eqn:Es;
    [discriminate Hu|].
  cbn [append NilZero.int_of_string NilZero.uint_of_string NilEmpty.uint_of_string
       Ascii.eqb Bool.eqb].
  cbn [NilZero.uint_of_string NilEmpty.uint_of_string] in Hu. rewrite Hu.
  cbn [uint_of_char option_map]. f_equal.
  exact (DecimalZ.of_to (Z.pos p)).
Qed.

Lemma fmt_02d_inj (n n' : Z) :
  0 <= n -> 0 <= n' -> fmt_02d n = fmt_02d n' -> n = n'.
Proof.
  intros Hn Hn' H. pose proof (fmt_02d_value n Hn) as E.
  rewrite H, (fmt_02d_value n' Hn') in E. now injection E.
Qed.

Lemma fmt_exponent_inj (e e' : Z) :
  PyFloat.fmt_exponent e = PyFloat.fmt_exponent e' -> e = e'.
Proof.
  unfold PyFloat.fmt_exponent.
  destruct (e <? 0) eqn:E; destruct (e' <? 0) eqn:E'; cbn [append];
    intros H; try discriminate H; injection H as H;
    apply fmt_02d_inj in H; try apply Z.abs_nonneg;
    [apply Z.ltb_lt in E; apply Z.ltb_lt in E'
    |apply Z.ltb_ge in E; apply Z.ltb_ge in E']; lia.
Qed.

(** The scientific notation: a mantissa that holds no [e], and the
    exponent after the [e]. *)
Lemma fmt_scientific (ds : string) (decpt : Z) :
  PyFloat.normalized ds = true ->
  andb (-4 <? decpt) (decpt <=? 16) = false ->
  PyFloat.fmt ds decpt =
    PyFloat.mantissa ds ++ String "e" (PyFloat.fmt_exponent (decpt - 1)) /\
  contains (PyFloat.mantissa ds) "e" = false /\
  PyFloat.mantissa_digits (PyFloat.mantissa ds) = ds.
Proof.
  intros Hn Hsci. destruct (normalized_inv ds Hn) as (c & r & Hds & Hdig & Hc & Hend).
  subst ds. unfold PyFloat.fmt. cbv zeta. rewrite Hsci.
  cbn in Hdig. apply andb_true_iff in Hdig. destruct Hdig as [Hcd Hrd].
  assert (Hce : Ascii.eqb c "e" = false).
  { destruct (Ascii.eqb_spec c "e"); [subst; discriminate|reflexivity]. }
  destruct r as [|b r].
  - cbn. rewrite Hce. auto.
  - assert (Hfrom : PyFloat.string_from 1 (String c (String b r)) = String b r).
    { unfold PyFloat.string_from. cbn [String.length Nat.sub String.substring].
      rewrite substring_full. reflexivity. }
    rewrite Hfrom.
    replace (Z.of_nat (String.length (String c (String b r))) =? 1) with false
      by (symmetry; apply Z.eqb_neq; cbn [String.length]; lia).
    cbn [String.substring PyFloat.mantissa append contains PyFloat.mantissa_digits
         Ascii.eqb Bool.eqb].
    rewrite Hce. cbn [orb].
    split; [reflexivity|]. split; [|reflexivity].
    exact (all_digits_contains (String b r) "e" Hrd eq_refl).
Qed.

(** The layout tells the digits and the place of the decimal point. *)
Lemma fmt_inj (ds ds' : string) (decpt decpt' : Z) :
  PyFloat.normalized ds = true -> PyFloat.normalized ds' = true ->
  PyFloat.fmt ds decpt = PyFloat.fmt ds' decpt' ->
  ds = ds' /\ decpt = decpt'.
Proof.
  intros Hn Hn' H.
  assert (Hpos_sci : forall a p b q,
            PyFloat.normalized a = true -> PyFloat.normalized b = true ->
            andb (-4 <? p) (p <=? 16) = true -> andb (-4 <? q) (q <=? 16) = false ->
            PyFloat.fmt a p <> PyFloat.fmt b q).
  { intros a p b q Ha Hb Hp Hq E.
    destruct (fmt_positional a p Ha Hp) as (i & f & Ef & Hi & Hf & _).
    destruct (fmt_scientific b q Hb Hq) as (Eg & _).
    rewrite Ef, Eg in E. apply (f_equal (fun s => contains s "e")) in E.
    rewrite !contains_append in E. cbn [contains Ascii.eqb Bool.eqb] in E.
    rewrite (all_digits_contains i "e" Hi eq_refl),
            (all_digits_contains f "e" Hf eq_refl) in E.
    cbn in E. rewrite orb_true_r in E. discriminate E. }
  destruct (andb (-4 <? decpt) (decpt <=? 16)) eqn:P;
    destruct (andb (-4 <? decpt') (decpt' <=? 16)) eqn:P'.
  - destruct (fmt_positional ds decpt Hn P) as (i & f & Ef & Hi & _ & _ & _ & Es).
    destruct (fmt_positional ds' decpt' Hn' P') as (i' & f' & Ef' & Hi' & _ & _ & _ & Es').
    rewrite Ef, Ef' in H.
    apply digits_delimited in H; [|assumption|assumption|reflexivity|reflexivity].
    destruct H as [-> H]. injection H as ->.
    rewrite Es in Es'. injection Es' as -> ->. auto.
  - exfalso. exact (Hpos_sci ds decpt ds' decpt' Hn Hn' P P' H).
  - exfalso. exact (Hpos_sci ds' decpt' ds decpt Hn' Hn P' P (eq_sym H)).
  - destruct (fmt_scientific ds decpt Hn P) as (Ef & Hm & Ed).
    destruct (fmt_scientific ds' decpt' Hn' P') as (Ef' & Hm' & Ed').
    rewrite Ef, Ef' in H.
    apply first_separator_delimits in H; [|assumption|assumption].
    destruct H as [Hman Hexp]. apply fmt_exponent_inj in Hexp.
    rewrite <- Ed, <- Ed', Hman. split; [reflexivity|lia].
Qed.

Lemma fmt_02d_digits (n : Z) :
  0 <= n -> all_digits (fmt_02d n) = true /\ fmt_02d n <> EmptyString.
Proof.
  intros Hn. pose proof (str_int_nonnegative n Hn) as Hd.
  destruct (str_int_shape n) as (ds & Hne & _ & Hs).
  assert (Hstr : str_int n <> EmptyString).
  { destruct Hs as [-> | ->]; [assumption|discriminate]. }
  unfold fmt_02d. cbv zeta. destruct (_ <? _)%nat; [|auto].
  split; [exact Hd|discriminate].
Qed.

(** The layout starts with a digit and does not end with a hyphen. *)
Lemma fmt_ends (ds : string) (decpt : Z) :
  PyFloat.normalized ds = true ->
  (exists c r, PyFloat.fmt ds decpt = String c r /\ is_digit c = true) /\
  endswith (PyFloat.fmt ds decpt) "-" = false /\
  PyFloat.fmt ds decpt <> "0.0".
Proof.
  intros Hn. destruct (andb (-4 <? decpt) (decpt <=? 16)) eqn:P.
  - destruct (fmt_positional ds decpt Hn P) as (i & f & Ef & Hi & Hf & Hfne & [c [r ->]] & Es).
    rewrite Ef. split; [|split].
    + exists c, (r ++ String "." f). split; [reflexivity|].
      cbn in Hi. now apply andb_true_iff in Hi.
    + change (String c r ++ String "." f) with (String c r ++ "." ++ f).
      rewrite <- append_assoc, endswith_append by assumption.
      apply endswith_digits; [assumption|reflexivity].
    + intros E. change "0.0" with ("0" ++ String "." "0") in E.
      apply digits_delimited in E; [|assumption|reflexivity|reflexivity|reflexivity].
      destruct E as [E1 E2]. injection E2 as ->. rewrite E1 in Es.
      cbn in Es. injection Es as <- _. discriminate Hn.
  - destruct (fmt_scientific ds decpt Hn P) as (Ef & Hm & Ed).
    destruct (normalized_inv ds Hn) as (c & r & Hds & Hdig & _).
    rewrite Ef. split; [|split].
    + subst ds. cbn in Hdig. apply andb_true_iff in Hdig.
      destruct r; cbn; (exists c; eexists; split; [reflexivity|tauto]).
    + unfold PyFloat.fmt_exponent.
      destruct (fmt_02d_digits (Z.abs (decpt - 1)) (Z.abs_nonneg _)) as [Hd Hne].
      change (PyFloat.mantissa ds ++
              String "e" ((if decpt - 1 <? 0 then "-" else "+") ++
                          fmt_02d (Z.abs (decpt - 1))))
        with (PyFloat.mantissa ds ++
              "e" ++ (if decpt - 1 <? 0 then "-" else "+") ++
              fmt_02d (Z.abs (decpt - 1))).
      rewrite <- !append_assoc, endswith_append by assumption.
      apply endswith_digits; [assumption|reflexivity].
    + intros E. apply (f_equal (fun s => contains s "e")) in E.
      rewrite contains_append in E. cbn in E. rewrite orb_true_r in E. discriminate E.
Qed.

(** The digits [repr] chooses read back as the float. *)
Lemma first_some_In {A B} (f : A -> option B) (l : list A) (b : B) :
  PyFloat.first_some f l = Some b -> exists a, In a l /\ f a = Some b.
Proof.
  induction l as [|a l IH]; [discriminate|]. cbn.
  destruct (f a) as [b'|] eqn:E.
  - intros H. injection H as <-. exists a. auto.
  - intros H. destruct (IH H) as [a' [Hin Ha']]. exists a'. auto.
Qed.

Lemma shortest_reads (m : positive) (e : Z) (r : string * Z) :
  PyFloat.shortest m e = Some r ->
  PyFloat.reads_as (S754_finite false m e) r = true.
Proof.
  unfold PyFloat.shortest. cbv zeta. intros H.
  apply first_some_In in H. destruct H as [k [_ H]].
  unfold PyFloat.shortest_at in H. cbv zeta in H.
  match type of H with
  | context [PyFloat.reads_as ?x ?below] =>
      match type of H with
      | context [match PyFloat.reads_as x below with
                 | true => match PyFloat.reads_as x ?above with _ => _ end
                 | false => _ end] =>
          destruct (PyFloat.reads_as x below) eqn:Eb;
          destruct (PyFloat.reads_as x above) eqn:Ea
      end
  end.
  - destruct (_ ?= _); [destruct (Z.even _)| |]; injection H as <-; assumption.
  - injection H as <-. assumption.
  - injection H as <-. assumption.
  - discriminate H.
Qed.

Lemma float_eqb_eq (x y : PyFloat.float) : PyFloat.eqb x y = true -> x = y.
Proof.
  destruct x as [s|s| |s m e], y as [s'|s'| |s' m' e']; cbn; try discriminate.
  - intros H. apply Bool.eqb_prop in H. now subst.
  - intros H. apply Bool.eqb_prop in H. now subst.
  - reflexivity.
  - intros H. apply andb_true_iff in H. destruct H as [Hs H].
    apply andb_true_iff in H. destruct H as [Hm He].
    apply Bool.eqb_prop in Hs. apply Pos.eqb_eq in Hm. apply Z.eqb_eq in He.
    now subst.
Qed.

(** [repr] writes the sign, then the float without its sign. *)
Lemma repr_sign (x : PyFloat.float) :
  PyFloat.repr x =
  PyFloat.sign (PyFloat.signbit x) ++ PyFloat.repr (PyFloat.abs x).
Proof.
  destruct x as [s|s| |s m e]; try destruct s;
    cbn [PyFloat.repr PyFloat.abs PyFloat.signbit PyFloat.sign append]; reflexivity.
Qed.

Lemma sign_split (s s' : bool) (c c' : ascii) (r r' : string) :
  c <> "-"%char -> c' <> "-"%char ->
  PyFloat.sign s ++ String c r = PyFloat.sign s' ++ String c' r' ->
  s = s' /\ String c r = String c' r'.
Proof.
  intros Hc Hc'. destruct s, s'; cbn; intros H.
  - injection H as -> ->. auto.
  - injection H as E _. congruence.
  - injection H as E _. congruence.
  - auto.
Qed.

(** The text of a float that is not a number of digits: it is told by
    its first letter. *)
Lemma repr_abs_cases (x : PyFloat.float) :
  (exists c r, PyFloat.repr (PyFloat.abs x) = String c r /\ is_digit c = false /\
               c <> "-"%char /\
               endswith (String c r) "-" = false /\
               (x = S754_nan /\ c = "n"%char \/
                (exists s, x = S754_infinity s) /\ c = "i"%char \/
                (exists s m e, x = S754_finite s m e /\ PyFloat.shortest m e = None /\
                   String c r = "ldexp(" ++ str_int (Z.pos m) ++ ", " ++ str_int e ++ ")")
                /\ c = "l"%char)) \/
  ((exists s, x = S754_zero s) /\ PyFloat.repr (PyFloat.abs x) = "0.0") \/
  (exists s m e ds decpt,
     x = S754_finite s m e /\ PyFloat.shortest m e = Some (ds, decpt) /\
     PyFloat.repr (PyFloat.abs x) = PyFloat.fmt ds decpt).
Proof.
  destruct x as [s|s| |s m e].
  - right. left. split; [now exists s|reflexivity].
  - left. exists "i"%char, "nf". cbn. repeat split; try discriminate.
    right. left. split; [now exists s|reflexivity].
  - left. exists "n"%char, "an". cbn. repeat split; try discriminate. auto.
  - destruct (PyFloat.shortest m e) as [[ds decpt]|] eqn:Es.
    + right. right. exists s, m, e, ds, decpt.
      cbn [PyFloat.abs PyFloat.repr PyFloat.sign append]. rewrite Es. auto.
    + left. exists "l"%char. eexists.
      cbn [PyFloat.abs PyFloat.repr PyFloat.sign append]. rewrite Es.
      split; [reflexivity|]. split; [reflexivity|]. split; [discriminate|].
      split.
      * assert (E : forall a b, "ldexp(" ++ a ++ ", " ++ b ++ ")" =
                                ("ldexp(" ++ a ++ ", " ++ b) ++ ")").
        { intros a b.
          rewrite (append_assoc "ldexp(" (a ++ ", " ++ b) ")"),
                  (append_assoc a (", " ++ b) ")"), (append_assoc ", " b ")").
          reflexivity. }
        change (endswith ("ldexp(" ++ str_int (Z.pos m) ++ ", " ++ str_int e ++ ")") "-"
                = false).
        rewrite E, endswith_append by discriminate. reflexivity.
      * right. right. split; [|reflexivity]. exists s, m, e. auto.
Qed.

Lemma shortest_normalized (m : positive) (e : Z) (ds : string) (decpt : Z) :
  PyFloat.shortest m e = Some (ds, decpt) ->
  PyFloat.normalized ds = true /\
  PyFloat.of_decimal ds decpt = S754_finite false m e.
Proof.
  intros H. apply shortest_reads in H. unfold PyFloat.reads_as in H.
  cbn [fst snd] in H. apply andb_true_iff in H. destruct H as [Hn He].
  split; [assumption|apply float_eqb_eq; assumption].
Qed.

(** Two floats with the same text, signs apart, are the same float, signs
    apart. *)
Lemma repr_abs_inj (x y : PyFloat.float) :
  PyFloat.repr (PyFloat.abs x) = PyFloat.repr (PyFloat.abs y) ->
  PyFloat.abs x = PyFloat.abs y.
Proof.
  intros H.
  destruct (repr_abs_cases x)
    as [(c & r & Ex & Hc & _ & _ & Hx)|[[[s ->] Ex]|(s & m & e & ds & dp & -> & Es & Ex)]];
  destruct (repr_abs_cases y)
    as [(c' & r' & Ey & Hc' & _ & _ & Hy)|[[[s' ->] Ey]|(s' & m' & e' & ds' & dp' & -> & Es' & Ey)]];
  rewrite Ex, Ey in H.
  - injection H as <- <-.
    destruct Hx as [[-> Hx]|[[[s ->] Hx]|[(s & m & e & -> & Es & Et) Hx]]];
    destruct Hy as [[-> Hy]|[[[s' ->] Hy]|[(s' & m' & e' & -> & Es' & Et') Hy]]];
    try reflexivity; try congruence.
    rewrite Et in Et'. apply append_cancel_l in Et'.
    apply str_int_delimited in Et'; [|reflexivity|reflexivity].
    destruct Et' as [Em Et']. injection Et' as Et'.
    apply str_int_delimited in Et'; [|reflexivity|reflexivity].
    destruct Et' as [Ee _]. cbn [PyFloat.abs]. congruence.
  - injection H as -> _. discriminate Hc.
  - destruct (shortest_normalized _ _ _ _ Es') as [Hn _].
    destruct (fmt_ends ds' dp' Hn) as [(c' & r' & E & Hd) _].
    rewrite E in H. injection H as -> _. congruence.
  - injection H as <- _. discriminate Hc'.
  - reflexivity.
  - destruct (shortest_normalized _ _ _ _ Es') as [Hn _].
    destruct (fmt_ends ds' dp' Hn) as (_ & _ & Hz). congruence.
  - destruct (shortest_normalized _ _ _ _ Es) as [Hn _].
    destruct (fmt_ends ds dp Hn) as [(c0 & r0 & E & Hd) _].
    rewrite E in H. injection H as <- _. congruence.
  - destruct (shortest_normalized _ _ _ _ Es) as [Hn _].
    destruct (fmt_ends ds dp Hn) as (_ & _ & Hz). congruence.
  - destruct (shortest_normalized _ _ _ _ Es) as [Hn Hr].
    destruct (shortest_normalized _ _ _ _ Es') as [Hn' Hr'].
    destruct (fmt_inj ds ds' dp dp' Hn Hn' H) as [-> ->].
    cbn [PyFloat.abs]. congruence.
Qed.

Lemma repr_abs_head (x : PyFloat.float) :
  exists c r, PyFloat.repr (PyFloat.abs x) = String c r /\ c <> "-"%char /\
              endswith (String c r) "-" = false.
Proof.
  destruct (repr_abs_cases x)
    as [(c & r & Ex & _ & Hc & He & _)|[[_ Ex]|(s & m & e & ds & dp & -> & Es & Ex)]].
  - exists c, r. auto.
  - exists "0"%char, ".0". rewrite Ex. repeat split. discriminate.
  - destruct (shortest_normalized _ _ _ _ Es) as [Hn _].
    destruct (fmt_ends ds dp Hn) as ((c & r & E & Hd) & He & _).
    exists c, r. rewrite Ex, <- E. repeat split; try assumption.
    intros ->. discriminate Hd.
Qed.

(** The text of a float tells the float: Python prints two floats alike
    only when they are the same. *)
Lemma repr_inj (x y : PyFloat.float) : PyFloat.repr x = PyFloat.repr y -> x = y.
Proof.
  rewrite (repr_sign x), (repr_sign y).
  destruct (repr_abs_head x) as (c & r & Ex & Hc & _).
  destruct (repr_abs_head y) as (c' & r' & Ey & Hc' & _).
  intros H. pose proof H as H'. rewrite Ex, Ey in H'.
  apply sign_split in H'; [|assumption|assumption].
  destruct H' as [Hs Hb]. rewrite <- Ex, <- Ey in Hb.
  apply repr_abs_inj in Hb.
  destruct x as [s|s| |s m e], y as [s'|s'| |s' m' e']; cbn in Hs, Hb;
    try discriminate Hb; try reflexivity; congruence.
Qed.

(** The text of a float does not end with a hyphen. *)
Lemma repr_no_final_hyphen (x : PyFloat.float) : endswith (PyFloat.repr x) "-" = false.
Proof.
  rewrite (repr_sign x).
  destruct (repr_abs_head x) as (c & r & -> & _ & He).
  rewrite endswith_append by discriminate. exact He.
Qed.

(* ================================================================= *)
(** ** The ETag *)

(** After a text that does not end with a hyphen, a hyphen and a decimal
    numeral, negative or not, are read back in one way only. *)
Lemma hyphen_numeral_delimits (x x' : string) (n n' : Z) :
  endswith x "-" = false -> endswith x' "-" = false ->
  x ++ "-" ++ str_int n ++ dquote = x' ++ "-" ++ str_int n' ++ dquote ->
  x = x' /\ n = n'.
Proof.
  intros Hx Hx' H.
  assert (Hfree : forall ds, all_digits ds = true -> contains (ds ++ dquote) "-" = false).
  { intros ds Hds. rewrite contains_append, (all_digits_no_hyphen ds Hds). reflexivity. }
  assert (Hnum : forall ds ds', all_digits ds = true -> all_digits ds' = true ->
                                ds ++ dquote = ds' ++ dquote -> ds = ds').
  { intros ds ds' Hds Hds' E. unfold dquote in E.
    apply digits_delimited in E; [tauto|assumption|assumption|reflexivity|reflexivity]. }
  assert (Hend : forall y, endswith (y ++ "-") "-" = true).
  { intros y. rewrite endswith_append by discriminate. reflexivity. }
  destruct (str_int_shape n) as (ds & _ & Hds & Hs).
  destruct (str_int_shape n') as (ds' & _ & Hds' & Hs').
  assert (E : x = x' /\ str_int n = str_int n').
  { destruct Hs as [Hs|Hs]; destruct Hs' as [Hs'|Hs']; rewrite Hs, Hs' in *.
    - apply last_hyphen_delimits in H; [|now apply Hfree|now apply Hfree].
      destruct H as [-> H]. split; [reflexivity|]. now apply Hnum.
    - change (x' ++ "-" ++ String "-" ds' ++ dquote)
        with (x' ++ "-" ++ String "-" (ds' ++ dquote)) in H.
      rewrite <- (append_assoc x' "-") in H.
      apply last_hyphen_delimits in H; [|now apply Hfree|now apply Hfree].
      destruct H as [E _]. rewrite E, Hend in Hx. discriminate Hx.
    - change (x ++ "-" ++ String "-" ds ++ dquote)
        with (x ++ "-" ++ String "-" (ds ++ dquote)) in H.
      rewrite <- (append_assoc x "-") in H.
      apply last_hyphen_delimits in H; [|now apply Hfree|now apply Hfree].
      destruct H as [E _]. rewrite <- E, Hend in Hx'. discriminate Hx'.
    - change (x ++ "-" ++ String "-" ds ++ dquote)
        with (x ++ "-" ++ String "-" (ds ++ dquote)) in H.
      change (x' ++ "-" ++ String "-" ds' ++ dquote)
        with (x' ++ "-" ++ String "-" (ds' ++ dquote)) in H.
      rewrite <- (append_assoc x "-"), <- (append_assoc x' "-") in H.
      apply last_hyphen_delimits in H; [|now apply Hfree|now apply Hfree].
      destruct H as [E1 E2].
      apply last_hyphen_delimits in E1; [|reflexivity|reflexivity].
      destruct E1 as [-> _]. split; [reflexivity|].
      f_equal. now apply Hnum. }
  destruct E as [E1 E2]. split; [assumption|now apply str_int_inj].
Qed.

(** C7. The ETag of a modification time and a content length is the text
    of the first, as Python prints a float, a hyphen, and the text of the
    second, between double quotes; it is a function of the pair, and two
    pairs have the same ETag only when they are the same pair. *)
Theorem generate_etag_injective (lm lm' : PyFloat.float) (cl cl' : Z) :
  generate_etag lm cl = dquote ++ PyFloat.repr lm ++ "-" ++ str_int cl ++ dquote /\
  (generate_etag lm cl = generate_etag lm' cl' <-> lm = lm' /\ cl = cl').
Proof.
  split; [reflexivity|]. split.
  - unfold generate_etag, str, Str_float, Str_int. intros H.
    apply append_cancel_l in H.
    apply hyphen_numeral_delimits in H; try apply repr_no_final_hyphen.
    destruct H as [Hlm Hcl]. split; [now apply repr_inj|assumption].
  - intros [-> ->]. reflexivity.
Qed.

(** X18. The same for a modification time of any type, a text or a
    number with a fraction: with lengths that are not negative, equal ETags
    come from equal lengths and from modification times with the same
    text. *)
Lemma generate_etag_injective_any_time {A} `{Str A} (lm lm' : A) (cl cl' : Z) :
  0 <= cl -> 0 <= cl' ->
  generate_etag lm cl = generate_etag lm' cl' ->
  str lm = str lm' /\ cl = cl'.
Proof.
  intros Hcl Hcl'. unfold generate_etag. intros E.
  apply append_cancel_l in E.
  assert (Hfree : forall n, 0 <= n -> contains (str n ++ dquote) "-" = false).
  { intros n Hn. rewrite contains_append.
    unfold str, Str_int. rewrite all_digits_no_hyphen by now apply str_int_nonnegative.
    reflexivity. }
  apply last_hyphen_delimits in E; [|now apply Hfree|now apply Hfree].
  destruct E as [Hlm E]. split; [assumption|].
  unfold str, Str_int, dquote in E.
  apply str_int_delimited in E; [tauto|reflexivity|reflexivity].
Qed.

(* ================================================================= *)
(** ** The segment check *)

Lemma INVALID_PATH_PARTS_truthy (args : list string) :
  truthy_set (INVALID_PATH_PARTS args) = orb (mem ".." args) (mem "." args).
Proof.
  unfold INVALID_PATH_PARTS. cbn [filter].
  destruct (mem ".." args), (mem "." args); reflexivity.
Qed.

Lemma segment_check_rejects (args : list string) :
  In ".." args \/ In "." args -> truthy_set (INVALID_PATH_PARTS args) = true.
Proof.
  rewrite INVALID_PATH_PARTS_truthy, orb_true_iff, !mem_In. tauto.
Qed.

Lemma segment_check_passes (args : list string) :
  ~ In ".." args -> ~ In "." args -> truthy_set (INVALID_PATH_PARTS args) = false.
Proof.
  intros H1 H2. rewrite INVALID_PATH_PARTS_truthy, orb_false_iff.
  split; apply not_true_is_false; rewrite mem_In; assumption.
Qed.

(* ================================================================= *)
(** ** The dispatcher, path by path *)

(** [_default] with the trace written out at every exit. *)
Lemma default_unfold (self : StaticController) (w : Platform) (env : environ)
    (args : list string) :
  _default self w env args =
  match args with
  | [] => ([], redirect (PATH_INFO env ++ "index.html"))
  | _ :: _ =>
    if truthy_set (INVALID_PATH_PARTS args)
    then ([], HTTPNotFound (Some ("Out of bounds: " ++ PATH_INFO env)))
    else
      let p := resolve_filepath self env args in
      match getmtime w p with
      | inl e => ([op_getmtime p], stat_failure e)
      | inr lm =>
        match getsize w p with
        | inl e => ([op_getmtime p; op_getsize p], stat_failure e)
        | inr cl =>
          if isfile w p then
            match has_been_modified w env (generate_etag lm cl) lm with
            | inl raised => (stat_calls p, raised)
            | inr false =>
                (stat_calls p,
                 HTTPNotModified (minimal_headers self (generate_etag lm cl)))
            | inr true =>
              match open_rb w p with
              | OpenError e =>
                  ((stat_calls p ++ [op_open p])%list,
                   HTTPForbidden
                     ("You are not permitted to view this file (" ++ e ++ ")"))
              | Opened fp =>
                  ((stat_calls p ++ [op_open p])%list,
                   match expires_date self w with
                   | inl e => Raised e
                   | inr _ =>
                       match call_make_date w lm with
                       | inl e => Raised e
                       | inr _ =>
                           Success (success_headers self w p lm cl)
                                   (file_body w env fp)
                       end
                   end)
              end
            end
          else (stat_calls p, HTTPNotFound None)
        end
      end
  end.
Proof.
  unfold _default, _default_body.
  destruct args as [|a args]; [reflexivity|].
  cbn [List.length Nat.eqb].
  destruct (truthy_set (INVALID_PATH_PARTS (a :: args))); [reflexivity|].
  cbv zeta.
  set (p := resolve_filepath self env (a :: args)).
  unfold bind, try_getmtime, try_getsize, call_isfile, lift, try_open, run, ret,
    stat_failure, success_headers.
  destruct (getmtime w p) as [e|lm]; [reflexivity|].
  destruct (getsize w p) as [e|cl]; [reflexivity|].
  destruct (isfile w p); [|reflexivity].
  destruct (has_been_modified w env (generate_etag lm cl) lm) as [r|[|]];
    [reflexivity| |reflexivity].
  destruct (open_rb w p); [|reflexivity].
  destruct (expires_date self w) as [e|ex]; [reflexivity|].
  destruct (call_make_date w lm) as [e|md]; reflexivity.
Qed.

(** What the two [try] blocks make of an exception: NotFound for an
    [OSError], the exception itself otherwise. *)
Lemma stat_failure_cases (e : exception) :
  (e = OSError /\ stat_failure e = HTTPNotFound None) \/
  (e <> OSError /\ stat_failure e = Raised e).
Proof. destruct e; [left|right|right|right]; split; (reflexivity || discriminate). Qed.

(** What [parse_date] makes of an exception: BadRequest for a [TypeError]
    or an [OverflowError], the exception itself otherwise. *)
Lemma parse_failure_cases (e : exception) :
  ((e = TypeError \/ e = OverflowError) /\
   parse_failure e = HTTPBadRequest ("Received an ill-formed timestamp." ++ CRLF)) \/
  (e <> TypeError /\ e <> OverflowError /\ parse_failure e = Raised e).
Proof.
  destruct e; [right|left|left|right]; repeat split;
    (reflexivity || discriminate || auto).
Qed.

(* ================================================================= *)
(** ** Path traversal *)

(** C4. Every segment sequence with a [..] component, wherever it stands,
    is answered with NotFound and no filesystem call at all is made: the
    trace of the request is empty. *)
Theorem dotdot_rejected_before_filesystem (self : StaticController) (w : Platform)
    (env : environ) (args : list string) :
  In ".." args ->
  _default self w env args =
    ([], HTTPNotFound (Some ("Out of bounds: " ++ PATH_INFO env))).
Proof.
  intros Hin. rewrite default_unfold.
  destruct args as [|a args]; [contradiction|].
  rewrite segment_check_rejects by (left; assumption).
  reflexivity.
Qed.

Lemma dotdot_rejected_before_filesystem_witness :
  In ".." ["css"; ".."; ".."; "etc"; "passwd"] /\
  _default Sample.controller Sample.platform
    (Sample.request "GET" "/static/css/../../etc/passwd" None None)
    ["css"; ".."; ".."; "etc"; "passwd"] =
    ([], HTTPNotFound (Some "Out of bounds: /static/css/../../etc/passwd")).
Proof.
  split.
  - cbn [In]. tauto.
  - apply (dotdot_rejected_before_filesystem Sample.controller Sample.platform
             (Sample.request "GET" "/static/css/../../etc/passwd" None None)).
    cbn [In]. tauto.
Defined.

(* ================================================================= *)
(** ** The cache validator *)

Lemma etag_matches_iff (env : environ) (etag : string) :
  etag_matches env etag = true <->
  HTTP_IF_NONE_MATCH env = Some etag /\ etag <> EmptyString.
Proof.
  unfold etag_matches. destruct (HTTP_IF_NONE_MATCH env) as [v|].
  - rewrite andb_true_iff, truthy_str_iff, String.eqb_eq. split.
    + intros [Hv Heq]. subst. tauto.
    + intros [Heq Hne]. injection Heq as Heq. subst. tauto.
  - split; [discriminate|intros [H _]; discriminate].
Qed.

(** The validator for a safe method, branch by branch. *)
Lemma has_been_modified_safe (w : Platform) (env : environ) (etag : string)
    (lm : PyFloat.float) :
  safe_method env = true ->
  has_been_modified w env etag lm =
  match HTTP_IF_MODIFIED_SINCE env with
  | Some value =>
      if truthy_str value then
        match mktime_parsedate_tz w value with
        | inl e => inl (parse_failure e)
        | inr t =>
            inr (negb (orb (andb (PyFloat.truthy lm) (PyFloat.le_int lm t))
                           (etag_matches env etag)))
        end
      else inr (negb (etag_matches env etag))
  | None => inr (negb (etag_matches env etag))
  end.
Proof.
  intros Hsafe. unfold has_been_modified, safe_method, etag_matches, parse_date in *.
  rewrite Hsafe. cbn [negb].
  destruct (HTTP_IF_MODIFIED_SINCE env) as [v|]; [|destruct (HTTP_IF_NONE_MATCH env) as [x|]].
  - destruct (truthy_str v).
    + destruct (mktime_parsedate_tz w v) as [e|t]; [reflexivity|].
      destruct (andb (PyFloat.truthy lm) (PyFloat.le_int lm t));
        destruct (HTTP_IF_NONE_MATCH env) as [x|]; cbn [orb]; try reflexivity.
      * destruct (andb (truthy_str x) (String.eqb etag x)); reflexivity.
      * destruct (andb (truthy_str x) (String.eqb etag x)); reflexivity.
    + destruct (HTTP_IF_NONE_MATCH env) as [x|]; [|reflexivity].
      destruct (andb (truthy_str x) (String.eqb etag x)); reflexivity.
  - destruct (andb (truthy_str x) (String.eqb etag x)); reflexivity.
  - reflexivity.
Qed.

(** The validator ends the request only from [parse_date]: with its
    BadRequest, or with an exception of the date parser that it does not
    catch. *)
Lemma has_been_modified_raises (w : Platform) (env : environ) (etag : string)
    (lm : PyFloat.float) (raised : Response) :
  has_been_modified w env etag lm = inl raised ->
  raised = HTTPBadRequest ("Received an ill-formed timestamp." ++ CRLF) \/
  exists e, raised = Raised e.
Proof.
  unfold has_been_modified, parse_date.
  destruct (negb (mem (REQUEST_METHOD env) ["GET"; "HEAD"])); [discriminate|].
  destruct (HTTP_IF_MODIFIED_SINCE env) as [v|]; [|discriminate].
  destruct (truthy_str v); [|discriminate].
  destruct (mktime_parsedate_tz w v) as [e|t].
  - intros H. injection H as H. subst raised.
    destruct e; cbn; eauto.
  - destruct (andb (PyFloat.truthy lm) (PyFloat.le_int lm t)); discriminate.
Qed.

(** A method other than GET and HEAD ends the validator at its first
    line. *)
Lemma has_been_modified_other_method (w : Platform) (env : environ)
    (etag : string) (lm : PyFloat.float) :
  safe_method env = false -> has_been_modified w env etag lm = inr false.
Proof.
  unfold has_been_modified, safe_method. intros ->. reflexivity.
Qed.

(** C2, as the code has it. For a method that is neither GET nor HEAD the
    validator returns [False] whatever the conditional headers say: it
    reports the resource as not modified, and it never parses
    [If-Modified-Since], so it cannot fail either. *)
Theorem has_been_modified_unsafe_method (w : Platform) (env : environ)
    (etag : string) (last_modified : PyFloat.float) :
  safe_method env = false ->
  has_been_modified w env etag last_modified = inr false.
Proof.
  intros H. unfold has_been_modified, safe_method in *. rewrite H. reflexivity.
Qed.

Lemma has_been_modified_unsafe_method_witness :
  safe_method (Sample.request "POST" "/static/css/style.css" (Some "not-a-date") None) = false /\
  has_been_modified Sample.platform
    (Sample.request "POST" "/static/css/style.css" (Some "not-a-date") None)
    Sample.css_etag Sample.css_mtime = inr false.
Proof.
  split.
  - reflexivity.
  - apply has_been_modified_unsafe_method. reflexivity.
Defined.

(** C2, the counterexample: a POST without conditional headers. The
    validator answers [False], not [True]. *)
Lemma has_been_modified_post_is_false :
  mem "POST" ["GET"; "HEAD"] = false /\
  has_been_modified Sample.platform
    (Sample.request "POST" "/static/css/style.css" None None)
    Sample.css_etag Sample.css_mtime = inr false /\
  has_been_modified Sample.platform
    (Sample.request "POST" "/static/css/style.css" None None)
    Sample.css_etag Sample.css_mtime <> inr true.
Proof.
  split; [reflexivity|]. split; [reflexivity|]. discriminate.
Qed.

(* ================================================================= *)
(** ** The dispatcher on a regular file *)

Lemma css_segments_pass : passes_segment_check ["css"; "style"].
Proof.
  repeat split; [discriminate| |]; cbn [In]; intros [H|[H|[]]]; discriminate.
Qed.

Lemma css_is_regular_file :
  regular_file Sample.platform Sample.css Sample.css_mtime 42.
Proof. repeat split. Qed.

Lemma notes_segments_pass : passes_segment_check ["notes"].
Proof.
  repeat split; [discriminate| |]; cbn [In]; intros [H|[]]; discriminate.
Qed.

Lemma notes_is_regular_file :
  regular_file Sample.platform Sample.notes Sample.notes_mtime 5.
Proof. repeat split. Qed.

Lemma old_segments_pass : passes_segment_check ["old"].
Proof.
  repeat split; [discriminate| |]; cbn [In]; intros [H|[]]; discriminate.
Qed.

Lemma old_is_regular_file :
  regular_file Sample.platform Sample.old Sample.old_mtime 7.
Proof. repeat split. Qed.

(** On the sample machine the dates of a response are formatted, whatever
    the file. *)
Lemma sample_dates_formatted (lm : PyFloat.float) (t : Z) :
  PyFloat.floor lm = Some t -> 0 <= t <= 4102444800 ->
  dates_formatted Sample.controller Sample.platform lm.
Proof.
  intros Hfloor Ht. split.
  - eexists. vm_compute. reflexivity.
  - exists (make_date (of_timestamp t)).
    unfold call_make_date, as_time_t. rewrite Hfloor.
    assert (E : gmtime_error Sample.platform t = None).
    { cbn [gmtime_error Sample.platform].
      destruct (andb (-67768040609740800 <=? t) (t <=? 67768036191676799)) eqn:E;
        [reflexivity|].
      apply andb_false_iff in E. destruct E as [E|E];
        [apply Z.leb_gt in E|apply Z.leb_gt in E]; lia. }
    rewrite E. destruct lm; try reflexivity. discriminate.
Qed.

Section RegularFile.

Variables (self : StaticController) (w : Platform) (env : environ).
Variables (args : list string) (lm : PyFloat.float) (cl : Z).

Hypothesis Hargs : passes_segment_check args.
Hypothesis Hfile : regular_file w (resolve_filepath self env args) lm cl.

(** Past the segment check and the three [stat]-level calls, the response
    is decided by the cache validator and, if it says "modified", by the
    opening of the file and the formatting of the two dates. *)
Lemma default_regular_file :
  _default self w env args =
  let p := resolve_filepath self env args in
  match has_been_modified w env (generate_etag lm cl) lm with
  | inl raised => (stat_calls p, raised)
  | inr false =>
      (stat_calls p, HTTPNotModified (minimal_headers self (generate_etag lm cl)))
  | inr true =>
      match open_rb w p with
      | OpenError e =>
          ((stat_calls p ++ [op_open p])%list,
           HTTPForbidden ("You are not permitted to view this file (" ++ e ++ ")"))
      | Opened fp =>
          ((stat_calls p ++ [op_open p])%list,
           match expires_date self w with
           | inl e => Raised e
           | inr _ =>
               match call_make_date w lm with
               | inl e => Raised e
               | inr _ =>
                   Success (success_headers self w p lm cl) (file_body w env fp)
               end
           end)
      end
  end.
Proof.
  destruct Hargs as [Hne [Hdd Hd]]. destruct Hfile as [Hm [Hs Hf]].
  rewrite default_unfold.
  destruct args as [|a rest]; [contradiction Hne; reflexivity|].
  rewrite (segment_check_passes _ Hdd Hd).
  cbv zeta. rewrite Hm, Hs, Hf. reflexivity.
Qed.

(** The same when the file is opened and the dates are formatted. *)
Lemma default_served (fp : file) :
  has_been_modified w env (generate_etag lm cl) lm = inr true ->
  open_rb w (resolve_filepath self env args) = Opened fp ->
  dates_formatted self w lm ->
  _default self w env args =
    ((stat_calls (resolve_filepath self env args)
        ++ [op_open (resolve_filepath self env args)])%list,
     Success (success_headers self w (resolve_filepath self env args) lm cl)
             (file_body w env fp)).
Proof.
  intros Hbm Hopen [[ex Hex] [md Hmd]].
  rewrite default_regular_file. cbv zeta. rewrite Hbm, Hopen, Hex, Hmd.
  reflexivity.
Qed.

(** C9. A request whose method is neither GET nor HEAD and that names an
    existing regular file is answered NotModified with the two minimal
    headers; the file is looked up but never opened. *)
Theorem unsafe_method_is_not_modified :
  safe_method env = false ->
  _default self w env args =
    (stat_calls (resolve_filepath self env args),
     HTTPNotModified (minimal_headers self (generate_etag lm cl))) /\
  forall path, ~ In (op_open path) (fst (_default self w env args)).
Proof.
  intros Hsafe. rewrite default_regular_file. cbv zeta.
  rewrite has_been_modified_other_method by assumption.
  split; [reflexivity|].
  intros path [H|[H|[H|[]]]]; discriminate.
Qed.

(** A date that [parse_date] refuses ends the request with its
    BadRequest. *)
Lemma unparsable_bad_request (value : string) :
  safe_method env = true ->
  HTTP_IF_MODIFIED_SINCE env = Some value ->
  value <> EmptyString ->
  ill_formed w value ->
  _default self w env args =
    (stat_calls (resolve_filepath self env args),
     HTTPBadRequest ("Received an ill-formed timestamp." ++ CRLF)).
Proof.
  intros Hsafe Hims Hne Hparse. rewrite default_regular_file. cbv zeta.
  rewrite has_been_modified_safe by assumption.
  rewrite Hims. apply truthy_str_iff in Hne. rewrite Hne.
  destruct Hparse as [Hparse|Hparse]; rewrite Hparse; reflexivity.
Qed.

(** C3, as the code has it. On a GET or HEAD for a regular file, a
    non-empty [If-Modified-Since] value that the date parser rejects with
    a [TypeError] or an [OverflowError], as it does a text that is no date,
    ends the request with BadRequest, whatever [If-None-Match] holds, and
    before the file is opened. *)
Theorem unparsable_if_modified_since_is_bad_request (value : string) :
  safe_method env = true ->
  HTTP_IF_MODIFIED_SINCE env = Some value ->
  value <> EmptyString ->
  ill_formed w value ->
  _default self w env args =
    (stat_calls (resolve_filepath self env args),
     HTTPBadRequest ("Received an ill-formed timestamp." ++ CRLF)).
Proof.
  intros Hsafe Hims Hne Hparse. rewrite default_regular_file. cbv zeta.
  rewrite has_been_modified_safe by assumption.
  rewrite Hims. apply truthy_str_iff in Hne. rewrite Hne.
  destruct Hparse as [Hparse|Hparse]; rewrite Hparse; reflexivity.
Qed.

(** C6. On a GET or HEAD for a regular file whose [If-None-Match] equals
    the generated ETag, and whose [If-Modified-Since], if there is one,
    parses, the answer is NotModified with the two minimal headers,
    whatever the parsed date is; the file is not opened. *)
Theorem matching_etag_is_not_modified :
  safe_method env = true ->
  HTTP_IF_NONE_MATCH env = Some (generate_etag lm cl) ->
  (forall value, HTTP_IF_MODIFIED_SINCE env = Some value ->
                 exists t, mktime_parsedate_tz w value = inr t) ->
  _default self w env args =
    (stat_calls (resolve_filepath self env args),
     HTTPNotModified (minimal_headers self (generate_etag lm cl))).
Proof.
  intros Hsafe Hinm Hims. rewrite default_regular_file. cbv zeta.
  rewrite has_been_modified_safe by assumption.
  assert (Hmatch : etag_matches env (generate_etag lm cl) = true).
  { apply etag_matches_iff. split; [assumption|discriminate]. }
  rewrite Hmatch.
  destruct (HTTP_IF_MODIFIED_SINCE env) as [v|]; [|reflexivity].
  destruct (truthy_str v); [|reflexivity].
  destruct (Hims v eq_refl) as [t Ht]. rewrite Ht.
  rewrite orb_true_r. reflexivity.
Qed.

(** C5, as the code has it. On a GET or HEAD for a regular file with a
    non-empty [If-Modified-Since] that parses to [t]: when the file's
    modification time is not zero and is at most [t], the answer is
    NotModified; when [t] is before the modification time, and
    [If-None-Match] does not match the ETag, and the file can be opened
    and the two dates of the response formatted, the answer is Success. *)
Theorem if_modified_since_decides (value : string) (t : Z) :
  safe_method env = true ->
  HTTP_IF_MODIFIED_SINCE env = Some value ->
  value <> EmptyString ->
  mktime_parsedate_tz w value = inr t ->
  (PyFloat.truthy lm = true -> PyFloat.le_int lm t = true ->
   _default self w env args =
     (stat_calls (resolve_filepath self env args),
      HTTPNotModified (minimal_headers self (generate_etag lm cl)))) /\
  (PyFloat.le_int lm t = false ->
   HTTP_IF_NONE_MATCH env <> Some (generate_etag lm cl) ->
   forall fp, open_rb w (resolve_filepath self env args) = Opened fp ->
   dates_formatted self w lm ->
   _default self w env args =
     ((stat_calls (resolve_filepath self env args)
         ++ [op_open (resolve_filepath self env args)])%list,
      Success (success_headers self w (resolve_filepath self env args) lm cl)
              (file_body w env fp))).
Proof.
  intros Hsafe Hims Hne Hparse.
  apply truthy_str_iff in Hne.
  split.
  - intros Ht Hl. rewrite default_regular_file. cbv zeta.
    rewrite has_been_modified_safe by assumption.
    rewrite Hims, Hne, Hparse, Ht, Hl. reflexivity.
  - intros Hl Hinm fp Hopen Hdates.
    apply default_served; [|assumption|assumption].
    rewrite has_been_modified_safe by assumption.
    assert (Hmatch : etag_matches env (generate_etag lm cl) = false).
    { apply not_true_is_false. rewrite etag_matches_iff. tauto. }
    rewrite Hims, Hne, Hparse, Hl, Hmatch, andb_false_r. reflexivity.
Qed.

End RegularFile.

Lemma unsafe_method_is_not_modified_witness :
  safe_method (Sample.request "POST" "/static/css/style.css" None None) = false /\
  passes_segment_check ["css"; "style"] /\
  regular_file Sample.platform Sample.css Sample.css_mtime 42 /\
  _default Sample.controller Sample.platform
    (Sample.request "POST" "/static/css/style.css" None None) ["css"; "style"] =
    (stat_calls Sample.css,
     HTTPNotModified [("Etag", Sample.css_etag);
                      ("Cache-Control", "max-age=3600, public")]).
Proof.
  split; [reflexivity|]. split; [exact css_segments_pass|].
  split; [exact css_is_regular_file|].
  exact (proj1 (unsafe_method_is_not_modified Sample.controller Sample.platform
                  (Sample.request "POST" "/static/css/style.css" None None)
                  ["css"; "style"] Sample.css_mtime 42
                  css_segments_pass css_is_regular_file eq_refl)).
Defined.

Lemma unparsable_if_modified_since_is_bad_request_witness :
  safe_method (Sample.request "GET" "/static/css/style.css"
                 (Some "not-a-date") (Some Sample.css_etag)) = true /\
  passes_segment_check ["css"; "style"] /\
  regular_file Sample.platform Sample.css Sample.css_mtime 42 /\
  "not-a-date" <> EmptyString /\
  ill_formed Sample.platform "not-a-date" /\
  _default Sample.controller Sample.platform
    (Sample.request "GET" "/static/css/style.css"
       (Some "not-a-date") (Some Sample.css_etag)) ["css"; "style"] =
    (stat_calls Sample.css,
     HTTPBadRequest ("Received an ill-formed timestamp." ++ CRLF)).
Proof.
  assert (Hne : "not-a-date" <> EmptyString) by discriminate.
  assert (Hill : ill_formed Sample.platform "not-a-date") by (left; reflexivity).
  split; [reflexivity|]. split; [exact css_segments_pass|].
  split; [exact css_is_regular_file|].
  split; [exact Hne|]. split; [exact Hill|].
  exact (unparsable_if_modified_since_is_bad_request
           Sample.controller Sample.platform
           (Sample.request "GET" "/static/css/style.css"
              (Some "not-a-date") (Some Sample.css_etag))
           ["css"; "style"] Sample.css_mtime 42 css_segments_pass css_is_regular_file
           "not-a-date" eq_refl eq_refl Hne Hill).
Defined.

(** C3, the counterexample: a GET for the stylesheet whose
    [If-Modified-Since] header is present with an empty value. The value
    is no date, the parser rejects it with a [TypeError], yet the header
    is skipped and the file is served. *)
Lemma empty_if_modified_since_is_ignored :
  mktime_parsedate_tz Sample.platform EmptyString = inl TypeError /\
  _default Sample.controller Sample.platform
    (Sample.request "GET" "/static/css/style.css" (Some EmptyString) None)
    ["css"; "style"] =
  ((stat_calls Sample.css ++ [op_open Sample.css])%list,
   Success (success_headers Sample.controller Sample.platform Sample.css
              Sample.css_mtime 42)
           (_FileIter (file_of Sample.css) 262144)).
Proof.
  split; [reflexivity|]. vm_compute. reflexivity.
Qed.

(** A value that the date parser rejects with another exception is not
    answered at all: the [ValueError] for a year out of range is not among
    the exceptions [parse_date] catches and leaves the controller. *)
Lemma year_out_of_range_is_not_caught :
  mktime_parsedate_tz Sample.platform "Tue, 14 Nov 99999 22:13:20 GMT" = inl ValueError /\
  _default Sample.controller Sample.platform
    (Sample.request "GET" "/static/css/style.css"
       (Some "Tue, 14 Nov 99999 22:13:20 GMT") None) ["css"; "style"] =
  (stat_calls Sample.css, Raised ValueError).
Proof. split; vm_compute; reflexivity. Qed.

Lemma matching_etag_is_not_modified_witness :
  mktime_parsedate_tz Sample.platform "Tue, 14 Nov 2023 22:13:19 GMT" = inr 1699999999 /\
  PyFloat.le_int Sample.css_mtime 1699999999 = false /\
  Sample.css_etag = dquote ++ "1700000000.0-42" ++ dquote /\
  _default Sample.controller Sample.platform
    (Sample.request "GET" "/static/css/style.css"
       (Some "Tue, 14 Nov 2023 22:13:19 GMT") (Some Sample.css_etag))
    ["css"; "style"] =
    (stat_calls Sample.css,
     HTTPNotModified [("Etag", Sample.css_etag);
                      ("Cache-Control", "max-age=3600, public")]).
Proof.
  split; [reflexivity|]. split; [reflexivity|].
  split; [vm_compute; reflexivity|].
  apply (matching_etag_is_not_modified Sample.controller Sample.platform
           (Sample.request "GET" "/static/css/style.css"
              (Some "Tue, 14 Nov 2023 22:13:19 GMT") (Some Sample.css_etag))
           ["css"; "style"] Sample.css_mtime 42 css_segments_pass css_is_regular_file
           eq_refl eq_refl).
  intros value Hv. injection Hv as Hv. subst value. exists 1699999999. reflexivity.
Defined.

Lemma if_modified_since_decides_witness :
  mktime_parsedate_tz Sample.platform "Tue, 14 Nov 2023 22:13:20 GMT" = inr 1700000000 /\
  PyFloat.truthy Sample.css_mtime = true /\
  PyFloat.le_int Sample.css_mtime 1700000000 = true /\
  _default Sample.controller Sample.platform
    (Sample.request "GET" "/static/css/style.css"
       (Some "Tue, 14 Nov 2023 22:13:20 GMT") None) ["css"; "style"] =
    (stat_calls Sample.css,
     HTTPNotModified [("Etag", Sample.css_etag);
                      ("Cache-Control", "max-age=3600, public")]) /\
  PyFloat.le_int Sample.notes_mtime 1700000000 = false /\
  _default Sample.controller Sample.platform
    (Sample.request "GET" "/static/notes.txt"
       (Some "Tue, 14 Nov 2023 22:13:20 GMT") None) ["notes"] =
    ((stat_calls Sample.notes ++ [op_open Sample.notes])%list,
     Success (success_headers Sample.controller Sample.platform Sample.notes
                Sample.notes_mtime 5)
             (_FileIter (file_of Sample.notes) 262144)).
Proof.
  assert (Hne : forall a s, String a s <> EmptyString) by discriminate.
  split; [reflexivity|]. split; [reflexivity|]. split; [reflexivity|]. split.
  - apply (proj1 (if_modified_since_decides Sample.controller Sample.platform
                    (Sample.request "GET" "/static/css/style.css"
                       (Some "Tue, 14 Nov 2023 22:13:20 GMT") None)
                    ["css"; "style"] Sample.css_mtime 42
                    css_segments_pass css_is_regular_file
                    "Tue, 14 Nov 2023 22:13:20 GMT" 1700000000
                    eq_refl eq_refl (Hne _ _) eq_refl)); reflexivity.
  - split; [reflexivity|].
    apply (proj2 (if_modified_since_decides Sample.controller Sample.platform
                    (Sample.request "GET" "/static/notes.txt"
                       (Some "Tue, 14 Nov 2023 22:13:20 GMT") None)
                    ["notes"] Sample.notes_mtime 5
                    notes_segments_pass notes_is_regular_file
                    "Tue, 14 Nov 2023 22:13:20 GMT" 1700000000
                    eq_refl eq_refl (Hne _ _) eq_refl)
             eq_refl ltac:(discriminate) (file_of Sample.notes) eq_refl).
    apply (sample_dates_formatted _ 1700000000); [reflexivity|lia].
Defined.

(** C5, the counterexample: a GET for a file whose modification time is 0,
    with [If-Modified-Since] five seconds after the epoch. The parsed
    timestamp is not before the modification time, yet the file is
    served. *)
Lemma epoch_mtime_is_served_despite_if_modified_since :
  regular_file Sample.platform Sample.old Sample.old_mtime 7 /\
  mktime_parsedate_tz Sample.platform "Thu, 01 Jan 1970 00:00:05 GMT" = inr 5 /\
  PyFloat.le_int Sample.old_mtime 5 = true /\
  _default Sample.controller Sample.platform
    (Sample.request "GET" "/static/old.txt"
       (Some "Thu, 01 Jan 1970 00:00:05 GMT") None)
    ["old"] =
  ((stat_calls Sample.old ++ [op_open Sample.old])%list,
   Success (success_headers Sample.controller Sample.platform Sample.old
              Sample.old_mtime 7)
           (_FileIter (file_of Sample.old) 262144)).
Proof.
  split; [repeat split|]. split; [reflexivity|]. split; [reflexivity|].
  vm_compute. reflexivity.
Qed.

(** C10. When the file's modification time is zero, a well-formed
    [If-Modified-Since] has no effect on a GET or HEAD: the validator
    answers as it would without the header, whatever the parsed value; it
    reports "not modified" only if [If-None-Match] equals the ETag; and so
    the dispatcher answers NotModified for such a file only then. *)
Theorem epoch_mtime_ignores_if_modified_since (self : StaticController)
    (w : Platform) (env : environ) (args : list string) (etag value : string)
    (t cl : Z) (lm : PyFloat.float) :
  PyFloat.truthy lm = false ->
  safe_method env = true ->
  HTTP_IF_MODIFIED_SINCE env = Some value ->
  mktime_parsedate_tz w value = inr t ->
  has_been_modified w env etag lm = inr (negb (etag_matches env etag)) /\
  (has_been_modified w env etag lm = inr false ->
   HTTP_IF_NONE_MATCH env = Some etag) /\
  (passes_segment_check args ->
   regular_file w (resolve_filepath self env args) lm cl ->
   forall headers, snd (_default self w env args) = HTTPNotModified headers ->
   HTTP_IF_NONE_MATCH env = Some (generate_etag lm cl)).
Proof.
  intros Hzero Hsafe Hims Hparse.
  assert (Hv : forall e, has_been_modified w env e lm = inr (negb (etag_matches env e))).
  { intros e. rewrite has_been_modified_safe by assumption.
    rewrite Hims, Hparse, Hzero. destruct (truthy_str value); reflexivity. }
  assert (Hm : forall e, has_been_modified w env e lm = inr false ->
                         HTTP_IF_NONE_MATCH env = Some e).
  { intros e He. rewrite Hv in He.
    destruct (etag_matches env e) eqn:Hmatch; [|discriminate].
    apply etag_matches_iff in Hmatch. tauto. }
  split; [apply Hv|]. split; [apply Hm|].
  intros Hargs Hfile headers.
  rewrite (default_regular_file self w env args lm cl Hargs Hfile). cbv zeta.
  destruct (has_been_modified w env (generate_etag lm cl) lm) as [r|[|]] eqn:Hbm.
  - rewrite Hv in Hbm. discriminate.
  - destruct (open_rb w _); cbn [snd]; [|discriminate].
    destruct (expires_date self w); [discriminate|].
    destruct (call_make_date w lm); discriminate.
  - intros _. apply Hm. assumption.
Qed.

Lemma epoch_mtime_ignores_if_modified_since_witness :
  PyFloat.truthy Sample.old_mtime = false /\
  safe_method (Sample.request "GET" "/static/old.txt"
                 (Some "Thu, 01 Jan 1970 00:00:05 GMT") None) = true /\
  mktime_parsedate_tz Sample.platform "Thu, 01 Jan 1970 00:00:05 GMT" = inr 5 /\
  has_been_modified Sample.platform
    (Sample.request "GET" "/static/old.txt" (Some "Thu, 01 Jan 1970 00:00:05 GMT") None)
    (generate_etag Sample.old_mtime 7) Sample.old_mtime = inr true.
Proof.
  split; [reflexivity|]. split; [reflexivity|]. split; [reflexivity|].
  apply (proj1 (epoch_mtime_ignores_if_modified_since
                  Sample.controller Sample.platform
                  (Sample.request "GET" "/static/old.txt"
                     (Some "Thu, 01 Jan 1970 00:00:05 GMT") None)
                  ["old"] (generate_etag Sample.old_mtime 7)
                  "Thu, 01 Jan 1970 00:00:05 GMT" 5 7 Sample.old_mtime
                  eq_refl eq_refl eq_refl eq_refl)).
Defined.

(* ================================================================= *)
(** ** Response headers *)

(** C8. The headers of a Success response are, in this order, Etag,
    Cache-Control, Expires, Content-Type, Content-Length, Last-Modified,
    and then Etag and Cache-Control once more with the same values; the
    headers of a NotModified response are Etag and Cache-Control. *)
Theorem response_header_lists (self : StaticController) (w : Platform)
    (env : environ) (args : list string) :
  (forall headers body,
     snd (_default self w env args) = Success headers body ->
     map fst headers =
       ["Etag"; "Cache-Control"; "Expires"; "Content-Type"; "Content-Length";
        "Last-Modified"; "Etag"; "Cache-Control"] /\
     nth_error headers 6 = nth_error headers 0 /\
     nth_error headers 7 = nth_error headers 1) /\
  (forall headers,
     snd (_default self w env args) = HTTPNotModified headers ->
     map fst headers = ["Etag"; "Cache-Control"]).
Proof.
  rewrite default_unfold.
  destruct args as [|a args]; [split; intros; discriminate|].
  destruct (truthy_set (INVALID_PATH_PARTS (a :: args)));
    [split; intros; discriminate|].
  cbv zeta. set (p := resolve_filepath self env (a :: args)).
  destruct (getmtime w p) as [e|lm];
    [destruct e; split; intros; discriminate|].
  destruct (getsize w p) as [e|cl];
    [destruct e; split; intros; discriminate|].
  destruct (isfile w p); [|split; intros; discriminate].
  destruct (has_been_modified w env (generate_etag lm cl) lm) as [r|[|]] eqn:Hbm.
  - apply has_been_modified_raises in Hbm. destruct Hbm as [->|[e ->]];
      split; intros; discriminate.
  - destruct (open_rb w p) as [fp|e]; [|split; intros; discriminate].
    destruct (expires_date self w) as [e|ex]; [split; intros; discriminate|].
    destruct (call_make_date w lm) as [e|md]; [split; intros; discriminate|].
    split; [|intros; discriminate].
    intros headers body H. cbn [snd] in H. injection H as H _. subst headers.
    repeat split.
  - split; [intros; discriminate|].
    intros headers H. cbn [snd] in H. injection H as H. subst headers.
    reflexivity.
Qed.

Lemma response_header_lists_witness :
  map fst (success_headers Sample.controller Sample.platform Sample.css
             Sample.css_mtime 42) =
    ["Etag"; "Cache-Control"; "Expires"; "Content-Type"; "Content-Length";
     "Last-Modified"; "Etag"; "Cache-Control"] /\
  map fst [("Etag", Sample.css_etag); ("Cache-Control", "max-age=3600, public")] =
    ["Etag"; "Cache-Control"].
Proof.
  split.
  - apply (proj1 (response_header_lists Sample.controller Sample.platform
                    (Sample.request "GET" "/static/css/style.css" None None)
                    ["css"; "style"])
             _ (_FileIter (file_of Sample.css) 262144)).
    vm_compute. reflexivity.
  - apply (proj2 (response_header_lists Sample.controller Sample.platform
                    (Sample.request "GET" "/static/css/style.css"
                       None (Some Sample.css_etag))
                    ["css"; "style"])).
    vm_compute. reflexivity.
Defined.

(* ================================================================= *)
(** ** [normpath] over a joined path *)

Lemma norm_step_empty (i : nat) (nc : list string) :
  posixpath.norm_step i nc EmptyString = nc.
Proof. reflexivity. Qed.

Lemma norm_step_plain (i : nat) (nc : list string) (comp : string) :
  comp <> EmptyString -> comp <> "." -> comp <> ".." ->
  posixpath.norm_step i nc comp = (nc ++ [comp])%list.
Proof.
  intros H0 H1 H2. unfold posixpath.norm_step, mem. cbn [existsb].
  apply String.eqb_neq in H0, H1, H2. rewrite H0, H1, H2. reflexivity.
Qed.

Lemma Forall_removelast {A} (P : A -> Prop) (l : list A) :
  Forall P l -> Forall P (removelast l).
Proof.
  induction 1 as [|x l Hx Hl IH]; [constructor|].
  cbn. destruct l; [constructor|]. constructor; assumption.
Qed.

Lemma norm_step_clean (i : nat) (nc : list string) (comp : string) :
  Forall clean_component nc -> contains comp posixpath.sep = false ->
  Forall clean_component (posixpath.norm_step i nc comp).
Proof.
  intros Hnc Hcomp. unfold posixpath.norm_step.
  destruct (mem comp [EmptyString; "."]) eqn:Hmem; [assumption|].
  match goal with |- context [if ?c then _ else _] => destruct c end.
  - apply Forall_app. split; [assumption|]. constructor; [|constructor].
    split; [|assumption]. intros ->. discriminate.
  - destruct (negb _); [apply Forall_removelast|]; assumption.
Qed.

Lemma normalized_components_clean (i : nat) (path : string) :
  Forall clean_component (normalized_components i path).
Proof.
  unfold normalized_components.
  assert (H : forall comps nc,
             Forall (fun comp => contains comp posixpath.sep = false) comps ->
             Forall clean_component nc ->
             Forall clean_component (fold_left (posixpath.norm_step i) comps nc)).
  { induction comps as [|c comps IH]; intros nc Hc Hnc; [assumption|].
    inversion Hc; subst. cbn. apply IH; [assumption|].
    apply norm_step_clean; assumption. }
  apply H; [apply split_components|constructor].
Qed.

Lemma join_clean_not_absolute (nc : list string) :
  Forall clean_component nc -> startswith (Py.join "/" nc) "/" = false.
Proof.
  intros H. destruct H as [|x nc [Hne Hsep] _]; [reflexivity|].
  assert (Hx : startswith x "/" = false).
  { apply separator_free_not_absolute. unfold separator_free. now rewrite Hsep. }
  destruct nc; [assumption|].
  cbn [Py.join]. now rewrite startswith_append_nonempty.
Qed.

(** One more segment on the path is one more round of the loop. *)
Lemma normalized_components_join1 (i : nat) (path b : string) :
  separator_free b = true ->
  normalized_components i (posixpath.join1 path b) =
  posixpath.norm_step i (normalized_components i path) b.
Proof.
  intros Hb. unfold posixpath.join1, normalized_components.
  rewrite (separator_free_not_absolute b Hb).
  assert (Hsplit : split posixpath.sep b = [b]).
  { apply split_without_separator. unfold separator_free in Hb.
    now apply negb_true_iff in Hb. }
  destruct (String.eqb path EmptyString) eqn:Hpath.
  - apply String.eqb_eq in Hpath. subst path. cbn [orb append].
    rewrite Hsplit. reflexivity.
  - cbn [orb]. destruct (endswith path posixpath.sep) eqn:Hend.
    + destruct (endswith_inv _ _ Hend) as [p Hp]. subst path.
      rewrite append_assoc. cbn [append].
      rewrite !split_append, Hsplit, !fold_left_app. reflexivity.
    + change ("/" ++ b) with (String posixpath.sep b).
      rewrite split_append, Hsplit, fold_left_app. reflexivity.
Qed.

Lemma normalized_components_join (i : nat) (segs : list string) (path : string) :
  Forall (fun s => separator_free s = true) segs ->
  normalized_components i (posixpath.join path segs) =
  fold_left (posixpath.norm_step i) segs (normalized_components i path).
Proof.
  unfold posixpath.join. revert path.
  induction segs as [|b segs IH]; intros path H; [reflexivity|].
  inversion H; subst. cbn [fold_left].
  rewrite IH by assumption. now rewrite normalized_components_join1.
Qed.

(** Segments other than [.] and [..] only add components. *)
Lemma plain_segments_extend (i : nat) (segs nc : list string) :
  ~ In ".." segs -> ~ In "." segs ->
  exists extra, fold_left (posixpath.norm_step i) segs nc = (nc ++ extra)%list.
Proof.
  revert nc. induction segs as [|s segs IH]; intros nc Hdd Hd.
  - exists []. now rewrite app_nil_r.
  - cbn [fold_left]. cbn [In] in Hdd, Hd.
    destruct (IH (posixpath.norm_step i nc s)) as [extra He]; [tauto|tauto|].
    destruct (String.eqb_spec s EmptyString) as [->|Hne].
    + exists extra. now rewrite He, norm_step_empty.
    + exists (s :: extra)%list. rewrite He, norm_step_plain by (auto; intros ->; tauto).
      now rewrite <- app_assoc.
Qed.

(* ================================================================= *)
(** ** Leading slashes *)

Lemma initial_slashes_cases (path : string) :
  startswith path "/" = true ->
  posixpath.initial_slashes path = 1%nat \/ posixpath.initial_slashes path = 2%nat.
Proof.
  intros H. unfold posixpath.initial_slashes. rewrite H.
  destruct (andb _ _); auto.
Qed.

Lemma initial_slashes_rooted (i : nat) (path : string) :
  i = 1%nat \/ i = 2%nat -> rooted i path -> posixpath.initial_slashes path = i.
Proof.
  intros Hi [rest [-> Hrest]]. unfold posixpath.initial_slashes, posixpath.sep.
  destruct Hi as [-> | ->]; cbn [repeat_char append].
  - rewrite startswith_slash_cons.
    change "//" with (String "/" "/"). rewrite startswith_cons, Hrest. reflexivity.
  - rewrite startswith_slash_cons.
    change "///" with (String "/" (String "/" "/")).
    change "//" with (String "/" "/").
    rewrite !startswith_cons, Hrest. destruct rest; reflexivity.
Qed.

Lemma rooted_join1 (i : nat) (path b : string) :
  i = 1%nat \/ i = 2%nat -> rooted i path -> separator_free b = true ->
  rooted i (posixpath.join1 path b).
Proof.
  intros Hi [rest [-> Hrest]] Hb. unfold posixpath.join1.
  pose proof (separator_free_not_absolute b Hb) as Hb'. rewrite Hb'.
  assert (Hne : String.eqb (repeat_char posixpath.sep i ++ rest) EmptyString = false).
  { destruct Hi as [-> | ->]; reflexivity. }
  rewrite Hne. cbn [orb].
  destruct (endswith _ posixpath.sep) eqn:Hend.
  - exists (rest ++ b). split; [apply append_assoc|].
    destruct rest; [assumption|]. now rewrite startswith_append_nonempty.
  - exists (rest ++ "/" ++ b). split; [apply append_assoc|].
    destruct rest as [|a rest].
    + rewrite append_nil_r in Hend. destruct Hi as [-> | ->]; discriminate.
    + now rewrite startswith_append_nonempty.
Qed.

Lemma rooted_join (i : nat) (segs : list string) (path : string) :
  i = 1%nat \/ i = 2%nat -> rooted i path ->
  Forall (fun s => separator_free s = true) segs ->
  rooted i (posixpath.join path segs).
Proof.
  intros Hi. unfold posixpath.join. revert path.
  induction segs as [|b segs IH]; intros path Hp H; [assumption|].
  inversion H; subst. cbn [fold_left]. apply IH; [|assumption].
  apply rooted_join1; assumption.
Qed.

(** [normpath] on a path that starts with a slash. *)
Lemma normpath_rooted (i : nat) (path : string) :
  i = 1%nat \/ i = 2%nat -> posixpath.initial_slashes path = i ->
  posixpath.normpath path =
  repeat_char posixpath.sep i ++ Py.join "/" (normalized_components i path).
Proof.
  intros Hi Hinit. unfold posixpath.normpath.
  destruct (String.eqb_spec path EmptyString) as [->|_].
  - cbn in Hinit. destruct Hi; congruence.
  - cbv zeta. rewrite Hinit. fold (normalized_components i path).
    destruct Hi as [-> | ->]; reflexivity.
Qed.

(** The resolved path of segments that hold no separator and are neither
    [.] nor [..] lies under an absolute, normalized root. *)
Lemma resolved_under_root (root : string) (segs : list string) :
  _adapt_path root = root ->
  startswith root "/" = true ->
  Forall (fun s => separator_free s = true) segs ->
  ~ In ".." segs -> ~ In "." segs ->
  startswith (_adapt_path (posixpath.join root segs)) root = true.
Proof.
  unfold _adapt_path, posixpath.normcase. intros Hnorm Habs Hsegs Hdd Hd.
  set (i := posixpath.initial_slashes root).
  assert (Hi : i = 1%nat \/ i = 2%nat) by (apply initial_slashes_cases; assumption).
  pose proof (normpath_rooted i root Hi eq_refl) as Hroot.
  rewrite Hnorm in Hroot.
  assert (Hrooted : rooted i root).
  { exists (Py.join "/" (normalized_components i root)). split; [assumption|].
    apply join_clean_not_absolute, normalized_components_clean. }
  pose proof (rooted_join i segs root Hi Hrooted Hsegs) as Hjoined.
  rewrite (normpath_rooted i _ Hi (initial_slashes_rooted i _ Hi Hjoined)).
  rewrite normalized_components_join by assumption.
  destruct (plain_segments_extend i segs (normalized_components i root) Hdd Hd)
    as [extra ->].
  destruct (join_app_prefix "/" (normalized_components i root) extra) as [rest ->].
  rewrite <- append_assoc, <- Hroot. apply startswith_append.
Qed.

(* ================================================================= *)
(** ** Paths outside the root *)



(** The segments of a request are the parts of its URL path and hold no
    separator. [_default] called by hand with a segment that is itself an
    absolute path is another matter: the join discards the root, the
    segment check finds no [.] or [..] component, and the file outside the
    root is looked up, opened and served. *)
Lemma absolute_segment_escapes_root :
  startswith
    (_adapt_path (posixpath.join (static_path Sample.controller) ["/etc/passwd"]))
    (static_path Sample.controller) = false /\
  exists headers body,
    _default Sample.controller Sample.platform
      (Sample.request "GET" "/static//etc/passwd" None None) ["/etc/passwd"] =
    ([op_getmtime "/etc/passwd"; op_getsize "/etc/passwd";
      op_isfile "/etc/passwd"; op_open "/etc/passwd"],
     Success headers body).
Proof.
  split; [reflexivity|]. eexists. eexists. vm_compute. reflexivity.
Qed.

(** The same with a relative segment that holds separators: it is not a
    [..] component, so it passes the segment check, and the lookup is made
    outside the root. *)
Lemma embedded_separators_leave_root :
  _adapt_path (posixpath.join (static_path Sample.controller)
                 ["css/../../../../etc/passwd"]) = "/etc/passwd" /\
  fst (_default Sample.controller Sample.platform
         (Sample.request "GET" "/static/x" None None)
         ["css/../../../../etc/passwd"]) =
  [op_getmtime "/etc/passwd"; op_getsize "/etc/passwd";
   op_isfile "/etc/passwd"; op_open "/etc/passwd"].
Proof. split; vm_compute; reflexivity. Qed.

(* ================================================================= *)
(** ** The exits of the dispatcher *)

(** X1. A request is redirected exactly when it has no path segment; the
    target is then [PATH_INFO] followed by [index.html], and nothing is
    looked up on the filesystem. *)
Theorem redirect_iff_no_segments (self : StaticController) (w : Platform)
    (env : environ) (args : list string) (url : string) :
  snd (_default self w env args) = redirect url <->
  args = [] /\ url = PATH_INFO env ++ "index.html" /\
  fst (_default self w env args) = [].
Proof.
  rewrite default_unfold. split.
  - destruct args as [|a args].
    + cbn [fst snd]. intros H. injection H as H. auto.
    + destruct (truthy_set (INVALID_PATH_PARTS (a :: args))); [discriminate|].
      cbv zeta. set (p := resolve_filepath self env (a :: args)).
      destruct (getmtime w p) as [e|lm]; [destruct e; discriminate|].
      destruct (getsize w p) as [e|cl]; [destruct e; discriminate|].
      destruct (isfile w p); [|discriminate].
      destruct (has_been_modified w env (generate_etag lm cl) lm) as [r|[|]] eqn:Hbm.
      * apply has_been_modified_raises in Hbm.
        destruct Hbm as [->|[e ->]]; discriminate.
      * destruct (open_rb w p); [|discriminate].
        destruct (expires_date self w); [discriminate|].
        destruct (call_make_date w lm); discriminate.
      * discriminate.
  - intros [-> [-> _]]. reflexivity.
Qed.

(** X2. The answer is the NotFound that says "Out of bounds" exactly when
    some segment is [.] or [..]; the message ends with [PATH_INFO] and no
    filesystem call precedes it. The other NotFound answers carry no
    message. *)
Theorem out_of_bounds_iff_dot_component (self : StaticController) (w : Platform)
    (env : environ) (args : list string) (detail : string) :
  snd (_default self w env args) = HTTPNotFound (Some detail) <->
  (In ".." args \/ In "." args) /\
  detail = "Out of bounds: " ++ PATH_INFO env /\
  fst (_default self w env args) = [].
Proof.
  rewrite default_unfold. split.
  - destruct args as [|a args]; [discriminate|].
    destruct (truthy_set (INVALID_PATH_PARTS (a :: args))) eqn:Hcheck.
    + cbn [fst snd]. intros H. injection H as H.
      rewrite INVALID_PATH_PARTS_truthy, orb_true_iff, !mem_In in Hcheck. auto.
    + cbv zeta. set (p := resolve_filepath self env (a :: args)).
      destruct (getmtime w p) as [e|lm]; [destruct e; discriminate|].
      destruct (getsize w p) as [e|cl]; [destruct e; discriminate|].
      destruct (isfile w p); [|discriminate].
      destruct (has_been_modified w env (generate_etag lm cl) lm) as [r|[|]] eqn:Hbm.
      * apply has_been_modified_raises in Hbm.
        destruct Hbm as [->|[e ->]]; discriminate.
      * destruct (open_rb w p); [|discriminate].
        destruct (expires_date self w); [discriminate|].
        destruct (call_make_date w lm); discriminate.
      * discriminate.
  - intros [Hin [-> _]].
    destruct args as [|a args]; [destruct Hin as [[]|[]]|].
    rewrite (segment_check_rejects _ Hin). reflexivity.
Qed.

(** X3. Whatever the request, the filesystem calls are an initial part of
    [getmtime], [getsize], [isfile], [open], all four on the one resolved
    path: no call is made out of this order or on another path. *)
Theorem filesystem_calls_in_order (self : StaticController) (w : Platform)
    (env : environ) (args : list string) :
  exists n,
    fst (_default self w env args) =
    firstn n (all_calls (resolve_filepath self env args)).
Proof.
  rewrite default_unfold.
  destruct args as [|a args]; [exists 0%nat; reflexivity|].
  destruct (truthy_set (INVALID_PATH_PARTS (a :: args))); [exists 0%nat; reflexivity|].
  cbv zeta. set (p := resolve_filepath self env (a :: args)).
  destruct (getmtime w p) as [e|lm]; [exists 1%nat; reflexivity|].
  destruct (getsize w p) as [e|cl]; [exists 2%nat; reflexivity|].
  destruct (isfile w p); [|exists 3%nat; reflexivity].
  destruct (has_been_modified w env (generate_etag lm cl) lm) as [r|[|]];
    [exists 3%nat; reflexivity| |exists 3%nat; reflexivity].
  destruct (open_rb w p); exists 4%nat; reflexivity.
Qed.

(** X4. A file that cannot be examined is not found. When [getmtime]
    fails with an [OSError] nothing else is asked of the filesystem; when
    [getsize] does, [isfile] is not called; and a path that is not a
    regular file is never opened. An exception of another class, as the
    [ValueError] for a path with a null byte, is not caught by the [try]
    and leaves the controller. *)
Theorem missing_file_is_not_found (self : StaticController) (w : Platform)
    (env : environ) (args : list string) :
  passes_segment_check args ->
  let p := resolve_filepath self env args in
  (getmtime w p = inl OSError ->
   _default self w env args = ([op_getmtime p], HTTPNotFound None)) /\
  (forall lm, getmtime w p = inr lm -> getsize w p = inl OSError ->
   _default self w env args = ([op_getmtime p; op_getsize p], HTTPNotFound None)) /\
  (forall lm cl, getmtime w p = inr lm -> getsize w p = inr cl ->
   isfile w p = false ->
   _default self w env args = (stat_calls p, HTTPNotFound None)) /\
  (forall e, e <> OSError -> getmtime w p = inl e ->
   _default self w env args = ([op_getmtime p], Raised e)) /\
  (forall lm e, e <> OSError -> getmtime w p = inr lm -> getsize w p = inl e ->
   _default self w env args = ([op_getmtime p; op_getsize p], Raised e)).
Proof.
  intros [Hne [Hdd Hd]] p. rewrite default_unfold.
  destruct args as [|a args]; [contradiction Hne; reflexivity|].
  rewrite (segment_check_passes _ Hdd Hd). cbv zeta. fold p.
  split; [|split; [|split; [|split]]].
  - intros ->. reflexivity.
  - intros lm -> ->. reflexivity.
  - intros lm cl -> -> ->. reflexivity.
  - intros e He ->. destruct e; [contradiction He|..]; reflexivity.
  - intros lm e He -> ->. destruct e; [contradiction He|..]; reflexivity.
Qed.

Lemma missing_file_is_not_found_witness :
  passes_segment_check ["css"; "missing"] /\
  getmtime Sample.platform "/srv/app/public/css/missing.css" = inl OSError /\
  _default Sample.controller Sample.platform
    (Sample.request "GET" "/static/css/missing.css" None None) ["css"; "missing"] =
  ([op_getmtime "/srv/app/public/css/missing.css"], HTTPNotFound None).
Proof.
  assert (Hargs : passes_segment_check ["css"; "missing"]).
  { repeat split; [discriminate| |]; cbn [In]; intros [H|[H|[]]]; discriminate. }
  split; [exact Hargs|]. split; [reflexivity|].
  exact (proj1 (missing_file_is_not_found Sample.controller Sample.platform
                  (Sample.request "GET" "/static/css/missing.css" None None)
                  ["css"; "missing"] Hargs) eq_refl).
Defined.

(* ================================================================= *)
(** ** The cache validator, both ways *)

Lemma truthy_float_iff (x : PyFloat.float) :
  PyFloat.truthy x = false <-> exists s, x = S754_zero s.
Proof.
  split.
  - destruct x as [s| | |]; try discriminate. intros _. now exists s.
  - intros [s ->]. reflexivity.
Qed.

(** X5. On a GET or HEAD the validator ends the request exactly when
    [If-Modified-Since] is present, not empty, and rejected by the date
    parser: with the BadRequest about the timestamp when the parser
    raised a [TypeError] or an [OverflowError], with the exception of the
    parser otherwise; and this whatever [If-None-Match] holds. For any
    other method it never fails. *)
Theorem validator_raises_iff (w : Platform) (env : environ) (etag : string)
    (lm : PyFloat.float) (raised : Response) :
  has_been_modified w env etag lm = inl raised <->
  safe_method env = true /\
  exists value e,
    HTTP_IF_MODIFIED_SINCE env = Some value /\
    value <> EmptyString /\ mktime_parsedate_tz w value = inl e /\
    (((e = TypeError \/ e = OverflowError) /\
      raised = HTTPBadRequest ("Received an ill-formed timestamp." ++ CRLF)) \/
     (e <> TypeError /\ e <> OverflowError /\ raised = Raised e)).
Proof.
  destruct (safe_method env) eqn:Hsafe.
  - rewrite has_been_modified_safe by assumption.
    destruct (HTTP_IF_MODIFIED_SINCE env) as [v|].
    + destruct (truthy_str v) eqn:Hv.
      * apply truthy_str_iff in Hv.
        destruct (mktime_parsedate_tz w v) as [e|t] eqn:Hparse.
        -- split.
           ++ intros H. injection H as <-. split; [reflexivity|].
              exists v, e. split; [reflexivity|]. split; [assumption|].
              split; [assumption|].
              destruct (parse_failure_cases e) as [[He ->]|[He [He' ->]]]; auto.
           ++ intros [_ [v' [e' [Hv' [_ [He' Hr]]]]]].
              injection Hv' as <-. rewrite Hparse in He'. injection He' as <-.
              destruct (parse_failure_cases e) as [[He E]|[He [He' E]]]; rewrite E;
                destruct Hr as [[Hc ->]|[Hn [Hn' ->]]]; try reflexivity.
              ** destruct He; contradiction.
              ** destruct Hc; contradiction.
        -- split; [discriminate|].
           intros [_ [v' [e' [Hv' [_ [He' _]]]]]]. injection Hv' as <-. congruence.
      * split; [discriminate|].
        intros [_ [v' [e' [Hv' [Hne _]]]]]. injection Hv' as <-.
        apply truthy_str_iff in Hne. congruence.
    + split; [discriminate|]. intros [_ [v' [e' [Hv' _]]]]. discriminate.
  - rewrite has_been_modified_other_method by assumption.
    split; [discriminate|]. intros [H _]. discriminate.
Qed.

(** X6. On a GET or HEAD the validator answers "not modified" exactly
    when it does not fail and one of the two conditions holds: the parsed
    [If-Modified-Since] is not before a modification time other than
    zero, the two compared exactly, or [If-None-Match] equals the ETag.
    Either condition is enough. *)
Theorem validator_unmodified_iff (w : Platform) (env : environ) (etag : string)
    (lm : PyFloat.float) :
  safe_method env = true ->
  (has_been_modified w env etag lm = inr false <->
   (forall value, HTTP_IF_MODIFIED_SINCE env = Some value ->
                  value <> EmptyString ->
                  exists t, mktime_parsedate_tz w value = inr t) /\
   ((exists value t, HTTP_IF_MODIFIED_SINCE env = Some value /\
                     value <> EmptyString /\
                     mktime_parsedate_tz w value = inr t /\
                     PyFloat.truthy lm = true /\ PyFloat.le_int lm t = true) \/
    (HTTP_IF_NONE_MATCH env = Some etag /\ etag <> EmptyString))).
Proof.
  intros Hsafe. rewrite has_been_modified_safe by assumption.
  rewrite <- etag_matches_iff.
  destruct (HTTP_IF_MODIFIED_SINCE env) as [v|].
  - destruct (truthy_str v) eqn:Hv.
    + apply truthy_str_iff in Hv.
      destruct (mktime_parsedate_tz w v) as [e|t] eqn:Hparse.
      * split; [discriminate|].
        intros [H _]. destruct (H v eq_refl Hv) as [t Ht]. congruence.
      * split.
        -- intros H. injection H as H. apply negb_false_iff, orb_true_iff in H.
           split.
           ++ intros v' Hv' _. injection Hv' as <-. now exists t.
           ++ destruct H as [H|H]; [left|right; assumption].
              apply andb_true_iff in H. exists v, t. tauto.
        -- intros [_ [[v' [t' [Hv' [_ [Ht' [Htr Hle]]]]]]|H]].
           ++ injection Hv' as <-. rewrite Hparse in Ht'. injection Ht' as <-.
              rewrite Htr, Hle. reflexivity.
           ++ rewrite H, orb_true_r. reflexivity.
    + assert (Hempty : v = EmptyString).
      { destruct (String.eqb_spec v EmptyString) as [E|E]; [assumption|].
        apply truthy_str_iff in E. congruence. }
      split.
      * intros H. injection H as H. apply negb_false_iff in H. split.
        -- intros v' Hv' Hne. injection Hv' as <-. contradiction.
        -- right. assumption.
      * intros [_ [[v' [t' [Hv' [Hne _]]]]|H]].
        -- injection Hv' as <-. contradiction.
        -- rewrite H. reflexivity.
  - split.
    + intros H. injection H as H. apply negb_false_iff in H. split.
      * intros v' Hv'. discriminate.
      * right. assumption.
    + intros [_ [[v' [t' [Hv' _]]]|H]]; [discriminate|].
      rewrite H. reflexivity.
Qed.

Lemma validator_unmodified_iff_witness :
  safe_method (Sample.request "HEAD" "/static/css/style.css"
                 (Some "Tue, 14 Nov 2023 22:13:20 GMT") None) = true /\
  has_been_modified Sample.platform
    (Sample.request "HEAD" "/static/css/style.css"
       (Some "Tue, 14 Nov 2023 22:13:20 GMT") None)
    Sample.css_etag Sample.css_mtime = inr false /\
  has_been_modified Sample.platform
    (Sample.request "HEAD" "/static/notes.txt"
       (Some "Tue, 14 Nov 2023 22:13:20 GMT") None)
    (generate_etag Sample.notes_mtime 5) Sample.notes_mtime <> inr false.
Proof.
  split; [reflexivity|]. split.
  - apply (proj2 (validator_unmodified_iff Sample.platform
                    (Sample.request "HEAD" "/static/css/style.css"
                       (Some "Tue, 14 Nov 2023 22:13:20 GMT") None)
                    Sample.css_etag Sample.css_mtime eq_refl)).
    split.
    + intros value Hv _. injection Hv as <-. now exists 1700000000.
    + left. exists "Tue, 14 Nov 2023 22:13:20 GMT", 1700000000.
      split; [reflexivity|]. split; [discriminate|]. split; [reflexivity|].
      split; reflexivity.
  - intros H.
    apply (proj1 (validator_unmodified_iff Sample.platform
                    (Sample.request "HEAD" "/static/notes.txt"
                       (Some "Tue, 14 Nov 2023 22:13:20 GMT") None)
                    (generate_etag Sample.notes_mtime 5) Sample.notes_mtime eq_refl)) in H.
    destruct H as [_ [[v [t [Hv [_ [Ht [_ Hle]]]]]]|[H _]]]; [|discriminate].
    cbn in Hv. injection Hv as <-. cbn in Ht. injection Ht as <-. discriminate.
Defined.

(* ================================================================= *)
(** ** Which request gets which answer *)

(** The ways a request goes: no segment, a refused segment, a path that
    cannot be examined or is not a regular file, a regular file. *)
Lemma dispatch_cases (self : StaticController) (w : Platform) (env : environ)
    (args : list string) :
  let p := resolve_filepath self env args in
  (args = [] /\
   _default self w env args = ([], redirect (PATH_INFO env ++ "index.html"))) \/
  ((In ".." args \/ In "." args) /\
   _default self w env args =
     ([], HTTPNotFound (Some ("Out of bounds: " ++ PATH_INFO env)))) \/
  (passes_segment_check args /\
   exists n, _default self w env args = (firstn n (stat_calls p), HTTPNotFound None)) \/
  (passes_segment_check args /\
   exists n e, _default self w env args = (firstn n (stat_calls p), Raised e)) \/
  (passes_segment_check args /\ exists lm cl, regular_file w p lm cl).
Proof.
  intros p. rewrite default_unfold.
  destruct args as [|a args]; [left; auto|]. right.
  destruct (truthy_set (INVALID_PATH_PARTS (a :: args))) eqn:Hcheck.
  - left. rewrite INVALID_PATH_PARTS_truthy, orb_true_iff, !mem_In in Hcheck. auto.
  - right.
    assert (Hargs : passes_segment_check (a :: args)).
    { rewrite INVALID_PATH_PARTS_truthy, orb_false_iff in Hcheck.
      destruct Hcheck as [Hdd Hd]. repeat split; [discriminate| |];
        rewrite <- mem_In; congruence. }
    cbv zeta. fold p.
    destruct (getmtime w p) as [e|lm] eqn:Hm.
    { destruct (stat_failure_cases e) as [[_ ->]|[_ ->]];
        [left|right; left]; (split; [assumption|]);
        [now exists 1%nat|now exists 1%nat, e]. }
    destruct (getsize w p) as [e|cl] eqn:Hs.
    { destruct (stat_failure_cases e) as [[_ ->]|[_ ->]];
        [left|right; left]; (split; [assumption|]);
        [now exists 2%nat|now exists 2%nat, e]. }
    destruct (isfile w p) eqn:Hf; [|left; split; [assumption|now exists 3%nat]].
    right. right. split; [assumption|]. exists lm, cl. repeat split; assumption.
Qed.

(** Takes a goal about the answer of [_default] to the one case where the
    request names a regular file; the other cases must close by
    [discriminate] once the answer is written out. *)
Ltac to_regular_file self w env args H :=
  let Hargs := fresh "Hargs" in
  let Hfile := fresh "Hfile" in
  let E := fresh "E" in
  let lm := fresh "lm" in
  let cl := fresh "cl" in
  let n := fresh "n" in
  let e := fresh "e" in
  destruct (dispatch_cases self w env args)
    as [[_ E]|[[_ E]|[[_ [n E]]|[[_ [n [e E]]]|[Hargs [lm [cl Hfile]]]]]]];
  [rewrite E in H; discriminate H
  |rewrite E in H; discriminate H
  |rewrite E in H; discriminate H
  |rewrite E in H; discriminate H
  |rewrite (default_regular_file self w env args lm cl Hargs Hfile) in H;
   cbv zeta in H].

Lemma In_firstn {A} (x : A) (n : nat) (l : list A) : In x (firstn n l) -> In x l.
Proof.
  revert n. induction l as [|a l IH]; intros [|n] H; cbn in H; try contradiction.
  destruct H as [H|H]; [left; assumption|right; exact (IH n H)].
Qed.

(** X7. A file is served exactly when the request passes the segment
    check, names a regular file, is a GET or HEAD that the validator finds
    modified, the file opens, and the two dates of the response are
    formatted. The headers are then the eight computed from the file's
    modification time and size, and the body iterates over the open
    file. *)
Theorem success_iff (self : StaticController) (w : Platform) (env : environ)
    (args : list string) (headers : list header) (body : app_iter) :
  let p := resolve_filepath self env args in
  snd (_default self w env args) = Success headers body <->
  passes_segment_check args /\ safe_method env = true /\
  exists lm cl fp,
    regular_file w p lm cl /\
    has_been_modified w env (generate_etag lm cl) lm = inr true /\
    open_rb w p = Opened fp /\
    dates_formatted self w lm /\
    headers = success_headers self w p lm cl /\
    body = file_body w env fp.
Proof.
  intros p. split.
  - intros H. to_regular_file self w env args H. fold p in H.
    destruct (has_been_modified w env (generate_etag lm cl) lm) as [r|[|]] eqn:Hbm.
    + apply has_been_modified_raises in Hbm.
      destruct Hbm as [->|[e ->]]; discriminate H.
    + destruct (open_rb w p) as [fp|e] eqn:Hopen; [|discriminate H].
      cbn [snd] in H.
      destruct (expires_date self w) as [e|ex] eqn:Hex; [discriminate H|].
      destruct (call_make_date w lm) as [e|md] eqn:Hmd; [discriminate H|].
      injection H as <- <-.
      split; [assumption|]. split.
      * destruct (safe_method env) eqn:Hsafe; [reflexivity|].
        rewrite has_been_modified_other_method in Hbm by assumption. discriminate.
      * exists lm, cl, fp. split; [exact Hfile|]. split; [exact Hbm|].
        split; [reflexivity|]. split; [split; eauto|]. split; reflexivity.
    + discriminate H.
  - intros [Hargs [_ [lm [cl [fp [Hfile [Hbm [Hopen [Hdates [-> ->]]]]]]]]]].
    rewrite (default_served self w env args lm cl Hargs Hfile fp Hbm Hopen Hdates).
    reflexivity.
Qed.

(** X8. The answer is Forbidden exactly when a regular file that the
    validator finds modified cannot be opened; the message quotes the
    error of [open]. *)
Theorem forbidden_iff_open_error (self : StaticController) (w : Platform)
    (env : environ) (args : list string) (detail : string) :
  let p := resolve_filepath self env args in
  snd (_default self w env args) = HTTPForbidden detail <->
  passes_segment_check args /\
  exists lm cl e,
    regular_file w p lm cl /\
    has_been_modified w env (generate_etag lm cl) lm = inr true /\
    open_rb w p = OpenError e /\
    detail = "You are not permitted to view this file (" ++ e ++ ")".
Proof.
  intros p. split.
  - intros H. to_regular_file self w env args H. fold p in H.
    destruct (has_been_modified w env (generate_etag lm cl) lm) as [r|[|]] eqn:Hbm.
    + apply has_been_modified_raises in Hbm.
      destruct Hbm as [->|[e ->]]; discriminate H.
    + destruct (open_rb w p) as [fp|e] eqn:Hopen.
      * cbn [snd] in H. destruct (expires_date self w); [discriminate H|].
        destruct (call_make_date w lm); discriminate H.
      * cbn [snd] in H. injection H as <-.
        split; [assumption|]. exists lm, cl, e. auto.
    + discriminate H.
  - intros [Hargs [lm [cl [e [Hfile [Hbm [Hopen ->]]]]]]].
    rewrite (default_regular_file self w env args lm cl Hargs Hfile). cbv zeta.
    fold p. rewrite Hbm, Hopen. reflexivity.
Qed.

(** X9. The answer is BadRequest only for a GET or HEAD on an existing
    regular file whose [If-Modified-Since] is not empty and is rejected by
    the date parser with a [TypeError] or an [OverflowError], and always
    then: the same header on a missing file, or on a refused path, is
    answered NotFound, since the date is read after the file is
    examined. *)
Theorem bad_request_iff (self : StaticController) (w : Platform)
    (env : environ) (args : list string) (detail : string) :
  let p := resolve_filepath self env args in
  snd (_default self w env args) = HTTPBadRequest detail <->
  passes_segment_check args /\ safe_method env = true /\
  (exists lm cl, regular_file w p lm cl) /\
  (exists value, HTTP_IF_MODIFIED_SINCE env = Some value /\
                 value <> EmptyString /\ ill_formed w value) /\
  detail = "Received an ill-formed timestamp." ++ CRLF.
Proof.
  intros p. split.
  - intros H. to_regular_file self w env args H. fold p in H.
    destruct (has_been_modified w env (generate_etag lm cl) lm) as [r|[|]] eqn:Hbm.
    + cbn [snd] in H. subst r.
      destruct (safe_method env) eqn:Hsafe.
      * rewrite has_been_modified_safe in Hbm by assumption.
        destruct (HTTP_IF_MODIFIED_SINCE env) as [v|]; [|discriminate].
        destruct (truthy_str v) eqn:Hv; [|discriminate].
        destruct (mktime_parsedate_tz w v) as [e|t] eqn:Hparse; [|discriminate].
        injection Hbm as Hbm. apply truthy_str_iff in Hv.
        assert (He : (e = TypeError \/ e = OverflowError) /\
                     detail = "Received an ill-formed timestamp." ++ CRLF).
        { destruct e; try discriminate Hbm; injection Hbm as <-; auto. }
        destruct He as [He ->].
        split; [assumption|]. split; [reflexivity|].
        split; [exists lm, cl; assumption|]. split; [|reflexivity].
        exists v. split; [reflexivity|]. split; [assumption|].
        unfold ill_formed. rewrite Hparse. destruct He as [->| ->]; auto.
      * rewrite has_been_modified_other_method in Hbm by assumption. discriminate.
    + destruct (open_rb w p); [|discriminate H].
      cbn [snd] in H. destruct (expires_date self w); [discriminate H|].
      destruct (call_make_date w lm); discriminate H.
    + discriminate H.
  - intros [Hargs [Hsafe [[lm [cl Hfile]] [[v [Hv [Hne Hparse]]] ->]]]].
    exact (f_equal snd
             (unparsable_bad_request self w env args lm cl Hargs Hfile v
                Hsafe Hv Hne Hparse)).
Qed.

(** X10. The answer is NotModified exactly when the request passes the
    segment check and names a regular file for which the validator
    answers "not modified"; the headers are the two minimal ones and the
    file is not opened. *)
Theorem not_modified_iff (self : StaticController) (w : Platform)
    (env : environ) (args : list string) (headers : list header) :
  let p := resolve_filepath self env args in
  snd (_default self w env args) = HTTPNotModified headers <->
  passes_segment_check args /\
  exists lm cl,
    regular_file w p lm cl /\
    has_been_modified w env (generate_etag lm cl) lm = inr false /\
    headers = minimal_headers self (generate_etag lm cl) /\
    fst (_default self w env args) = stat_calls p.
Proof.
  intros p. split.
  - intros H.
    destruct (dispatch_cases self w env args)
      as [[_ E]|[[_ E]|[[_ [n E]]|[[_ [n [e E]]]|[Hargs [lm [cl Hfile]]]]]]];
      try (rewrite E in H; discriminate H).
    rewrite (default_regular_file self w env args lm cl Hargs Hfile) in *.
    cbv zeta in *. fold p in H |- *.
    destruct (has_been_modified w env (generate_etag lm cl) lm) as [r|[|]] eqn:Hbm.
    + apply has_been_modified_raises in Hbm.
      destruct Hbm as [->|[e ->]]; discriminate H.
    + destruct (open_rb w p); [|discriminate H].
      cbn [snd] in H. destruct (expires_date self w); [discriminate H|].
      destruct (call_make_date w lm); discriminate H.
    + cbn [snd] in H. injection H as <-.
      split; [assumption|]. exists lm, cl. auto.
  - intros [Hargs [lm [cl [Hfile [Hbm [-> _]]]]]].
    rewrite (default_regular_file self w env args lm cl Hargs Hfile). cbv zeta.
    rewrite Hbm. reflexivity.
Qed.

(** X20. An exception leaves [_default] in four places only, all past
    the segment check: [getmtime] or [getsize] raises one that is not an
    [OSError]; on a GET or HEAD for a regular file the date parser rejects
    a non-empty [If-Modified-Since] with one that is neither a [TypeError]
    nor an [OverflowError]; or the file was opened and one of the two
    dates of the response cannot be formatted, the expiry date being
    formatted first. The exception is then the one of that call. *)
Theorem exception_escapes_iff (self : StaticController) (w : Platform)
    (env : environ) (args : list string) (e : exception) :
  let p := resolve_filepath self env args in
  snd (_default self w env args) = Raised e <->
  passes_segment_check args /\
  ((getmtime w p = inl e /\ e <> OSError) \/
   (exists lm, getmtime w p = inr lm /\ getsize w p = inl e /\ e <> OSError) \/
   (exists lm cl,
      regular_file w p lm cl /\
      ((safe_method env = true /\
        exists value, HTTP_IF_MODIFIED_SINCE env = Some value /\
                      value <> EmptyString /\
                      mktime_parsedate_tz w value = inl e /\
                      e <> TypeError /\ e <> OverflowError) \/
       (has_been_modified w env (generate_etag lm cl) lm = inr true /\
        (exists fp, open_rb w p = Opened fp) /\
        (expires_date self w = inl e \/
         ((exists expires, expires_date self w = inr expires) /\
          call_make_date w lm = inl e)))))).
Proof.
  intros p. rewrite default_unfold. split.
  - destruct args as [|a args]; [discriminate|].
    destruct (truthy_set (INVALID_PATH_PARTS (a :: args))) eqn:Hcheck; [discriminate|].
    assert (Hargs : passes_segment_check (a :: args)).
    { rewrite INVALID_PATH_PARTS_truthy, orb_false_iff in Hcheck.
      destruct Hcheck as [Hdd Hd]. repeat split; [discriminate| |];
        rewrite <- mem_In; congruence. }
    cbv zeta. fold p. intros H. split; [exact Hargs|].
    destruct (getmtime w p) as [e1|lm] eqn:Hm.
    { left. cbn [snd] in H.
      destruct (stat_failure_cases e1) as [[_ E]|[Hne E]]; rewrite E in H;
        [discriminate H|]. injection H as ->. auto. }
    destruct (getsize w p) as [e1|cl] eqn:Hs.
    { right. left. exists lm. cbn [snd] in H.
      destruct (stat_failure_cases e1) as [[_ E]|[Hne E]]; rewrite E in H;
        [discriminate H|]. injection H as ->. auto. }
    destruct (isfile w p) eqn:Hf; [|discriminate H].
    right. right. exists lm, cl. split; [repeat split; assumption|].
    destruct (has_been_modified w env (generate_etag lm cl) lm) as [r|[|]] eqn:Hbm.
    + left. cbn [snd] in H. subst r.
      destruct (safe_method env) eqn:Hsafe.
      * rewrite has_been_modified_safe in Hbm by assumption.
        destruct (HTTP_IF_MODIFIED_SINCE env) as [v|]; [|discriminate].
        destruct (truthy_str v) eqn:Hv; [|discriminate].
        destruct (mktime_parsedate_tz w v) as [e1|t] eqn:Hparse; [|discriminate].
        injection Hbm as Hbm. apply truthy_str_iff in Hv.
        split; [reflexivity|]. exists v.
        split; [reflexivity|]. split; [assumption|].
        destruct (parse_failure_cases e1) as [[_ E]|[Hn [Hn' E]]]; rewrite E in Hbm;
          [discriminate Hbm|]. injection Hbm as ->. auto.
      * rewrite has_been_modified_other_method in Hbm by assumption. discriminate.
    + right. split; [reflexivity|].
      destruct (open_rb w p) as [fp|msg]; [|discriminate H].
      split; [now exists fp|]. cbn [snd] in H.
      destruct (expires_date self w) as [e1|ex]; [injection H as ->; auto|].
      destruct (call_make_date w lm) as [e1|md]; [|discriminate H].
      injection H as ->. right. split; [now exists ex|reflexivity].
    + discriminate H.
  - intros [[Hne [Hdd Hd]] H].
    destruct args as [|a args]; [contradiction Hne; reflexivity|].
    rewrite (segment_check_passes _ Hdd Hd). cbv zeta. fold p.
    destruct H as [[Hm He]|[[lm [Hm [Hs He]]]|[lm [cl [[Hm [Hs Hf]] H]]]]].
    + rewrite Hm. cbn [snd].
      destruct (stat_failure_cases e) as [[E _]|[_ E]]; [contradiction|exact E].
    + rewrite Hm, Hs. cbn [snd].
      destruct (stat_failure_cases e) as [[E _]|[_ E]]; [contradiction|exact E].
    + rewrite Hm, Hs, Hf.
      destruct H as [[Hsafe [v [Hv [Hvne [Hparse [Hn Hn']]]]]]|[Hbm [[fp Hopen] Hd']]].
      * rewrite has_been_modified_safe by assumption.
        apply truthy_str_iff in Hvne. rewrite Hv, Hvne, Hparse. cbn [snd].
        destruct (parse_failure_cases e) as [[[E|E] _]|[_ [_ E]]];
          [contradiction|contradiction|exact E].
      * rewrite Hbm, Hopen. cbn [snd].
        destruct Hd' as [Hex|[[ex Hex] Hmd]]; rewrite Hex; [reflexivity|].
        rewrite Hmd. reflexivity.
Qed.

(** X11. The file is opened only on a GET or HEAD, only on the resolved
    path, and only after that path was found to be a regular file. *)
Theorem open_only_for_safe_methods (self : StaticController) (w : Platform)
    (env : environ) (args : list string) (path : string) :
  In (op_open path) (fst (_default self w env args)) ->
  path = resolve_filepath self env args /\
  safe_method env = true /\
  isfile w path = true.
Proof.
  intros H.
  destruct (dispatch_cases self w env args)
    as [[_ E]|[[_ E]|[[_ [n E]]|[[_ [n [e E]]]|[Hargs [lm [cl Hfile]]]]]]].
  - rewrite E in H. destruct H.
  - rewrite E in H. destruct H.
  - rewrite E in H. cbn [fst] in H. apply In_firstn in H.
    destruct H as [H|[H|[H|[]]]]; discriminate.
  - rewrite E in H. cbn [fst] in H. apply In_firstn in H.
    destruct H as [H|[H|[H|[]]]]; discriminate.
  - rewrite (default_regular_file self w env args lm cl Hargs Hfile) in H.
    cbv zeta in H.
    destruct (has_been_modified w env (generate_etag lm cl) lm) as [r|[|]] eqn:Hbm.
    + destruct H as [H|[H|[H|[]]]]; discriminate.
    + assert (Hp : path = resolve_filepath self env args).
      { destruct (open_rb w _); cbn [fst] in H; apply in_app_or in H;
          destruct H as [[H|[H|[H|[]]]]|[H|[]]]; try discriminate;
          now injection H. }
      split; [assumption|]. split.
      * destruct (safe_method env) eqn:Hsafe; [reflexivity|].
        rewrite has_been_modified_other_method in Hbm by assumption. discriminate.
      * subst path. apply Hfile.
    + destruct H as [H|[H|[H|[]]]]; discriminate.
Qed.

Lemma open_only_for_safe_methods_witness :
  In (op_open Sample.css)
     (fst (_default Sample.controller Sample.platform
             (Sample.request "GET" "/static/css/style.css" None None)
             ["css"; "style"])) /\
  safe_method (Sample.request "GET" "/static/css/style.css" None None) = true /\
  isfile Sample.platform Sample.css = true.
Proof.
  assert (H : In (op_open Sample.css)
                 (fst (_default Sample.controller Sample.platform
                         (Sample.request "GET" "/static/css/style.css" None None)
                         ["css"; "style"]))).
  { vm_compute. tauto. }
  split; [exact H|].
  exact (proj2 (open_only_for_safe_methods Sample.controller Sample.platform
                  (Sample.request "GET" "/static/css/style.css" None None)
                  ["css"; "style"] Sample.css H)).
Defined.

(* ================================================================= *)
(** ** Normalizing twice *)

Lemma norm_step_cases (i : nat) (nc : list string) (comp : string) :
  posixpath.norm_step i nc comp = nc \/
  posixpath.norm_step i nc comp = (nc ++ [comp])%list \/
  (posixpath.norm_step i nc comp = removelast nc /\ nc <> []).
Proof.
  unfold posixpath.norm_step.
  destruct (mem comp [EmptyString; "."]); [auto|].
  match goal with |- context [if ?c then _ else _] => destruct c end; [auto|].
  destruct nc as [|x nc]; [auto|].
  right. right. split; [reflexivity|discriminate].
Qed.

Lemma norm_loop_length (i : nat) (comps acc : list string) :
  (List.length (fold_left (posixpath.norm_step i) comps acc)
   <= List.length acc + List.length comps)%nat.
Proof.
  revert acc. induction comps as [|c comps IH]; intros acc; cbn [fold_left List.length].
  - lia.
  - specialize (IH (posixpath.norm_step i acc c)).
    destruct (norm_step_cases i acc c) as [E|[E|[E Hne]]]; rewrite E in *.
    + lia.
    + rewrite length_app in IH. cbn in IH. lia.
    + assert (List.length (removelast acc) <= List.length acc)%nat.
      { rewrite removelast_firstn_len, length_firstn. lia. }
      lia.
Qed.

(** A list the loop leaves as it is stays so when its last component is
    taken off. *)
Lemma norm_loop_fixed_prefix (i : nat) (l : list string) (x : string) :
  fold_left (posixpath.norm_step i) (l ++ [x]) [] = (l ++ [x])%list ->
  fold_left (posixpath.norm_step i) l [] = l.
Proof.
  rewrite fold_left_app. cbn [fold_left]. intros H.
  pose proof (norm_loop_length i l []) as Hlen. cbn [List.length] in Hlen.
  set (m := fold_left (posixpath.norm_step i) l []) in *.
  destruct (norm_step_cases i m x) as [E|[E|[E Hne]]]; rewrite E in H.
  - rewrite H, length_app in Hlen. cbn in Hlen. lia.
  - apply app_inj_tail in H. tauto.
  - assert (Hm : List.length (removelast m) = (List.length l + 1)%nat).
    { rewrite H, length_app. reflexivity. }
    rewrite removelast_firstn_len, length_firstn in Hm. lia.
Qed.

(** What the loop is left with, the loop leaves as it is. *)
Lemma norm_loop_idempotent (i : nat) (comps : list string) :
  fold_left (posixpath.norm_step i)
    (fold_left (posixpath.norm_step i) comps []) [] =
  fold_left (posixpath.norm_step i) comps [].
Proof.
  induction comps as [|c comps IH] using rev_ind; [reflexivity|].
  rewrite fold_left_app. cbn [fold_left].
  set (nc := fold_left (posixpath.norm_step i) comps []) in *.
  destruct (norm_step_cases i nc c) as [E|[E|[E Hne]]].
  - rewrite E. assumption.
  - rewrite E, fold_left_app, IH. cbn [fold_left]. assumption.
  - rewrite E. apply (norm_loop_fixed_prefix i _ (last nc EmptyString)).
    rewrite <- app_removelast_last by assumption. assumption.
Qed.

Lemma split_join (nc : list string) :
  Forall clean_component nc -> nc <> [] ->
  split posixpath.sep (Py.join "/" nc) = nc.
Proof.
  induction 1 as [|x nc [_ Hx] Hnc IH]; [contradiction|]. intros _.
  destruct nc as [|y nc].
  - apply split_without_separator. assumption.
  - change (Py.join "/" (x :: y :: nc))
      with (x ++ String posixpath.sep (Py.join "/" (y :: nc))).
    rewrite split_append, (split_without_separator _ _ Hx), IH by discriminate.
    reflexivity.
Qed.

(** Slashes at the head of a path give the loop empty components, which
    it skips. *)
Lemma leading_slashes_skipped (i k : nat) (body : string) :
  fold_left (posixpath.norm_step i)
    (split posixpath.sep (repeat_char posixpath.sep k ++ body)) [] =
  fold_left (posixpath.norm_step i) (split posixpath.sep body) [].
Proof.
  induction k as [|k IH]; [reflexivity|].
  cbn [repeat_char append split]. rewrite Ascii.eqb_refl.
  cbn [fold_left]. rewrite norm_step_empty. exact IH.
Qed.

(** The components of a path that [normpath] wrote are those it was
    written from. *)
Lemma normalized_components_of_normal (i : nat) (path : string) :
  let nc := normalized_components i path in
  normalized_components i (repeat_char posixpath.sep i ++ Py.join "/" nc) = nc.
Proof.
  intros nc.
  assert (Hbody : fold_left (posixpath.norm_step i)
                    (split posixpath.sep (Py.join "/" nc)) [] = nc).
  { destruct nc as [|x rest] eqn:E; [reflexivity|].
    rewrite split_join; [|rewrite <- E; apply normalized_components_clean|discriminate].
    rewrite <- E. apply norm_loop_idempotent. }
  unfold normalized_components at 1.
  rewrite leading_slashes_skipped. exact Hbody.
Qed.

(** [normpath] leaves a path it wrote as it is. *)
Lemma normpath_idempotent (path : string) :
  posixpath.normpath (posixpath.normpath path) = posixpath.normpath path.
Proof.
  set (i := posixpath.initial_slashes path).
  set (nc := normalized_components i path).
  assert (Hclean : Forall clean_component nc) by apply normalized_components_clean.
  assert (E : posixpath.normpath path = "." \/
              (posixpath.normpath path = repeat_char posixpath.sep i ++ Py.join "/" nc /\
               repeat_char posixpath.sep i ++ Py.join "/" nc <> EmptyString)).
  { unfold posixpath.normpath.
    destruct (String.eqb path EmptyString); [auto|]. cbv zeta.
    fold i. fold (normalized_components i path). fold nc.
    destruct (String.eqb_spec (repeat_char posixpath.sep i ++ Py.join "/" nc)
                EmptyString); auto. }
  destruct E as [-> | [-> Hne]]; [reflexivity|].
  set (path' := repeat_char posixpath.sep i ++ Py.join "/" nc) in *.
  assert (Hi : posixpath.initial_slashes path' = i).
  { assert (Hcases : i = 0%nat \/ i = 1%nat \/ i = 2%nat).
    { unfold i, posixpath.initial_slashes.
      destruct (startswith path "/"); [|auto]. destruct (andb _ _); auto. }
    destruct Hcases as [E|Hi].
    - unfold path'. rewrite E. cbn [repeat_char append].
      unfold posixpath.initial_slashes.
      now rewrite (join_clean_not_absolute nc Hclean).
    - apply initial_slashes_rooted; [assumption|].
      exists (Py.join "/" nc). split; [reflexivity|].
      apply join_clean_not_absolute. assumption. }
  assert (Hnc : normalized_components i path' = nc)
    by apply normalized_components_of_normal.
  unfold posixpath.normpath.
  destruct (String.eqb_spec path' EmptyString) as [E|_]; [contradiction|].
  cbv zeta. rewrite Hi. fold (normalized_components i path'). rewrite Hnc.
  change (repeat_char posixpath.sep i ++ Py.join "/" nc) with path'.
  destruct (String.eqb_spec path' EmptyString) as [E|_]; [contradiction|reflexivity].
Qed.

(** X12. Normalizing a path a second time changes nothing: what
    [_adapt_path] returns is a path [_adapt_path] leaves as it is, so a
    root and a resolved path are compared in one and the same form. *)
Theorem adapt_path_idempotent (path : string) :
  _adapt_path (_adapt_path path) = _adapt_path path.
Proof.
  unfold _adapt_path, posixpath.normcase.
  rewrite normpath_idempotent. reflexivity.
Qed.

(* ================================================================= *)
(** ** The static root *)

Lemma startswith_append_l (s p x : string) :
  startswith s p = true -> startswith (s ++ x) p = true.
Proof.
  unfold startswith. revert s. induction p as [|a p IH]; intros s H.
  - destruct (s ++ x); reflexivity.
  - destruct s as [|b s]; [discriminate|]. cbn [append prefix] in *.
    destruct (ascii_dec a b); [auto|discriminate].
Qed.

Lemma normpath_absolute (path : string) :
  startswith path "/" = true -> startswith (posixpath.normpath path) "/" = true.
Proof.
  intros H. pose proof (initial_slashes_cases path H) as Hi.
  rewrite (normpath_rooted _ path Hi eq_refl).
  destruct Hi as [-> | ->]; cbn [repeat_char append];
    rewrite startswith_slash_cons; reflexivity.
Qed.

Lemma join1_absolute (path b : string) :
  startswith path "/" = true -> startswith b "/" = false ->
  startswith (posixpath.join1 path b) "/" = true.
Proof.
  intros Hp Hb. unfold posixpath.join1. rewrite Hb.
  assert (Hne : path <> EmptyString) by (intros ->; discriminate).
  destruct (orb _ _); rewrite startswith_append_nonempty; assumption.
Qed.

(** X13. A controller built from an absolute package directory and a
    relative static path has a root that is absolute and already
    normalized, and keeps the max-age it was given. When the static path is
    one plain name the root lies under the normalized package directory. *)
Theorem init_root_normalized_absolute (package_dir sp : string) (age : Z) :
  startswith package_dir "/" = true ->
  startswith sp "/" = false ->
  let self := __init__ package_dir sp age in
  _adapt_path (static_path self) = static_path self /\
  startswith (static_path self) "/" = true /\
  cache_max_age self = age /\
  (separator_free sp = true -> sp <> "." -> sp <> ".." ->
   startswith (static_path self) (_adapt_path package_dir) = true).
Proof.
  intros Hpkg Hsp self. unfold self, __init__. cbn [static_path cache_max_age].
  split; [apply normpath_idempotent|]. split; [|split; [reflexivity|]].
  - unfold _adapt_path, posixpath.normcase, posixpath.join. cbn [fold_left].
    apply normpath_absolute, join1_absolute; [|assumption].
    apply normpath_absolute. assumption.
  - intros Hfree Hd Hdd. apply resolved_under_root.
    + apply normpath_idempotent.
    + apply normpath_absolute. assumption.
    + constructor; [assumption|constructor].
    + intros [E|[]]. congruence.
    + intros [E|[]]. congruence.
Qed.

Lemma init_root_normalized_absolute_witness :
  startswith "/srv/./app//" "/" = true /\
  startswith "public" "/" = false /\
  static_path (__init__ "/srv/./app//" "public" 3600) = "/srv/app/public" /\
  _adapt_path "/srv/app/public" = "/srv/app/public".
Proof.
  split; [reflexivity|]. split; [reflexivity|]. split; [reflexivity|].
  exact (proj1 (init_root_normalized_absolute "/srv/./app//" "public" 3600
                  eq_refl eq_refl)).
Defined.

(* ================================================================= *)
(** ** The resolved path *)

Lemma plain_segments_append (i : nat) (segs nc : list string) :
  Forall (fun s => s <> EmptyString /\ s <> "." /\ s <> "..") segs ->
  fold_left (posixpath.norm_step i) segs nc = (nc ++ segs)%list.
Proof.
  revert nc. induction segs as [|s segs IH]; intros nc H.
  - now rewrite app_nil_r.
  - inversion H as [|? ? [H0 [H1 H2]] Hrest]; subst. cbn [fold_left].
    rewrite norm_step_plain by assumption. rewrite IH by assumption.
    now rewrite <- app_assoc.
Qed.

Lemma join_app (sp : string) (xs ys : list string) :
  xs <> [] -> ys <> [] ->
  Py.join sp (xs ++ ys) = Py.join sp xs ++ sp ++ Py.join sp ys.
Proof.
  intros Hxs Hys. induction xs as [|x xs IH]; [contradiction|].
  destruct xs as [|x' xs].
  - destruct ys; [contradiction|]. reflexivity.
  - change ((x :: x' :: xs) ++ ys)%list with (x :: (x' :: xs) ++ ys)%list.
    change (Py.join sp (x :: (x' :: xs) ++ ys))
      with (x ++ sp ++ Py.join sp ((x' :: xs) ++ ys)).
    rewrite IH by discriminate.
    change (Py.join sp (x :: x' :: xs)) with (x ++ sp ++ Py.join sp (x' :: xs)).
    now rewrite !append_assoc.
Qed.

(** X14. For a root that is absolute, normalized and not a bare slash,
    and segments that are plain names (not empty, without separator,
    neither [.] nor [..]), the path looked up is the root, a slash, and
    the segments joined by slashes: normalization changes nothing in
    it. *)
Theorem plain_segments_resolve_below_root (root : string) (segs : list string) :
  _adapt_path root = root ->
  startswith root "/" = true ->
  endswith root posixpath.sep = false ->
  segs <> [] ->
  Forall (fun s => separator_free s = true) segs ->
  Forall (fun s => s <> EmptyString /\ s <> "." /\ s <> "..") segs ->
  _adapt_path (posixpath.join root segs) = root ++ "/" ++ Py.join "/" segs.
Proof.
  unfold _adapt_path, posixpath.normcase. intros Hnorm Habs Hend Hne Hfree Hplain.
  set (i := posixpath.initial_slashes root).
  assert (Hi : i = 1%nat \/ i = 2%nat) by (apply initial_slashes_cases; assumption).
  pose proof (normpath_rooted i root Hi eq_refl) as Hroot.
  rewrite Hnorm in Hroot.
  assert (Hrooted : rooted i root).
  { exists (Py.join "/" (normalized_components i root)). split; [assumption|].
    apply join_clean_not_absolute, normalized_components_clean. }
  assert (Hnc : normalized_components i root <> []).
  { intros E. rewrite E in Hroot. cbn [Py.join] in Hroot.
    rewrite append_nil_r in Hroot. rewrite Hroot in Hend.
    destruct Hi as [-> | ->]; discriminate. }
  pose proof (rooted_join i segs root Hi Hrooted Hfree) as Hjoined.
  rewrite (normpath_rooted i _ Hi (initial_slashes_rooted i _ Hi Hjoined)).
  rewrite normalized_components_join by assumption.
  rewrite plain_segments_append by assumption.
  rewrite join_app by assumption.
  rewrite <- append_assoc, <- Hroot. reflexivity.
Qed.

Lemma plain_segments_resolve_below_root_witness :
  _adapt_path "/srv/app/public" = "/srv/app/public" /\
  _adapt_path (posixpath.join "/srv/app/public" ["css"; "style"]) =
  "/srv/app/public/css/style".
Proof.
  split; [reflexivity|].
  apply (plain_segments_resolve_below_root "/srv/app/public" ["css"; "style"]).
  - reflexivity.
  - reflexivity.
  - reflexivity.
  - discriminate.
  - repeat constructor.
  - repeat constructor; discriminate.
Defined.

Lemma nth_last_app (l : list string) (x d : string) :
  nth (List.length (l ++ [x]) - 1) (l ++ [x]) d = x.
Proof.
  rewrite length_app. cbn [List.length].
  replace (List.length l + 1 - 1)%nat with (List.length l) by lia.
  rewrite app_nth2, Nat.sub_diag by lia. reflexivity.
Qed.

(** X15. The extension is what stands after the last dot of
    [PATH_INFO]: with no dot in [PATH_INFO] the resolved path is the
    normalized join as it is, and otherwise a dot and the text after the
    last dot are appended to it, whatever that text holds. *)
Theorem extension_recovered (self : StaticController) (env : environ)
    (args : list string) :
  let filepath := _adapt_path (posixpath.join (static_path self) args) in
  (contains (PATH_INFO env) "." = false ->
   resolve_filepath self env args = filepath) /\
  (forall base ext,
     PATH_INFO env = base ++ String "." ext -> contains ext "." = false ->
     resolve_filepath self env args = filepath ++ "." ++ ext).
Proof.
  intros filepath. unfold resolve_filepath. fold filepath. split.
  - intros H. rewrite (split_without_separator _ _ H). reflexivity.
  - intros base ext -> Hext.
    rewrite split_append, (split_without_separator _ _ Hext).
    rewrite nth_last_app, length_app. cbn [List.length].
    destruct (split "." base) as [|c cs] eqn:E; [now apply split_not_nil in E|].
    cbn [List.length]. replace (1 <? S (List.length cs) + 1)%nat with true; [reflexivity|].
    symmetry. apply Nat.ltb_lt. lia.
Qed.

Lemma resolve_filepath_under_root (self : StaticController) (env : environ)
    (args : list string) :
  _adapt_path (static_path self) = static_path self ->
  startswith (static_path self) "/" = true ->
  Forall (fun s => separator_free s = true) args ->
  ~ In ".." args -> ~ In "." args ->
  startswith (resolve_filepath self env args) (static_path self) = true.
Proof.
  intros Hnorm Habs Hfree Hdd Hd.
  pose proof (resolved_under_root _ args Hnorm Habs Hfree Hdd Hd) as H.
  unfold resolve_filepath. destruct (_ <? _)%nat; [|assumption].
  apply startswith_append_l. assumption.
Qed.

(** X16. With an absolute, normalized root and segments that hold no
    separator, every filesystem call of every request is made on a path
    that starts with the root: nothing outside is examined or opened. *)
Theorem filesystem_confined_to_root (self : StaticController) (w : Platform)
    (env : environ) (args : list string) :
  _adapt_path (static_path self) = static_path self ->
  startswith (static_path self) "/" = true ->
  Forall (fun s => separator_free s = true) args ->
  Forall (fun op => startswith (op_path op) (static_path self) = true)
         (fst (_default self w env args)).
Proof.
  intros Hnorm Habs Hfree. apply Forall_forall. intros op Hop.
  assert (Hall : forall p, In op (all_calls p) -> op_path op = p).
  { intros p [<-|[<-|[<-|[<-|[]]]]]; reflexivity. }
  destruct (dispatch_cases self w env args)
    as [[_ E]|[[_ E]|[[Hargs [n E]]|[[Hargs [n [e E]]]|[Hargs [lm [cl Hfile]]]]]]].
  - rewrite E in Hop. destruct Hop.
  - rewrite E in Hop. destruct Hop.
  - rewrite E in Hop. cbn [fst] in Hop. apply In_firstn in Hop.
    rewrite (Hall (resolve_filepath self env args)).
    + apply resolve_filepath_under_root; try assumption; apply Hargs.
    + cbn [all_calls stat_calls In] in *. tauto.
  - rewrite E in Hop. cbn [fst] in Hop. apply In_firstn in Hop.
    rewrite (Hall (resolve_filepath self env args)).
    + apply resolve_filepath_under_root; try assumption; apply Hargs.
    + cbn [all_calls stat_calls In] in *. tauto.
  - rewrite (Hall (resolve_filepath self env args)).
    + apply resolve_filepath_under_root; try assumption; apply Hargs.
    + rewrite (default_regular_file self w env args lm cl Hargs Hfile) in Hop.
      cbv zeta in Hop.
      destruct (has_been_modified w env (generate_etag lm cl) lm) as [r|[|]];
        [| destruct (open_rb w _) |]; cbn [fst stat_calls List.app In] in Hop;
        cbn [all_calls In]; tauto.
Qed.

Lemma filesystem_confined_to_root_witness :
  Forall (fun op => startswith (op_path op) "/srv/app/public" = true)
         [op_getmtime Sample.css; op_getsize Sample.css; op_isfile Sample.css;
          op_open Sample.css].
Proof.
  apply (filesystem_confined_to_root Sample.controller Sample.platform
           (Sample.request "GET" "/static/css/style.css" None None)
           ["css"; "style"]).
  - reflexivity.
  - reflexivity.
  - repeat constructor.
Defined.

(* ================================================================= *)
(** ** HTTP dates *)

(** A check made on every number of a range holds for each of them. *)
Lemma forall_range (p : Z -> bool) (lo : Z) (n : nat) :
  forallb (fun k => p (lo + Z.of_nat k)) (seq 0 n) = true ->
  forall z, lo <= z < lo + Z.of_nat n -> p z = true.
Proof.
  intros H z Hz. rewrite forallb_forall in H.
  specialize (H (Z.to_nat (z - lo))).
  replace (lo + Z.of_nat (Z.to_nat (z - lo))) with z in H by lia.
  apply H. apply in_seq. lia.
Qed.

Lemma fmt_02d_length (n : Z) : 0 <= n < 100 -> String.length (fmt_02d n) = 2%nat.
Proof.
  intros H. apply Nat.eqb_eq.
  apply (forall_range (fun z => Nat.eqb (String.length (fmt_02d z)) 2) 0 100);
    [vm_compute; reflexivity|lia].
Qed.

Lemma year_length (y : Z) : 1000 <= y <= 9999 -> String.length (str_int y) = 4%nat.
Proof.
  intros H. apply Nat.eqb_eq.
  apply (forall_range (fun z => Nat.eqb (String.length (str_int z)) 4) 1000
           (Z.to_nat 9000));
    [vm_compute; reflexivity|lia].
Qed.

Lemma name_length (names : list string) (i : Z) :
  forallb (fun s => Nat.eqb (String.length s) 3) names = true ->
  0 <= i < Z.of_nat (List.length names) ->
  String.length (getitem names i) = 3%nat.
Proof.
  intros H Hi. unfold getitem.
  replace (i <? 0) with false by (symmetry; apply Z.ltb_ge; lia).
  rewrite forallb_forall in H. apply Nat.eqb_eq, H, nth_In. lia.
Qed.

(** The civil date of a day between 1000-01-01 and 9999-12-31. *)
Lemma civil_from_days_fields (days : Z) :
  -354285 <= days < 2932897 ->
  let '(y, m, d) := civil_from_days days in
  1000 <= y <= 9999 /\ 1 <= m <= 12 /\ 1 <= d <= 31.
Proof.
  unfold civil_from_days. cbv zeta. intros H.
  destruct (_ <? 10) eqn:E1; [apply Z.ltb_lt in E1|apply Z.ltb_ge in E1];
    destruct (_ <=? 2) eqn:E2; [apply Z.leb_le in E2|apply Z.leb_gt in E2
                                |apply Z.leb_le in E2|apply Z.leb_gt in E2];
    repeat split; Z.div_mod_to_equations; lia.
Qed.

(** [gmtime] gives calendar fields. *)
Lemma gmtime_fields (t : Z) :
  -30610224000 <= t < 253402300800 -> fields_in_range (gmtime t).
Proof.
  intros Ht. unfold fields_in_range, gmtime.
  assert (Hdays : -354285 <= t / 86400 < 2932897) by (Z.div_mod_to_equations; lia).
  assert (Hrem : 0 <= t mod 86400 < 86400) by (apply Z.mod_pos_bound; lia).
  set (days := t / 86400) in *. set (rem := t mod 86400) in *.
  clearbody days rem.
  pose proof (civil_from_days_fields days Hdays) as Hcivil.
  destruct (civil_from_days days) as [[y m] d].
  cbn [tm_year tm_mon tm_mday tm_hour tm_min tm_sec tm_wday].
  repeat split; try tauto; Z.div_mod_to_equations; lia.
Qed.

(** X17. For a date in the years 1000 to 9999, given as a timestamp or
    as a [datetime], [make_date] returns a text of exactly 29 characters:
    the weekday and month are found in their tuples, and the day, hour,
    minute and second take two digits each. *)
Theorem make_date_fixed_width (d : date_arg) :
  date_in_range d -> String.length (make_date d) = 29%nat.
Proof.
  intros H.
  assert (Hf : fields_in_range
                 (match d with of_datetime utc => utc | of_timestamp t => gmtime t end)).
  { destruct d as [utc|t]; [exact H|apply gmtime_fields; exact H]. }
  unfold make_date. cbv zeta.
  set (u := match d with of_datetime utc => utc | of_timestamp t => gmtime t end) in *.
  destruct Hf as [Hy [Hmon [Hday [Hh [Hm [Hs Hw]]]]]].
  rewrite !length_append.
  rewrite (name_length _ (tm_wday u)) by (try reflexivity; cbn; lia).
  rewrite (name_length _ (tm_mon u - 1)) by (try reflexivity; cbn; lia).
  rewrite year_length by assumption.
  rewrite !fmt_02d_length by lia.
  reflexivity.
Qed.

Lemma make_date_fixed_width_witness :
  date_in_range (of_timestamp 1700000000) /\
  String.length "Tue, 14 Nov 2023 22:13:20 GMT" = 29%nat.
Proof.
  assert (H : date_in_range (of_timestamp 1700000000)) by (cbn; lia).
  split; [exact H|].
  exact (make_date_fixed_width (of_timestamp 1700000000) H).
Defined.

(* ================================================================= *)
(** ** GET and HEAD *)

Lemma validator_same_for_safe_methods (w : Platform) (env : environ)
    (m m' etag : string) (lm : PyFloat.float) :
  mem m ["GET"; "HEAD"] = true -> mem m' ["GET"; "HEAD"] = true ->
  has_been_modified w (with_method env m) etag lm =
  has_been_modified w (with_method env m') etag lm.
Proof.
  intros Hm Hm'.
  rewrite (has_been_modified_safe w (with_method env m)) by exact Hm.
  rewrite (has_been_modified_safe w (with_method env m')) by exact Hm'.
  reflexivity.
Qed.

(** X19. A HEAD is handled as a GET is: with the same path and headers
    the two make the same filesystem calls and get the same answer, so a
    HEAD for a modified file opens it and is handed the iterable over its
    content. *)
Theorem head_is_handled_as_get (self : StaticController) (w : Platform)
    (env : environ) (args : list string) (m m' : string) :
  mem m ["GET"; "HEAD"] = true -> mem m' ["GET"; "HEAD"] = true ->
  _default self w (with_method env m) args =
  _default self w (with_method env m') args.
Proof.
  intros Hm Hm'. rewrite !default_unfold.
  destruct args as [|a args]; [reflexivity|].
  destruct (truthy_set (INVALID_PATH_PARTS (a :: args))); [reflexivity|].
  cbv zeta.
  change (resolve_filepath self (with_method env m) (a :: args))
    with (resolve_filepath self env (a :: args)).
  change (resolve_filepath self (with_method env m') (a :: args))
    with (resolve_filepath self env (a :: args)).
  set (p := resolve_filepath self env (a :: args)).
  destruct (getmtime w p) as [e|lm]; [reflexivity|].
  destruct (getsize w p) as [e|cl]; [reflexivity|].
  destruct (isfile w p); [|reflexivity].
  rewrite (validator_same_for_safe_methods w env m m' _ lm Hm Hm').
  reflexivity.
Qed.

Lemma head_is_handled_as_get_witness :
  mem "HEAD" ["GET"; "HEAD"] = true /\ mem "GET" ["GET"; "HEAD"] = true /\
  _default Sample.controller Sample.platform
    (Sample.request "HEAD" "/static/css/style.css" None None) ["css"; "style"] =
  _default Sample.controller Sample.platform
    (Sample.request "GET" "/static/css/style.css" None None) ["css"; "style"].
Proof.
  split; [reflexivity|]. split; [reflexivity|].
  exact (head_is_handled_as_get Sample.controller Sample.platform
           (Sample.request "GET" "/static/css/style.css" None None)
           ["css"; "style"] "HEAD" "GET" eq_refl eq_refl).
Defined.

(* ================================================================= *)
(** ** The ETag of a text *)

Lemma generate_etag_injective_any_time_witness :
  0 <= 42 /\
  generate_etag "Tue, 14 Nov 2023 22:13:20 GMT" 42 =
  dquote ++ "Tue, 14 Nov 2023 22:13:20 GMT-42" ++ dquote /\
  (str "Tue, 14 Nov 2023 22:13:20 GMT" = str "Tue, 14 Nov 2023 22:13:20 GMT" /\
   42 = 42).
Proof.
  split; [lia|]. split; [reflexivity|].
  exact (generate_etag_injective_any_time
           "Tue, 14 Nov 2023 22:13:20 GMT" "Tue, 14 Nov 2023 22:13:20 GMT" 42 42
           ltac:(lia) ltac:(lia) eq_refl).
Defined.

